(** * The API gateway of the multimodal assistant

  A shallow embedding of [app/backend/services/flask_app.py] (the Flask
  request handlers) and of the audio step of
  [app/frontend/gradio_app.py], with the properties its design
  description states about them.

  Conventions of the model.
  - A Python [str] is a [string] whose characters are code points below
    256; a Python [float] is an IEEE-754 binary64 value, [spec_float].
  - A value that comes out of [json.loads], or is handed to [jsonify], is
    a [pyval].
  - A handler is a computation in the monad [M]: it threads the store
    (the file system and the number of identifiers drawn so far), may
    raise a Python exception, and emits the events an observer of the
    process would see (files saved, files probed, calls of the model
    manager, tracebacks printed).
  - The operating system is POSIX ([os.sep = "/"], [posixpath.join]). *)

From Stdlib Require Import ZArith NArith Ascii String Floats.SpecFloat.
From stdpp Require Import base option list gmap strings fin_maps.

Local Open Scope Z_scope.
Set Warnings "-register-all".

(** ** Python floats *)

Module PyFloat.

Abbreviation float := spec_float.

Definition prec : Z := 53.
Definition emax : Z := 1024.

(** The literals the handlers use. *)
Definition f0_0 : float := S754_zero false.
Definition f1_0 : float := S754_finite false 4503599627370496 (-52).
Definition f1_2 : float := S754_finite false 5404319552844595 (-52).

(** [float(n)] for an [int]: round to nearest, ties to even; an [int]
    beyond the range raises [OverflowError], which is [None] here. *)
Definition of_int (z : Z) : option float :=
  match binary_normalize prec emax z 0 false with
  | S754_infinity _ => None
  | f => Some f
  end.

Definition is_nan (f : float) : bool :=
  match f with S754_nan => true | _ => false end.

(** [a > b], [a <= b]. *)
Definition gt (a b : float) : bool := SFltb b a.
Definition le (a b : float) : bool := SFleb a b.

(** The builtin [max(a, b)] of two arguments: it keeps the first one
    unless the second compares greater. *)
Definition max (a b : float) : float := if gt b a then b else a.

(** [bool(f)]: every float but the two zeros is true. *)
Definition truthy (f : float) : bool :=
  match f with S754_zero _ => false | _ => true end.

End PyFloat.

Abbreviation float := spec_float.

(** ** Python values and exceptions *)

Inductive pyval : Type :=
| VNone
| VBool (b : bool)
| VInt (z : Z)
| VFloat (f : float)
| VStr (s : string)
| VList (l : list pyval)
| VDict (d : list (string * pyval)).

(** An exception, by the name of its class and the text [str(e)] gives. *)
Record exn : Type := Exn { exn_class : string; exn_str : string }.

Inductive outcome (A : Type) : Type :=
| Ret (a : A)
| Raise (e : exn).
Arguments Ret {A} a.
Arguments Raise {A} e.

(** [d.get(k)] on a dict and on a werkzeug [MultiDict]: the first value
  stored under the key. *)
Fixpoint dict_get {A : Type} (k : string) (d : list (string * A)) : option A :=
  match d with
  | [] => None
  | (k', v) :: d' => if String.eqb k k' then Some v else dict_get k d'
  end.

(** [d[k] = v]: replaces the value of an existing key in place, appends a
  new key at the end. *)
Fixpoint dict_set {A : Type} (k : string) (v : A) (d : list (string * A))
  : list (string * A) :=
  match d with
  | [] => [(k, v)]
  | (k', v') :: d' =>
    if String.eqb k k' then (k, v) :: d' else (k', v') :: dict_set k v d'
  end.

(** [bool(v)], the test behind [if v] and [not v]. *)
Definition truthy (v : pyval) : bool :=
  match v with
  | VNone => false
  | VBool b => b
  | VInt z => negb (z =? 0)
  | VFloat f => PyFloat.truthy f
  | VStr s => negb (String.eqb s "")
  | VList l => match l with [] => false | _ => true end
  | VDict d => match d with [] => false | _ => true end
  end.

(** The name [type(v).__name__] prints in error messages. *)
Definition type_name (v : pyval) : string :=
  match v with
  | VNone => "NoneType"
  | VBool _ => "bool"
  | VInt _ => "int"
  | VFloat _ => "float"
  | VStr _ => "str"
  | VList _ => "list"
  | VDict _ => "dict"
  end.

(** ** Strings *)

Module PyStr.

Definition code (c : ascii) : N := N_of_ascii c.

Definition in_range (lo hi : N) (c : ascii) : bool :=
  ((lo <=? code c) && (code c <=? hi))%N.

Definition is_upper (c : ascii) : bool := in_range 65 90 c.
Definition is_lower (c : ascii) : bool := in_range 97 122 c.
Definition is_digit (c : ascii) : bool := in_range 48 57 c.
Definition is_alnum (c : ascii) : bool := is_upper c || is_lower c || is_digit c.

(** [str.isspace] on the code points below 128. *)
Definition is_space (c : ascii) : bool :=
  in_range 9 13 c || in_range 28 32 c.

(** [str.lower] on one code point below 256: the ASCII capitals and the
    Latin-1 capitals (all of U+00C0..U+00DE but the multiplication
    sign) move up by 32. *)
Definition lower_char (c : ascii) : ascii :=
  if is_upper c || (in_range 192 222 c && negb (code c =? 215)%N)
  then ascii_of_N (code c + 32) else c.

Fixpoint lower (s : string) : string :=
  match s with
  | EmptyString => EmptyString
  | String c s' => String (lower_char c) (lower s')
  end.

Fixpoint map (f : ascii → ascii) (s : string) : string :=
  match s with
  | EmptyString => EmptyString
  | String c s' => String (f c) (map f s')
  end.

Fixpoint filter (p : ascii → bool) (s : string) : string :=
  match s with
  | EmptyString => EmptyString
  | String c s' => if p c then String c (filter p s') else filter p s'
  end.

Fixpoint forallb (p : ascii → bool) (s : string) : bool :=
  match s with
  | EmptyString => true
  | String c s' => p c && forallb p s'
  end.

Definition startswith (c : ascii) (s : string) : bool :=
  match s with
  | String c' _ => Ascii.eqb c c'
  | EmptyString => false
  end.

Fixpoint endswith (c : ascii) (s : string) : bool :=
  match s with
  | EmptyString => false
  | String c' EmptyString => Ascii.eqb c c'
  | String _ s' => endswith c s'
  end.

(** [s.split()]: the maximal runs of characters that are not white
    space. *)
Fixpoint split (s : string) : list string :=
  match s with
  | EmptyString => []
  | String c s' =>
      if is_space c then split s'
      else match s' with
           | EmptyString => [String c EmptyString]
           | String c' _ =>
               if is_space c' then String c EmptyString :: split s'
               else match split s' with
                    | w :: ws => String c w :: ws
                    | [] => [String c EmptyString]
                    end
           end
  end.

(** [sep.join(ws)] *)
Fixpoint join (sep : string) (ws : list string) : string :=
  match ws with
  | [] => EmptyString
  | [w] => w
  | w :: ws' => w +:+ sep +:+ join sep ws'
  end.

(** [s.lstrip(chars)], [s.rstrip(chars)], [s.strip(chars)] with the set
    of characters given as a predicate. *)
Fixpoint lstrip (p : ascii → bool) (s : string) : string :=
  match s with
  | EmptyString => EmptyString
  | String c s' => if p c then lstrip p s' else s
  end.

Fixpoint rstrip (p : ascii → bool) (s : string) : string :=
  match s with
  | EmptyString => EmptyString
  | String c s' =>
      match rstrip p s' with
      | EmptyString => if p c then EmptyString else String c EmptyString
      | r => String c r
      end
  end.

Definition strip (p : ascii → bool) (s : string) : string :=
  rstrip p (lstrip p s).

End PyStr.

(** [os.path.join(a, b)] of [posixpath]. *)
Definition path_join (a b : string) : string :=
  if PyStr.startswith "/" b then b
  else if String.eqb a "" || PyStr.endswith "/" a then a +:+ b
  else a +:+ "/" +:+ b.

(** ** [werkzeug.utils.secure_filename]

  The function normalises the name to NFKD and drops what is not ASCII,
  turns path separators into spaces, joins the white-space separated
  words with underscores, deletes every character outside
  [A-Za-z0-9_.-], and strips dots and underscores from both ends.  The
  Unicode tables are not part of this program: [ascii_fold c] stands for
  the ASCII characters that the decomposition of a code point [c] above
  127 leaves. *)

Section SecureFilename.

Variable ascii_fold : ascii → string.

Fixpoint to_ascii (s : string) : string :=
  match s with
  | EmptyString => EmptyString
  | String c s' =>
      if (PyStr.code c <? 128)%N then String c (to_ascii s')
      else ascii_fold c +:+ to_ascii s'
  end.

Definition sep_to_space (c : ascii) : ascii :=
  if Ascii.eqb c "/" then " "%char else c.

(** The complement of [_filename_ascii_strip_re]. *)
Definition filename_char (c : ascii) : bool :=
  PyStr.is_alnum c || Ascii.eqb c "_" || Ascii.eqb c "." || Ascii.eqb c "-".

Definition dot_or_underscore (c : ascii) : bool :=
  Ascii.eqb c "." || Ascii.eqb c "_".

Definition secure_filename (filename : string) : string :=
  let filename := to_ascii filename in
  let filename := PyStr.map sep_to_space filename in
  PyStr.strip dot_or_underscore
    (PyStr.filter filename_char (PyStr.join "_" (PyStr.split filename))).

End SecureFilename.

(** ** [uuid.uuid4()] and its text

    A version-4 identifier is 128 random bits with the version and the
    variant fields forced; [str] prints the 32 hexadecimal digits in
    groups of 8, 4, 4, 4 and 12. *)

Module Uuid.

Definition hex_digit (d : N) : ascii :=
  match d with
  | 0 => "0" | 1 => "1" | 2 => "2" | 3 => "3" | 4 => "4" | 5 => "5"
  | 6 => "6" | 7 => "7" | 8 => "8" | 9 => "9" | 10 => "a" | 11 => "b"
  | 12 => "c" | 13 => "d" | 14 => "e" | _ => "f"
  end%N%char.

(** The [k] lowest hexadecimal digits of [n], followed by [acc]. *)
Fixpoint hex (k : nat) (n : N) (acc : string) : string :=
  match k with
  | O => acc
  | S k' => hex k' (n / 16) (String (hex_digit (n mod 16)) acc)
  end.

(** [UUID(int=n, version=4)]: clear and set the variant bits, then the
    version bits. *)
Definition version4 (n : N) : N :=
  let n := N.ldiff n (N.shiftl 0xc000 48) in
  let n := N.lor n (N.shiftl 0x8000 48) in
  let n := N.ldiff n (N.shiftl 0xf000 64) in
  N.lor n (N.shiftl 4 76).

(** [str(u)]: the digits at bit offsets 96, 80, 64, 48 and 0. *)
Definition to_str (n : N) : string :=
  hex 8 (N.shiftr n 96)
    (String "-" (hex 4 (N.shiftr n 80)
      (String "-" (hex 4 (N.shiftr n 64)
        (String "-" (hex 4 (N.shiftr n 48)
          (String "-" (hex 12 n EmptyString)))))))).

Definition is_hex (c : ascii) : bool :=
  PyStr.is_digit c || PyStr.in_range 97 102 c.

Definition is_uuid_char (c : ascii) : bool :=
  is_hex c || Ascii.eqb c "-".

End Uuid.

(** ** The world around a handler *)

Abbreviation filesystem := (gmap string string).

(** What a handler does that can be observed from outside. *)
Inductive event : Type :=
| EvSave (path : string)
| EvExists (path : string)
| EvGetsize (path : string)
| EvTranscribe (audio_path : string)
| EvQuery (image_path query : string)
| EvSpeech (text voice : pyval) (speed : float)
| EvVoices
| EvVoicesByLanguage
| EvTraceback (e : exn).

(** The model manager, [app.backend.utils.model_manager.ModelManager].
    Its code is not part of the gateway: every operation is an arbitrary
    function of its arguments and of the file system, which it may
    change, and any of them may raise. *)
Record ModelManager : Type := {
  mm_transcribe_audio : string → filesystem → outcome string * filesystem;
  mm_process_image_and_query :
    string → string → filesystem → outcome string * filesystem;
  mm_text_to_speech :
    pyval → pyval → float → filesystem → outcome string * filesystem;
  mm_get_available_voices : outcome (gmap string (list (string * pyval)));
  mm_get_voices_by_language : outcome (gmap string (list string));
}.

(** The configuration and the library behaviour a handler depends on. *)
Record env : Type := {
  (** [app.config['UPLOAD_FOLDER']] *)
  UPLOAD_FOLDER : string;
  model_manager : ModelManager;
  (** the 128 random bits of the [n]-th identifier drawn *)
  urandom : nat → N;
  (** [float(s)] for a [str]; [None] when it raises [ValueError] *)
  float_of_str : string → option float;
  (** [repr(s)] *)
  repr : string → string;
  (** see [secure_filename] *)
  ascii_fold : ascii → string;
  (** [FileStorage.save(path)] failing on this path, with the exception *)
  save_error : string → option exn;
}.

Record store : Type := {
  st_fs : filesystem;
  st_uuids : nat;
}.

(** An uploaded file, werkzeug's [FileStorage]. *)
Record FileStorage : Type := {
  filename : string;
  content : string;
}.

(** The parts of [flask.request] the handlers read.  Each is computed when
    the handler first touches it, and that may raise (a body that is too
    large, a body that is not JSON). *)
Record request : Type := {
  files : outcome (list (string * FileStorage));
  form : outcome (list (string * string));
  json : outcome pyval;
}.

(** What a view function returns: [jsonify(body), status]. *)
Definition response : Type := pyval * nat.

(** ** The monad of handlers *)

Definition M (A : Type) : Type := store → outcome A * store * list event.

Definition ret {A} (a : A) : M A := λ s, (Ret a, s, []).

Definition raise {A} (e : exn) : M A := λ s, (Raise e, s, []).

Definition bind {A B} (m : M A) (k : A → M B) : M B :=
  λ s,
    match m s with
    | (Ret a, s1, t1) => let '(r, s2, t2) := k a s1 in (r, s2, t1 ++ t2)
    | (Raise e, s1, t1) => (Raise e, s1, t1)
    end.

Definition lift {A} (o : outcome A) : M A := λ s, (o, s, []).

Definition emit (ev : event) : M unit := λ s, (Ret tt, s, [ev]).

Declare Scope py_scope.
Delimit Scope py_scope with py.
Notation "x <- m ;; k" := (bind m (λ x, k))
  (at level 100, m at next level, right associativity) : py_scope.
Notation "m ;;; k" := (bind m (λ _, k))
  (at level 100, right associativity) : py_scope.
Local Open Scope py_scope.

(** [try: body  except Exception as e: traceback.print_exc(); return
    jsonify({'error': msg, 'details': str(e)}), 500].  Interrupts and
    exits are no [Exception] and are not modelled. *)
Definition error_envelope (msg : string) (e : exn) : response :=
  (VDict [("error", VStr msg); ("details", VStr (exn_str e))], 500%nat).

Definition try_except (body : M response) (msg : string)
  : store → response * store * list event :=
  λ s,
    match body s with
    | (Ret r, s1, t1) => (r, s1, t1)
    | (Raise e, s1, t1) => (error_envelope msg e, s1, t1 ++ [EvTraceback e])
    end.

(** ** The handlers of [flask_app.py] *)

Section Gateway.

Variable E : env.

Definition with_fs (s : store) (fs : filesystem) : store :=
  {| st_fs := fs; st_uuids := st_uuids s |}.

(** [str(uuid.uuid4())] *)
Definition uuid_str (n : nat) : string :=
  Uuid.to_str (Uuid.version4 (urandom E n)).

Definition uuid4 : M string :=
  λ s, (Ret (uuid_str (st_uuids s)),
        {| st_fs := st_fs s; st_uuids := S (st_uuids s) |}, []).

(** [file.save(path)] *)
Definition save (file : FileStorage) (path : string) : M unit :=
  λ s,
    match save_error E path with
    | Some e => (Raise e, s, [])
    | None => (Ret tt, with_fs s (<[path := content file]> (st_fs s)),
               [EvSave path])
    end.

(** [os.path.exists(path)] and [os.path.getsize(path)] *)
Definition os_path_exists (path : string) : M bool :=
  λ s, (Ret (bool_decide (is_Some (st_fs s !! path))), s, [EvExists path]).

Definition os_path_getsize (path : string) : M nat :=
  λ s,
    match st_fs s !! path with
    | Some c => (Ret (String.length c), s, [EvGetsize path])
    | None =>
        (Raise (Exn "FileNotFoundError"
                  ("[Errno 2] No such file or directory: " +:+ repr E path)),
         s, [EvGetsize path])
    end.

(** The calls of [model_manager]. *)
Definition call_transcribe_audio (audio_path : string) : M string :=
  λ s,
    let '(o, fs) := mm_transcribe_audio (model_manager E) audio_path (st_fs s) in
    (o, with_fs s fs, [EvTranscribe audio_path]).

Definition call_process_image_and_query (image_path query : string) : M string :=
  λ s,
    let '(o, fs) :=
      mm_process_image_and_query (model_manager E) image_path query (st_fs s) in
    (o, with_fs s fs, [EvQuery image_path query]).

Definition call_text_to_speech (text voice : pyval) (speed : float) : M string :=
  λ s,
    let '(o, fs) :=
      mm_text_to_speech (model_manager E) text voice speed (st_fs s) in
    (o, with_fs s fs, [EvSpeech text voice speed]).

Definition call_get_available_voices : M (gmap string (list (string * pyval))) :=
  λ s, (mm_get_available_voices (model_manager E), s, [EvVoices]).

Definition call_get_voices_by_language : M (gmap string (list string)) :=
  λ s, (mm_get_voices_by_language (model_manager E), s, [EvVoicesByLanguage]).

(** [float(v)] *)
Definition py_float (v : pyval) : outcome float :=
  match v with
  | VFloat f => Ret f
  | VBool b => Ret (if b then PyFloat.f1_0 else PyFloat.f0_0)
  | VInt z =>
      match PyFloat.of_int z with
      | Some f => Ret f
      | None => Raise (Exn "OverflowError" "int too large to convert to float")
      end
  | VStr s =>
      match float_of_str E s with
      | Some f => Ret f
      | None =>
          Raise (Exn "ValueError"
                   ("could not convert string to float: " +:+ repr E s))
      end
  | _ =>
      Raise (Exn "TypeError"
               ("float() argument must be a string or a real number, not '"
                +:+ type_name v +:+ "'"))
  end.

(** [data.get(k, default)] on what [request.json] returned. *)
Definition py_get (data : pyval) (k : string) (default : pyval) : outcome pyval :=
  match data with
  | VDict d => Ret (from_option id default (dict_get k d))
  | _ =>
      Raise (Exn "AttributeError"
               ("'" +:+ type_name data +:+ "' object has no attribute 'get'"))
  end.

(** [secure_filename(f"{uuid.uuid4()}_{file.filename}")] joined to the
    upload folder. *)
Definition stored_name (u name : string) : string :=
  secure_filename (ascii_fold E) (u +:+ "_" +:+ name).

Definition stored_path (u name : string) : string :=
  path_join (UPLOAD_FOLDER E) (stored_name u name).

Definition err (msg : string) (status : nat) : response :=
  (VDict [("error", VStr msg)], status).

(** *** [/api/transcribe] *)
Definition transcribe_audio_body (r : request) : M response :=
  fs <- lift (files r) ;;
  match dict_get "audio" fs with
  | None => ret (err "No audio file provided" 400)
  | Some audio_file =>
      if String.eqb (filename audio_file) "" then
        ret (err "Empty audio filename" 400)
      else
        u <- uuid4 ;;
        let audio_path := stored_path u (filename audio_file) in
        save audio_file audio_path ;;;
        transcription <- call_transcribe_audio audio_path ;;
        ret (VDict [("transcription", VStr transcription);
                    ("audio_path", VStr audio_path)], 200%nat)
  end.

Definition transcribe_audio (r : request) :=
  try_except (transcribe_audio_body r)
    "An error occurred during transcription.".

(** *** [/api/generate_response] *)
Definition generate_response_body (r : request) : M response :=
  data <- lift (form r) ;;
  let image_path := dict_get "image_path" data in
  let query := dict_get "query" data in
  match image_path with
  | None | Some EmptyString => ret (err "No image provided" 400)
  | Some image_path =>
      match query with
      | None | Some EmptyString => ret (err "No query provided" 400)
      | Some query =>
          response_text <- call_process_image_and_query image_path query ;;
          ret (VDict [("response", VStr response_text)], 200%nat)
      end
  end.

Definition generate_response (r : request) :=
  try_except (generate_response_body r)
    "An error occurred while generating the response.".

(** *** [/api/text_to_speech] *)
Definition text_to_speech_body (r : request) : M response :=
  data <- lift (json r) ;;
  text <- lift (py_get data "text" VNone) ;;
  voice <- lift (py_get data "voice" (VStr "af_heart")) ;;
  speed <- lift (py_get data "speed" (VFloat PyFloat.f1_0)) ;;
  speed <- lift (py_float speed) ;;
  high_performance <- lift (py_get data "high_performance" (VBool false)) ;;
  if negb (truthy text) then ret (err "No text provided" 400)
  else
    let speed :=
      if truthy high_performance then PyFloat.max speed PyFloat.f1_2
      else speed in
    audio_response_path <- call_text_to_speech text voice speed ;;
    let audio_full_path := path_join (UPLOAD_FOLDER E) audio_response_path in
    present <- os_path_exists audio_full_path ;;
    failed <- (if negb present then ret true
               else size <- os_path_getsize audio_full_path ;;
                    ret (Nat.eqb size 0)) ;;
    if (failed : bool) then
      ret (err "Audio generation failed. The audio file is missing or empty."
             500)
    else
      ret (VDict [("audio_response", VStr audio_response_path)], 200%nat).

Definition text_to_speech (r : request) :=
  try_except (text_to_speech_body r)
    "An error occurred during text-to-speech conversion.".

(** *** [/api/voices] *)
Definition jsonify_voices (voices : gmap string (list (string * pyval))) : pyval :=
  VDict (map_to_list (VDict <$> voices)).

Definition get_voices_body : M response :=
  voices <- call_get_available_voices ;;
  ret (jsonify_voices voices, 200%nat).

Definition get_voices :=
  try_except get_voices_body "An error occurred while retrieving voices.".

(** *** [/api/voices_by_language] *)

(** The inner loop: the descriptors of the ids the catalog knows, each
    copied and given its id. *)
Definition voices_info_of (voices_data : gmap string (list (string * pyval)))
  (voice_ids : list string) : list pyval :=
  foldl (λ voices_info voice_id,
           match voices_data !! voice_id with
           | Some voice_info =>
               voices_info ++ [VDict (dict_set "id" (VStr voice_id) voice_info)]
           | None => voices_info
           end) [] voice_ids.

(** The outer loop over [voices_by_language.items()]. *)
Definition build_response (voices_data : gmap string (list (string * pyval)))
  (voices_by_language : gmap string (list string)) : gmap string (list pyval) :=
  foldl (λ response '(language, voice_ids),
           <[language := voices_info_of voices_data voice_ids]> response)
    ∅ (map_to_list voices_by_language).

Definition jsonify_by_language (response : gmap string (list pyval)) : pyval :=
  VDict (map_to_list (VList <$> response)).

Definition get_voices_by_language_body : M response :=
  voices_by_language <- call_get_voices_by_language ;;
  voices_data <- call_get_available_voices ;;
  ret (jsonify_by_language (build_response voices_data voices_by_language),
       200%nat).

Definition get_voices_by_language :=
  try_except get_voices_by_language_body
    "An error occurred while retrieving voices by language.".

(** *** [/api/process] *)
Definition form_high_performance (fm : list (string * string)) : bool :=
  String.eqb
    (PyStr.lower (from_option id "false" (dict_get "high_performance" fm)))
    "true".

Definition form_speed (fm : list (string * string)) : pyval :=
  match dict_get "speed" fm with
  | Some s => VStr s
  | None => VFloat PyFloat.f1_0
  end.

Definition process_query_body (r : request) : M response :=
  fs <- lift (files r) ;;
  match dict_get "image" fs with
  | None => ret (err "No image file provided" 400)
  | Some image_file =>
  if String.eqb (filename image_file) "" then
    ret (err "Empty image filename" 400)
  else
  match dict_get "audio" fs with
  | None => ret (err "No audio file provided" 400)
  | Some audio_file =>
  if String.eqb (filename audio_file) "" then
    ret (err "Empty audio filename" 400)
  else
    fm <- lift (form r) ;;
    let high_performance := form_high_performance fm in
    let voice := from_option id "af_heart" (dict_get "voice" fm) in
    speed <- lift (py_float (form_speed fm)) ;;
    let speed :=
      if high_performance then PyFloat.max speed PyFloat.f1_2 else speed in
    u1 <- uuid4 ;;
    u2 <- uuid4 ;;
    let image_path := stored_path u1 (filename image_file) in
    let audio_path := stored_path u2 (filename audio_file) in
    save image_file image_path ;;;
    save audio_file audio_path ;;;
    transcription <- call_transcribe_audio audio_path ;;
    response_text <- call_process_image_and_query image_path transcription ;;
    audio_response_path <-
      call_text_to_speech (VStr response_text) (VStr voice) speed ;;
    ret (VDict [("transcription", VStr transcription);
                ("response", VStr response_text);
                ("audio_response", VStr audio_response_path)], 200%nat)
  end
  end.

Definition process_query (r : request) :=
  try_except (process_query_body r)
    "An internal error occurred. Please try again later.".

(** *** [/api/health] *)
Definition health_check : store → response * store * list event :=
  λ s, ((VDict [("status", VStr "ok")], 200%nat), s, []).

End Gateway.

(** ** The routing table *)

Inductive endpoint : Type :=
| ApiTranscribe
| ApiGenerateResponse
| ApiTextToSpeech
| ApiVoices
| ApiVoicesByLanguage
| ApiProcess
| ApiHealth.

Definition dispatch (E : env) (ep : endpoint) (r : request)
  : store → response * store * list event :=
  match ep with
  | ApiTranscribe => transcribe_audio E r
  | ApiGenerateResponse => generate_response E r
  | ApiTextToSpeech => text_to_speech E r
  | ApiVoices => get_voices E
  | ApiVoicesByLanguage => get_voices_by_language E
  | ApiProcess => process_query E r
  | ApiHealth => health_check
  end.

(** The body a handler guards, and the fixed message of its [except]
    clause; [/api/health] has neither. *)
Definition handler_body (E : env) (ep : endpoint) (r : request)
  : option (M response * string) :=
  match ep with
  | ApiTranscribe =>
      Some (transcribe_audio_body E r, "An error occurred during transcription.")
  | ApiGenerateResponse =>
      Some (generate_response_body E r,
            "An error occurred while generating the response.")
  | ApiTextToSpeech =>
      Some (text_to_speech_body E r,
            "An error occurred during text-to-speech conversion.")
  | ApiVoices =>
      Some (get_voices_body E, "An error occurred while retrieving voices.")
  | ApiVoicesByLanguage =>
      Some (get_voices_by_language_body E,
            "An error occurred while retrieving voices by language.")
  | ApiProcess =>
      Some (process_query_body E r,
            "An internal error occurred. Please try again later.")
  | ApiHealth => None
  end.

(** ** Reading a trace *)

Definition is_model_call (ev : event) : bool :=
  match ev with
  | EvTranscribe _ | EvQuery _ _ | EvSpeech _ _ _ | EvVoices
  | EvVoicesByLanguage => true
  | _ => false
  end.

(** The operation of the model manager an event is a call of. *)
Inductive operation : Type :=
| OpTranscribe | OpQuery | OpSpeech | OpVoices | OpVoicesByLanguage.

Global Instance operation_eq_dec : EqDecision operation.
Proof. solve_decision. Defined.

Definition operation_of (ev : event) : option operation :=
  match ev with
  | EvTranscribe _ => Some OpTranscribe
  | EvQuery _ _ => Some OpQuery
  | EvSpeech _ _ _ => Some OpSpeech
  | EvVoices => Some OpVoices
  | EvVoicesByLanguage => Some OpVoicesByLanguage
  | _ => None
  end.

Definition model_calls (t : list event) : list event :=
  List.filter is_model_call t.

Definition saved_paths (t : list event) : list string :=
  omap (λ ev, match ev with EvSave p => Some p | _ => None end) t.

Definition speeds_passed (t : list event) : list float :=
  omap (λ ev, match ev with EvSpeech _ _ sp => Some sp | _ => None end) t.

Definition probed_paths (t : list event) : list string :=
  omap (λ ev, match ev with
              | EvExists p | EvGetsize p => Some p
              | _ => None
              end) t.

Definition status (r : response) : nat := r.2.

Definition body_field (k : string) (r : response) : option pyval :=
  match r.1 with
  | VDict d => dict_get k d
  | _ => None
  end.

(** ** The audio step of the client, [gradio_app.generate_audio_response] *)

Section Client.

(** [requests.post(TTS_API_URL, json=json_data)]: the status code and the
    decoded body of the answer, or the exception the call raised. *)
Variable post : pyval → outcome (nat * pyval).

(** [voices_options], display names to ids by language. *)
Variable voices_options : list (string * list (string * string)).

(** The [UPLOAD_FOLDER] entry of the client's own [.env], if any. *)
Variable client_upload_folder : option string.

Definition voice_id_of (language voice_selection : string) : string :=
  from_option id "af_heart"
    (dict_get voice_selection
       (from_option id [] (dict_get language voices_options))).

(** What the client makes of the answer: the [audio_response] joined to
    its own upload folder.  A value that is false gives [None]; so does a
    value that is no [str], since joining it raises and the client
    catches that. *)
Definition audio_path_of (status_code : nat) (result : pyval) : option string :=
  if Nat.eqb status_code 200 then
    match result with
    | VDict d =>
        match dict_get "audio_response" d with
        | Some (VStr audio_file) =>
            if String.eqb audio_file "" then None
            else Some (path_join
                         (from_option id "app/uploads" client_upload_folder)
                         audio_file)
        | _ => None
        end
    | _ => None
    end
  else None.

Definition generate_audio_response
  (response_text language voice_selection : string) (speed : float)
  : option string :=
  if String.eqb response_text ""
     || String.prefix "Error" response_text
     || String.prefix "Please" response_text
  then None
  else
    let voice_id := voice_id_of language voice_selection in
    let json_data :=
      VDict [("text", VStr response_text); ("voice", VStr voice_id);
             ("speed", VFloat speed)] in
    match post json_data with
    | Raise _ => None
    | Ret (status_code, result) => audio_path_of status_code result
    end.

End Client.

(** The transport when client and gateway talk without loss: the posted
    document becomes [request.json]. *)
Definition json_request (doc : pyval) : request :=
  {| files := Ret []; form := Ret []; json := Ret doc |}.

Definition post_text_to_speech (E : env) (s : store) (doc : pyval)
  : outcome (nat * pyval) :=
  let '(r, _, _) := text_to_speech E (json_request doc) s in
  Ret (status r, r.1).

(** ** The voice catalog of the model manager *)

(** Modelled from the spec: the catalog operations of the Capability
    Delegate ([ModelManager.get_available_voices] and
    [ModelManager.get_voices_by_language]), whose code is not in the
    gateway.  A voice descriptor has a display name, a gender and a
    language; [listVoices] returns the mapping from voice id to
    descriptor, [listVoicesByLanguage] the ids grouped by the
    language of their descriptor. *)
Record VoiceDescriptor : Type := {
  vd_name : string;
  vd_gender : string;
  vd_language : string;
}.

Definition descriptor_dict (v : VoiceDescriptor) : list (string * pyval) :=
  [("name", VStr (vd_name v)); ("gender", VStr (vd_gender v));
   ("language", VStr (vd_language v))].

Definition list_voices (catalog : gmap string VoiceDescriptor)
  : gmap string (list (string * pyval)) :=
  descriptor_dict <$> catalog.

Definition group_by_language (items : list (string * VoiceDescriptor))
  : gmap string (list string) :=
  foldr (λ '(voice_id, v) groups,
           <[vd_language v :=
               voice_id :: from_option id [] (groups !! vd_language v)]> groups)
    ∅ items.

Definition list_voices_by_language (catalog : gmap string VoiceDescriptor)
  : gmap string (list string) :=
  group_by_language (map_to_list catalog).

(** A gateway whose model manager serves this catalog. *)
Definition with_catalog (catalog : gmap string VoiceDescriptor) (E : env) : env :=
  {| UPLOAD_FOLDER := UPLOAD_FOLDER E;
     model_manager :=
       {| mm_transcribe_audio := mm_transcribe_audio (model_manager E);
          mm_process_image_and_query :=
            mm_process_image_and_query (model_manager E);
          mm_text_to_speech := mm_text_to_speech (model_manager E);
          mm_get_available_voices := Ret (list_voices catalog);
          mm_get_voices_by_language := Ret (list_voices_by_language catalog) |};
     urandom := urandom E;
     float_of_str := float_of_str E;
     repr := repr E;
     ascii_fold := ascii_fold E;
     save_error := save_error E |}.

(** The voice ids of the two answers: the keys of the [/api/voices]
    document, and the [id] fields of all entries of the
    [/api/voices_by_language] document. *)
Definition catalog_ids (body : pyval) : list string :=
  match body with
  | VDict items => items.*1
  | _ => []
  end.

Definition entry_id (entry : pyval) : option string :=
  match entry with
  | VDict d =>
      match dict_get "id" d with
      | Some (VStr i) => Some i
      | _ => None
      end
  | _ => None
  end.

Definition group_ids (group : pyval) : list string :=
  match group with
  | VList entries => omap entry_id entries
  | _ => []
  end.

Definition flattened_ids (body : pyval) : list string :=
  match body with
  | VDict items => concat (group_ids <$> items.*2)
  | _ => []
  end.

(** ** The vocabulary of the properties *)

(** The three parts of what running a handler gives. *)
Definition answer {A B C : Type} (x : A * B * C) : A := x.1.1.
Definition final {A B C : Type} (x : A * B * C) : B := x.1.2.
Definition trace {A B C : Type} (x : A * B * C) : C := x.2.

(** A required upload is missing: no such part, or an empty file name. *)
Definition missing_file (k : string) (fs : list (string * FileStorage)) : bool :=
  match dict_get k fs with
  | None => true
  | Some f => String.eqb (filename f) ""
  end.

(** A required form field is missing: no such field, or an empty value. *)
Definition missing_field (k : string) (fm : list (string * string)) : bool :=
  match dict_get k fm with
  | None | Some EmptyString => true
  | Some _ => false
  end.

(** The request reaches the handler and omits something it requires. *)
Definition omits_required (ep : endpoint) (r : request) : bool :=
  match ep with
  | ApiTranscribe =>
      match files r with
      | Ret fs => missing_file "audio" fs
      | _ => false
      end
  | ApiGenerateResponse =>
      match form r with
      | Ret fm => missing_field "image_path" fm || missing_field "query" fm
      | _ => false
      end
  | ApiTextToSpeech =>
      match json r with
      | Ret (VDict d) => negb (truthy (from_option id VNone (dict_get "text" d)))
      | _ => false
      end
  | ApiProcess =>
      match files r with
      | Ret fs => missing_file "image" fs || missing_file "audio" fs
      | _ => false
      end
  | _ => false
  end.

(** The optional [speed] field as the client sent it, if it sent one. *)
Definition speed_field (ep : endpoint) (r : request) : option pyval :=
  match ep with
  | ApiTextToSpeech =>
      match json r with
      | Ret (VDict d) => dict_get "speed" d
      | _ => None
      end
  | ApiProcess =>
      match form r with
      | Ret fm => VStr <$> dict_get "speed" fm
      | _ => None
      end
  | _ => None
  end.

(** The speed the client asks for: its [speed] field as a float, 1.0
    when it sent none.  Defined for the two endpoints that take a speed,
    when the field can be read at all. *)
Definition requested_speed (E : env) (ep : endpoint) (r : request)
  : option (outcome float) :=
  match ep with
  | ApiTextToSpeech =>
      match json r with
      | Ret (VDict _) =>
          Some (py_float E
                  (from_option id (VFloat PyFloat.f1_0) (speed_field ep r)))
      | _ => None
      end
  | ApiProcess =>
      match form r with
      | Ret _ =>
          Some (py_float E
                  (from_option id (VFloat PyFloat.f1_0) (speed_field ep r)))
      | _ => None
      end
  | _ => None
  end.

(** The high-performance flag of a request, as each endpoint reads it. *)
Definition json_high_performance (d : list (string * pyval)) : bool :=
  truthy (from_option id (VBool false) (dict_get "high_performance" d)).

Definition high_performance_flag (ep : endpoint) (r : request) : bool :=
  match ep with
  | ApiTextToSpeech =>
      match json r with
      | Ret (VDict d) => json_high_performance d
      | _ => false
      end
  | ApiProcess =>
      match form r with
      | Ret fm => form_high_performance fm
      | _ => false
      end
  | _ => false
  end.

(** Following the design description: the effective speed is
    [max(requestedSpeed, 1.2)] when the flag is set, the requested speed
    otherwise. *)
Definition effective_speed (high_performance : bool) (requested : float) : float :=
  if high_performance then PyFloat.max requested PyFloat.f1_2 else requested.

(** Following the design description of [/api/process]: transcribe, then
    answer the query on the image and the transcription, then synthesise
    the answer, each stage only after the one before it returned; the
    first stage that raises ends the run. *)
Definition pipeline (mm : ModelManager) (image_path audio_path voice : string)
  (speed : float) (fs : filesystem)
  : outcome (string * string * string) * filesystem * list event :=
  match mm_transcribe_audio mm audio_path fs with
  | (Raise e, fs1) => (Raise e, fs1, [EvTranscribe audio_path])
  | (Ret transcription, fs1) =>
      match mm_process_image_and_query mm image_path transcription fs1 with
      | (Raise e, fs2) =>
          (Raise e, fs2,
           [EvTranscribe audio_path; EvQuery image_path transcription])
      | (Ret response_text, fs2) =>
          let calls :=
            [EvTranscribe audio_path; EvQuery image_path transcription;
             EvSpeech (VStr response_text) (VStr voice) speed] in
          match mm_text_to_speech mm (VStr response_text) (VStr voice) speed fs2
          with
          | (Raise e, fs3) => (Raise e, fs3, calls)
          | (Ret audio, fs3) =>
              (Ret (transcription, response_text, audio), fs3, calls)
          end
      end
  end.

(** The model manager deletes no file. *)
Definition keeps_files (mm : ModelManager) : Prop :=
  (∀ p fs, dom fs ⊆ dom (mm_transcribe_audio mm p fs).2)
  ∧ (∀ p q fs, dom fs ⊆ dom (mm_process_image_and_query mm p q fs).2)
  ∧ (∀ t v sp fs, dom fs ⊆ dom (mm_text_to_speech mm t v sp fs).2).

(** What [os.path.join] puts before a relative name. *)
Definition upload_prefix (E : env) : string :=
  if String.eqb (UPLOAD_FOLDER E) "" || PyStr.endswith "/" (UPLOAD_FOLDER E)
  then UPLOAD_FOLDER E
  else UPLOAD_FOLDER E +:+ "/".

Definition starts_alnum (name : string) : bool :=
  match name with
  | String c _ => PyStr.is_alnum c
  | EmptyString => false
  end.

(** The identifiers drawn between two stores. *)
Definition uuids_between (E : env) (s s' : store) : list string :=
  uuid_str E <$> seq (st_uuids s) (st_uuids s' - st_uuids s).

(** ** A small installation to run the handlers on *)

Module Demo.

Definition f0_8 : float := S754_finite false 7205759403792794 (-53).
Definition f1_5 : float := S754_finite false 6755399441055744 (-52).

(** A reader of the few decimal literals the examples use. *)
Definition read_float (s : string) : option float :=
  if String.eqb s "0.8" then Some f0_8
  else if String.eqb s "1.0" then Some PyFloat.f1_0
  else if String.eqb s "1.2" then Some PyFloat.f1_2
  else if String.eqb s "1.5" then Some f1_5
  else if String.eqb s "nan" then Some S754_nan
  else None.

(** A model manager that always answers, and writes its audio file
    under the upload folder. *)
Definition mm : ModelManager :=
  {| mm_transcribe_audio := λ _ fs, (Ret "what is this", fs);
     mm_process_image_and_query := λ _ _ fs, (Ret "a cat", fs);
     mm_text_to_speech := λ _ _ _ fs,
       (Ret "response.wav", <["app/uploads/response.wav" := "RIFF"]> fs);
     mm_get_available_voices := Ret ∅;
     mm_get_voices_by_language := Ret ∅ |}.

(** One whose synthesis returns a path and writes nothing. *)
Definition mm_silent : ModelManager :=
  {| mm_transcribe_audio := mm_transcribe_audio mm;
     mm_process_image_and_query := mm_process_image_and_query mm;
     mm_text_to_speech := λ _ _ _ fs, (Ret "response.wav", fs);
     mm_get_available_voices := Ret ∅;
     mm_get_voices_by_language := Ret ∅ |}.

(** One whose second stage raises. *)
Definition mm_no_answer : ModelManager :=
  {| mm_transcribe_audio := mm_transcribe_audio mm;
     mm_process_image_and_query := λ _ _ fs,
       (Raise (Exn "RuntimeError" "quota exceeded"), fs);
     mm_text_to_speech := mm_text_to_speech mm;
     mm_get_available_voices := Ret ∅;
     mm_get_voices_by_language := Ret ∅ |}.

Definition env_of (m : ModelManager) : env :=
  {| UPLOAD_FOLDER := "app/uploads";
     model_manager := m;
     urandom := N.of_nat;
     float_of_str := read_float;
     repr := λ s, "'" +:+ s +:+ "'";
     ascii_fold := λ _, "";
     save_error := λ _, None |}.

Definition E : env := env_of mm.

Definition s0 : store := {| st_fs := ∅; st_uuids := 0 |}.

Definition upload (name : string) : FileStorage :=
  {| filename := name; content := "data" |}.

Definition form_request (fs : list (string * FileStorage))
  (fm : list (string * string)) : request :=
  {| files := Ret fs; form := Ret fm; json := Ret VNone |}.

(** The text-to-speech scenario of the design description. *)
Definition tts_hello : request :=
  json_request
    (VDict [("text", VStr "hello"); ("high_performance", VBool true);
            ("speed", VFloat f0_8)]).


Definition tts_bad_speed : request :=
  json_request (VDict [("text", VStr "hello"); ("speed", VStr "fast")]).

(** Process requests: a complete one, one with the flag spelled
    otherwise, one without files and with a speed that is no number,
    one with a speed that is no number. *)
Definition process_ok : request :=
  form_request [("image", upload "cat.png"); ("audio", upload "q.wav")]
    [("voice", "af_heart"); ("speed", "0.8"); ("high_performance", "True")].

Definition process_flag_one : request :=
  form_request [("image", upload "cat.png"); ("audio", upload "q.wav")]
    [("speed", "0.8"); ("high_performance", "1")].

Definition process_no_files_bad_speed : request :=
  form_request [] [("speed", "fast")].

Definition process_bad_speed : request :=
  form_request [("image", upload "cat.png"); ("audio", upload "q.wav")]
    [("speed", "fast")].

(** Two uploads under one name. *)
Definition process_same_name : request :=
  form_request [("image", upload "clip.bin"); ("audio", upload "clip.bin")] [].

(** An upload whose name has no character a file name may keep. *)
Definition transcribe_odd_name : request :=
  form_request [("audio", upload "?")] [].

Definition catalog : gmap string VoiceDescriptor :=
  {[ "af_heart" := {| vd_name := "Heart"; vd_gender := "Female";
                      vd_language := "English (African)" |};
     "af_bella" := {| vd_name := "Bella"; vd_gender := "Female";
                      vd_language := "English (African)" |};
     "jf_alpha" := {| vd_name := "Alpha"; vd_gender := "Female";
                      vd_language := "Japanese" |} ]}.

End Demo.

(** The flag as the two endpoints are said to read it: [/api/process]
    takes the form field, lowercased, to be exactly [true];
    [/api/text_to_speech] takes the truth value of the JSON field. *)
Definition flag_as_read (ep : endpoint) (r : request) : bool :=
  match ep with
  | ApiProcess =>
      match form r with
      | Ret fm =>
          match dict_get "high_performance" fm with
          | Some v => bool_decide (PyStr.lower v = "true")
          | None => false
          end
      | _ => false
      end
  | ApiTextToSpeech =>
      match json r with
      | Ret (VDict d) =>
          match dict_get "high_performance" d with
          | Some v => truthy v
          | None => false
          end
      | _ => false
      end
  | _ => false
  end.

(** ** Running a handler step by step *)

(** The events [t], then the run [x]. *)
Definition after {R : Type} (t : list event) (x : R * store * list event)
  : R * store * list event :=
  (x.1.1, x.1.2, t ++ x.2).

(** The [except] clause applied to the outcome of the body. *)
Definition finish (msg : string) (x : outcome response * store * list event)
  : response * store * list event :=
  match x.1.1 with
  | Ret r => (r, x.1.2, x.2)
  | Raise e => (error_envelope msg e, x.1.2, x.2 ++ [EvTraceback e])
  end.

(** What follows a call of the model manager that produced [x]. *)
Definition resume {A B : Type} (ev : event) (s : store)
  (x : outcome A * filesystem) (k : A → M B) : outcome B * store * list event :=
  match x.1 with
  | Ret a => after [ev] (k a (with_fs s x.2))
  | Raise e => (Raise e, with_fs s x.2, [ev])
  end.

(** A property of a run, kept apart from the run while it is executed. *)
Definition holds {A : Type} (P : A → Prop) (x : A) : Prop := P x.

(** The files a run saved, as names stored under identifiers: each
    [(k, name)] stands for the upload called [name] saved under the
    [k]-th identifier drawn. *)
Definition saves_of (E : env) (ks : list (nat * string)) : list string :=
  (λ kn, stored_path E (uuid_str E kn.1) kn.2) <$> ks.

(** The saves of a run use identifiers drawn during that run, each one
    once. *)
Definition saves_ok (E : env) (s : store) (run : response * store * list event)
  : Prop :=
  ∃ ks,
    saved_paths (trace run) = saves_of E ks
    ∧ NoDup ks.*1
    ∧ Forall (λ k, st_uuids s ≤ k < st_uuids (final run))%nat ks.*1
    ∧ (st_uuids s ≤ st_uuids (final run))%nat.

(** ** Vocabulary of the proofs about file names *)

(** What [split] gives for a string that begins with a word: the word
    glued to the first word of the rest. *)
Definition glue (u : string) (ws : list string) : list string :=
  match ws with
  | w :: ws' => (u +:+ w) :: ws'
  | [] => [u]
  end.

Definition at_word_end (s : string) : bool :=
  match s with
  | EmptyString => true
  | String c _ => PyStr.is_space c
  end.

(** A character that every step of [secure_filename] leaves alone when
    it is inside a word. *)
Definition word_char (c : ascii) : bool :=
  (PyStr.code c <? 128)%N && negb (Ascii.eqb c "/")
  && negb (PyStr.is_space c) && filename_char c.

Definition cleaned (fold : ascii → string) (s : string) : string :=
  PyStr.filter filename_char
    (PyStr.join "_" (PyStr.split (PyStr.map sep_to_space (to_ascii fold s)))).

(** ** An installation whose disk fills up, and an unfriendly client *)

Module Faulty.

Definition disk_full : exn :=
  Exn "OSError" "[Errno 28] No space left on device".

(** Saving fails for every path that ends in [v], as the stored name of
    a [.wav] upload does. *)
Definition E : env :=
  {| UPLOAD_FOLDER := "app/uploads";
     model_manager := Demo.mm;
     urandom := N.of_nat;
     float_of_str := Demo.read_float;
     repr := λ s, "'" +:+ s +:+ "'";
     ascii_fold := λ _, "";
     save_error := λ p, if PyStr.endswith "v" p then Some disk_full else None |}.

(** An upload whose name climbs out of the upload folder. *)
Definition transcribe_traversal : request :=
  Demo.form_request [("audio", Demo.upload "../../etc/passwd")] [].

(** A process request in high-performance mode whose speed is NaN. *)
Definition process_nan_speed : request :=
  Demo.form_request
    [("image", Demo.upload "cat.png"); ("audio", Demo.upload "q.wav")]
    [("speed", "nan"); ("high_performance", "true")].

(** An installation whose catalog has a descriptor without gender. *)
Definition E_voices : env :=
  Demo.env_of
    {| mm_transcribe_audio := mm_transcribe_audio Demo.mm;
       mm_process_image_and_query := mm_process_image_and_query Demo.mm;
       mm_text_to_speech := mm_text_to_speech Demo.mm;
       mm_get_available_voices :=
         Ret {[ "jf_alpha" := [("name", VStr "Alpha")] ]};
       mm_get_voices_by_language := Ret {[ "Japanese" := ["jf_alpha"] ]} |}.

End Faulty.

(** ** The other steps of the client, [gradio_app.py] *)

(** [str(n)] for a status code. *)
Fixpoint decimal (fuel n : nat) (acc : string) : string :=
  match fuel with
  | O => acc
  | S fuel' =>
      let acc := String (ascii_of_nat (48 + n mod 10)) acc in
      if Nat.eqb (n / 10) 0 then acc else decimal fuel' (n / 10) acc
  end.

Definition str_of_nat (n : nat) : string := decimal (S n) n "".

(** What [requests] hands back: the status code, the body as text, and
    the body decoded by [response.json()], which may raise. *)
Record Response : Type := {
  status_code : nat;
  text : string;
  decoded : outcome pyval;
}.

(** The two module globals the steps assign. *)
Record globals : Type := {
  current_image_path : pyval;
  current_audio_path : pyval;
}.

Definition TRANSCRIBE_API_URL : string := "http://localhost:5000/api/transcribe".
Definition RESPONSE_API_URL : string :=
  "http://localhost:5000/api/generate_response".
Definition TTS_API_URL : string := "http://localhost:5000/api/text_to_speech".
Definition VOICES_API_URL : string :=
  "http://localhost:5000/api/voices_by_language".

Section ClientSteps.

(** [open(path, 'rb')], read when the request is sent. *)
Variable open_rb : string → outcome string.

(** [requests.post(url, files=files)] and [requests.post(url, data=data)] *)
Variable post_files : string → list (string * FileStorage) → outcome Response.
Variable post_data : string → list (string * string) → outcome Response.

(** The two messages of a request that did not succeed. *)
Definition error_status (response : Response) : string :=
  "Error: " +:+ str_of_nat (status_code response) +:+ " - " +:+ text response.

Definition error_communicating (e : exn) : string :=
  "Error communicating with backend: " +:+ exn_str e.

(** [transcribe_audio_query(audio)]: the value for the transcription box,
    and the globals after the call.  The file is opened outside the
    [try], so a failure to open it is not caught. *)
Definition transcribe_audio_query (audio : option string) (g : globals)
  : outcome pyval * globals :=
  match audio with
  | None => (Ret (VStr "Please record your question."), g)
  | Some audio =>
      match open_rb audio with
      | Raise e => (Raise e, g)
      | Ret data =>
          let files :=
            [("audio", {| filename := "audio.wav"; content := data |})] in
          match post_files TRANSCRIBE_API_URL files with
          | Raise e => (Ret (VStr (error_communicating e)), g)
          | Ret response =>
              if Nat.eqb (status_code response) 200 then
                match decoded response with
                | Raise e => (Ret (VStr (error_communicating e)), g)
                | Ret result =>
                    match py_get result "transcription"
                            (VStr "No transcription available") with
                    | Raise e => (Ret (VStr (error_communicating e)), g)
                    | Ret transcription =>
                        match py_get result "audio_path" VNone with
                        | Raise e => (Ret (VStr (error_communicating e)), g)
                        | Ret audio_path =>
                            (Ret transcription,
                             {| current_image_path := current_image_path g;
                                current_audio_path := audio_path |})
                        end
                    end
                end
              else (Ret (VStr (error_status response)), g)
          end
      end
  end.

(** [generate_model_response(image, transcription)] *)
Definition generate_model_response (image : option string)
  (transcription : string) (g : globals) : pyval * globals :=
  match image with
  | None => (VStr "Please upload an image first.", g)
  | Some image =>
      if String.eqb transcription ""
         || String.eqb transcription "Please record your question."
      then (VStr "Please record your question first.", g)
      else
        let g :=
          {| current_image_path := VStr image;
             current_audio_path := current_audio_path g |} in
        let form_data := [("image_path", image); ("query", transcription)] in
        match post_data RESPONSE_API_URL form_data with
        | Raise e => (VStr (error_communicating e), g)
        | Ret response =>
            if Nat.eqb (status_code response) 200 then
              match decoded response with
              | Raise e => (VStr (error_communicating e), g)
              | Ret result =>
                  match py_get result "response"
                          (VStr "No response available") with
                  | Raise e => (VStr (error_communicating e), g)
                  | Ret response_text => (response_text, g)
                  end
              end
            else (VStr (error_status response), g)
        end
  end.

(** The request was answered 200 with a document that could be read. *)
Definition answered (o : outcome Response) : bool :=
  match o with
  | Ret response =>
      Nat.eqb (status_code response) 200
      && match decoded response with
         | Ret (VDict _) => true
         | _ => false
         end
  | Raise _ => false
  end.

(** [update_voice_options(language)]: the choices of the voice box and
    the one selected. *)
Definition update_voice_options {A : Type}
  (voices_options : list (string * list (string * A)))
  (language : string) : list string * option string :=
  match dict_get language voices_options with
  | Some voices => (voices.*1, head voices.*1)
  | None => ([], None)
  end.

End ClientSteps.

(** ** Client and gateway together *)

Inductive method : Type := GET | POST.

Definition method_eqb (a b : method) : bool :=
  match a, b with
  | GET, GET | POST, POST => true
  | _, _ => false
  end.

(** The [@app.route] table of [flask_app.py]. *)
Definition routes : list (string * (method * endpoint)) :=
  [("/api/transcribe", (POST, ApiTranscribe));
   ("/api/generate_response", (POST, ApiGenerateResponse));
   ("/api/text_to_speech", (POST, ApiTextToSpeech));
   ("/api/voices", (GET, ApiVoices));
   ("/api/voices_by_language", (GET, ApiVoicesByLanguage));
   ("/api/process", (POST, ApiProcess));
   ("/api/health", (GET, ApiHealth))].

(** The handler a request for [url] reaches, when the gateway listens
    where [app.run] puts it. *)
Definition endpoint_of_url (m : method) (url : string) : option endpoint :=
  match
    List.find (λ route, String.eqb ("http://localhost:5000" +:+ route.1) url
                        && method_eqb m route.2.1)
      routes
  with
  | Some route => Some route.2.2
  | None => None
  end.

(** A request made of uploads alone, and one made of form fields alone;
    neither handler that takes them reads [request.json]. *)
Definition files_request (fs : list (string * FileStorage)) : request :=
  {| files := Ret fs; form := Ret []; json := Ret VNone |}.

Definition data_request (fm : list (string * string)) : request :=
  {| files := Ret []; form := Ret fm; json := Ret VNone |}.

Section Wire.

(** [json.dumps], the body as text; and what comes back for a URL that
    is no route of the gateway. *)
Variable dumps : pyval → string.
Variable elsewhere : outcome Response.

(** The transport when client and gateway talk without loss: the
    request reaches its handler at store [s], and the answer comes back
    with its status and its body. *)
Definition wire (E : env) (s : store) (m : method) (url : string)
  (r : request) : outcome Response :=
  match endpoint_of_url m url with
  | Some ep =>
      let run := dispatch E ep r s in
      Ret {| status_code := status (answer run);
             text := dumps (answer run).1;
             decoded := Ret (answer run).1 |}
  | None => elsewhere
  end.

End Wire.

(** ** The voices the client offers, [launch_gradio] *)

(** [for v in x]: the elements of a list, the keys of a dict, the
    characters of a string; nothing else can be iterated.  Here and in
    [py_getitem], [None] stands for the exception, which the caller
    catches and only prints. *)
Fixpoint characters (s : string) : list pyval :=
  match s with
  | EmptyString => []
  | String c s' => VStr (String c EmptyString) :: characters s'
  end.

Definition py_iter (x : pyval) : option (list pyval) :=
  match x with
  | VList l => Some l
  | VDict d => Some (VStr <$> d.*1)
  | VStr s => Some (characters s)
  | _ => None
  end.

(** [v[k]] for a string [k]: only a dict has such an item. *)
Definition py_getitem (v : pyval) (k : string) : option pyval :=
  match v with
  | VDict d => dict_get k d
  | _ => None
  end.

Definition default_languages : list string := ["English (African)"].

Definition default_voices_options : list (string * list (string * pyval)) :=
  [("English (African)", [("Heart (Female)", VStr "af_heart")])].

Section Voices.

(** [str(v)] for a value that is no [str]. *)
Variable py_str : pyval → string.

(** A value inside an f-string. *)
Definition format_value (v : pyval) : string :=
  match v with
  | VStr s => s
  | _ => py_str v
  end.

(** [f"{v['name']} ({v['gender']})"] *)
Definition display_name (v : pyval) : option string :=
  name ← py_getitem v "name";
  gender ← py_getitem v "gender";
  Some (format_value name +:+ " (" +:+ format_value gender +:+ ")").

(** [{f"{v['name']} ({v['gender']})": v['id'] for v in voices}] *)
Definition voice_choices (voices : pyval) : option (list (string * pyval)) :=
  vs ← py_iter voices;
  foldl (λ choices v,
           choices ← choices;
           key ← display_name v;
           value ← py_getitem v "id";
           Some (dict_set key value choices))
    (Some []) vs.

(** The loop over [voices_by_language.items()]. *)
Definition voices_options_of (voices_by_language : list (string * pyval))
  : option (list (string * list (string * pyval))) :=
  foldl (λ voices_options '(lang, voices),
           voices_options ← voices_options;
           choices ← voice_choices voices;
           Some (dict_set lang choices voices_options))
    (Some []) voices_by_language.

(** The languages and the voices the interface starts with: those of
    the gateway, or one English voice when anything at all goes wrong. *)
Definition load_voices (get : string → outcome Response)
  : list string * list (string * list (string * pyval)) :=
  match get VOICES_API_URL with
  | Ret response =>
      if Nat.eqb (status_code response) 200 then
        match decoded response with
        | Ret (VDict voices_by_language) =>
            match voices_options_of voices_by_language with
            | Some voices_options =>
                (voices_by_language.*1, voices_options)
            | None => (default_languages, default_voices_options)
            end
        | _ => (default_languages, default_voices_options)
        end
      else (default_languages, default_voices_options)
  | Raise _ => (default_languages, default_voices_options)
  end.

(** What a descriptor of the catalog is shown as. *)
Definition display_of (info : list (string * pyval)) : string :=
  format_value (default VNone (dict_get "name" info))
  +:+ " (" +:+ format_value (default VNone (dict_get "gender" info)) +:+ ")".

(** The choices for a language, read off the catalog: for each id of the
    group that the catalog knows, in turn, the id under the display name
    of its descriptor. *)
Definition choices_of (catalog : gmap string (list (string * pyval)))
  (ids : list string) : list (string * string) :=
  foldl (λ choices i,
           match catalog !! i with
           | Some info => dict_set (display_of info) i choices
           | None => choices
           end) [] ids.

(** The voice options, read off the grouping and the catalog. *)
Definition options_of (catalog : gmap string (list (string * pyval)))
  (groups : gmap string (list string)) : list (string * list (string * string)) :=
  foldl (λ voices_options group,
           dict_set group.1 (choices_of catalog group.2) voices_options)
    [] (map_to_list groups).

End Voices.

(** Choices and voice options whose ids are strings, as JSON values. *)
Definition id_values (choices : list (string * string))
  : list (string * pyval) :=
  (λ choice, (choice.1, VStr choice.2)) <$> choices.

Definition as_values (voices_options : list (string * list (string * string)))
  : list (string * list (string * pyval)) :=
  (λ entry, (entry.1, id_values entry.2)) <$> voices_options.

(** ** Requests without a text *)



(** ** The uploads of a request *)

(** The uploads an endpoint stores, in the order in which it stores
    them: [request.files['audio']] for [/api/transcribe],
    [request.files['image']] and then [request.files['audio']] for
    [/api/process]. *)
Definition uploads_of (ep : endpoint) (r : request) : list FileStorage :=
  match files r with
  | Ret fs =>
      match ep with
      | ApiTranscribe => option_list (dict_get "audio" fs)
      | ApiProcess =>
          option_list (dict_get "image" fs)
          ++ option_list (dict_get "audio" fs)
      | _ => []
      end
  | Raise _ => []
  end.

(** Where uploads go when they are stored from store [s] on: the [i]-th
    under the [i]-th identifier drawn, at
    [os.path.join(UPLOAD_FOLDER, secure_filename(f"{uuid}_{filename}"))]. *)
Definition stored_as (E : env) (s : store) (uploads : list FileStorage)
  : list string :=
  imap (λ i f, stored_path E (uuid_str E (st_uuids s + i)) (filename f))
    uploads.

(** * Properties *)

Arguments uuid_str : simpl never.
Arguments stored_path : simpl never.
Arguments stored_name : simpl never.
Arguments path_join : simpl never.
Arguments secure_filename : simpl never.
Arguments PyFloat.max : simpl never.
Arguments py_float : simpl never.
Arguments truthy : simpl never.
Arguments String.eqb : simpl never.

(** ** Strings *)

Section StringFacts.

Implicit Types (s u w : string) (c : ascii) (p : ascii → bool).

Lemma str_app_nil_l s : "" +:+ s = s.
Proof. reflexivity. Qed.

Lemma str_app_cons c s u : String c s +:+ u = String c (s +:+ u).
Proof. reflexivity. Qed.

Lemma str_app_nil_r s : s +:+ "" = s.
Proof. induction s as [|c s IH]; [done | by rewrite str_app_cons, IH]. Qed.

Lemma str_app_assoc s u w : (s +:+ u) +:+ w = s +:+ u +:+ w.
Proof. induction s as [|c s IH]; [done | by rewrite !str_app_cons, IH]. Qed.

Lemma str_app_length s u :
  String.length (s +:+ u) = (String.length s + String.length u)%nat.
Proof. induction s as [|c s IH]; [done | by rewrite str_app_cons; simpl; rewrite IH]. Qed.

Lemma str_app_inv_length s1 s2 u1 u2 :
  String.length s1 = String.length s2 →
  s1 +:+ u1 = s2 +:+ u2 → s1 = s2.
Proof.
  revert s2. induction s1 as [|c s1 IH]; intros [|c' s2] Hlen Heq;
    simplify_eq/=; [done|]. f_equal. eauto.
Qed.

Lemma str_forallb_app p s u :
  PyStr.forallb p (s +:+ u) = PyStr.forallb p s && PyStr.forallb p u.
Proof.
  induction s as [|c s IH]; simpl; [done|]. by rewrite IH, andb_assoc.
Qed.

Lemma str_forallb_impl p (q : ascii → bool) s :
  (∀ c, p c = true → q c = true) →
  PyStr.forallb p s = true → PyStr.forallb q s = true.
Proof.
  intros Hpq. induction s as [|c s IH]; simpl; [done|].
  intros [Hc Hs]%andb_prop. by rewrite (Hpq _ Hc), IH.
Qed.

Lemma str_map_app f s u : PyStr.map f (s +:+ u) = PyStr.map f s +:+ PyStr.map f u.
Proof. induction s as [|c s IH]; simpl; [done | by rewrite IH]. Qed.

Lemma str_map_fixed f s :
  PyStr.forallb (λ c, Ascii.eqb (f c) c) s = true → PyStr.map f s = s.
Proof.
  induction s as [|c s IH]; simpl; [done|].
  intros [Hc Hs]%andb_prop. apply Ascii.eqb_eq in Hc. by rewrite Hc, IH.
Qed.

Lemma str_filter_app p s u :
  PyStr.filter p (s +:+ u) = PyStr.filter p s +:+ PyStr.filter p u.
Proof.
  induction s as [|c s IH]; simpl; [done|]. rewrite IH. by destruct (p c).
Qed.

Lemma str_filter_all p s : PyStr.forallb p s = true → PyStr.filter p s = s.
Proof.
  induction s as [|c s IH]; simpl; [done|].
  intros [Hc Hs]%andb_prop. by rewrite Hc, IH.
Qed.

Lemma rstrip_none p s :
  PyStr.forallb (λ c, negb (p c)) s = true → PyStr.rstrip p s = s.
Proof.
  induction s as [|c s IH]; simpl; [done|].
  intros [Hc Hs]%andb_prop. rewrite (IH Hs).
  destruct s; [|done]. by destruct (p c).
Qed.

Lemma rstrip_app p s u :
  PyStr.rstrip p (s +:+ u) =
  match PyStr.rstrip p u with
  | EmptyString => PyStr.rstrip p s
  | r => s +:+ r
  end.
Proof.
  induction s as [|c s IH].
  - rewrite str_app_nil_l. by destruct (PyStr.rstrip p u).
  - rewrite str_app_cons. simpl. rewrite IH.
    destruct (PyStr.rstrip p u) as [|c' r]; [done|].
    rewrite !str_app_cons. by destruct s.
Qed.

Lemma rstrip_cons p c s :
  p c = false → PyStr.rstrip p (String c s) = String c (PyStr.rstrip p s).
Proof. intros Hc. simpl. destruct (PyStr.rstrip p s); by rewrite ?Hc. Qed.

Lemma split_cons c s :
  PyStr.is_space c = false →
  PyStr.split (String c s) =
  if at_word_end s then String c "" :: PyStr.split s
  else glue (String c "") (PyStr.split s).
Proof.
  intros Hc. simpl. rewrite Hc. destruct s as [|c' s']; [done|].
  unfold at_word_end. destruct (PyStr.is_space c') eqn:Hc'; [done|].
  by destruct (PyStr.split (String c' s')).
Qed.

Lemma split_word_start c s :
  PyStr.is_space c = false →
  ∃ w ws, PyStr.split (String c s) = String c w :: ws.
Proof.
  intros Hc. rewrite (split_cons _ _ Hc).
  destruct (at_word_end s); [by eauto|].
  destruct (PyStr.split s); simpl; eauto.
Qed.

Lemma split_app u s :
  u ≠ "" → PyStr.forallb (λ c, negb (PyStr.is_space c)) u = true →
  PyStr.split (u +:+ s) =
  if at_word_end s then u :: PyStr.split s else glue u (PyStr.split s).
Proof.
  induction u as [|c u IH]; [done|]. intros _ [Hc Hu]%andb_prop.
  apply negb_true_iff in Hc. change (String c u +:+ s) with (String c (u +:+ s)).
  rewrite (split_cons _ _ Hc). destruct u as [|c' u'].
  { by rewrite str_app_nil_l. }
  rewrite IH by done.
  assert (at_word_end (String c' u' +:+ s) = false) as ->.
  { rewrite str_app_cons. simpl in *. apply andb_prop in Hu as [Hc' _].
    by apply negb_true_iff. }
  destruct (at_word_end s); [done|].
  destruct (PyStr.split s); simpl; by rewrite ?str_app_cons, ?str_app_nil_l.
Qed.

Lemma join_glue sep u w ws :
  PyStr.join sep (glue u (w :: ws)) = u +:+ PyStr.join sep (w :: ws).
Proof. simpl. destruct ws; [done|]. by rewrite str_app_assoc. Qed.

Lemma join_cons_head sep c w ws :
  ∃ r, PyStr.join sep (String c w :: ws) = String c r.
Proof. simpl. destruct ws; eauto. Qed.

End StringFacts.

(** ** File names *)

Section SecureFilenameFacts.

Variable fold : ascii → string.

Lemma secure_filename_cleaned s :
  secure_filename fold s = PyStr.strip dot_or_underscore (cleaned fold s).
Proof. reflexivity. Qed.

Lemma uuid_char_word c : Uuid.is_uuid_char c = true → word_char c = true.
Proof. destruct c as [[] [] [] [] [] [] [] []]; vm_compute; congruence. Qed.

Lemma uuid_char_not_stripped c :
  Uuid.is_uuid_char c = true → dot_or_underscore c = false.
Proof. destruct c as [[] [] [] [] [] [] [] []]; vm_compute; congruence. Qed.

Lemma alnum_word c : PyStr.is_alnum c = true → word_char c = true.
Proof. destruct c as [[] [] [] [] [] [] [] []]; vm_compute; congruence. Qed.

Lemma alnum_not_stripped c :
  PyStr.is_alnum c = true → dot_or_underscore c = false.
Proof. destruct c as [[] [] [] [] [] [] [] []]; vm_compute; congruence. Qed.

Lemma word_char_inv c :
  word_char c = true →
  (PyStr.code c <? 128)%N = true ∧ sep_to_space c = c
  ∧ PyStr.is_space c = false ∧ filename_char c = true.
Proof.
  unfold word_char, sep_to_space.
  intros [[[H1 H2]%andb_prop H3]%andb_prop H4]%andb_prop.
  apply negb_true_iff in H2, H3. by rewrite H2.
Qed.

Lemma to_ascii_app u s :
  PyStr.forallb word_char u = true →
  to_ascii fold (u +:+ s) = u +:+ to_ascii fold s.
Proof.
  induction u as [|c u IH]; [done|]. simpl.
  intros [Hc Hu]%andb_prop. apply word_char_inv in Hc as (-> & _).
  by rewrite !str_app_cons, IH.
Qed.

Lemma map_sep_word u :
  PyStr.forallb word_char u = true → PyStr.map sep_to_space u = u.
Proof.
  induction u as [|c u IH]; [done|]. simpl.
  intros [Hc Hu]%andb_prop. apply word_char_inv in Hc as (_ & -> & _).
  by rewrite IH.
Qed.

Lemma word_no_space u :
  PyStr.forallb word_char u = true →
  PyStr.forallb (λ c, negb (PyStr.is_space c)) u = true.
Proof.
  apply str_forallb_impl. intros c (_ & _ & -> & _)%word_char_inv. done.
Qed.

Lemma word_filename u :
  PyStr.forallb word_char u = true → PyStr.forallb filename_char u = true.
Proof. apply str_forallb_impl. by intros c (_ & _ & _ & ->)%word_char_inv. Qed.

(** What is left of a name that follows a non-empty word. *)
Lemma cleaned_app u s :
  u ≠ "" → PyStr.forallb word_char u = true →
  ∃ x, cleaned fold (u +:+ s) = u +:+ x
       ∧ (at_word_end (PyStr.map sep_to_space (to_ascii fold s)) = false →
          x = cleaned fold s).
Proof.
  intros Hne Hu. unfold cleaned.
  rewrite to_ascii_app, str_map_app, map_sep_word by done.
  set (s' := PyStr.map sep_to_space (to_ascii fold s)).
  rewrite split_app by auto using word_no_space.
  destruct (at_word_end s') eqn:Hend.
  - destruct (PyStr.split s') as [|w ws] eqn:Hs'.
    + exists "". by rewrite str_app_nil_r, str_filter_all by auto using word_filename.
    + exists (PyStr.filter filename_char ("_" +:+ PyStr.join "_" (w :: ws))).
      split; [|done].
      change (PyStr.join "_" (u :: w :: ws))
        with (u +:+ "_" +:+ PyStr.join "_" (w :: ws)).
      rewrite str_filter_app, (str_filter_all _ u) by auto using word_filename. done.
  - destruct s' as [|c s'']; [done|]. simpl in Hend.
    destruct (split_word_start c s'' Hend) as (w & ws & ->).
    rewrite join_glue, str_filter_app, (str_filter_all _ u) by auto using word_filename.
    eauto.
Qed.

Lemma lstrip_word p c u : p c = false → PyStr.lstrip p (String c u) = String c u.
Proof. intros Hc. simpl. by rewrite Hc. Qed.

(** A prefix made of identifier characters survives sanitisation. *)
Lemma secure_filename_prefix u s :
  u ≠ "" → PyStr.forallb Uuid.is_uuid_char u = true →
  ∃ rest, secure_filename fold (u +:+ s) = u +:+ rest.
Proof.
  intros Hne Hu. rewrite secure_filename_cleaned.
  destruct (cleaned_app u s) as (x & -> & _);
    [done | by eapply str_forallb_impl, Hu; apply uuid_char_word |].
  unfold PyStr.strip. destruct u as [|c u]; [done|].
  pose proof Hu as [Hc _]%andb_prop. rewrite str_app_cons.
  rewrite lstrip_word by by apply uuid_char_not_stripped.
  rewrite <-str_app_cons, rstrip_app.
  rewrite (rstrip_none _ (String c u)).
  - destruct (PyStr.rstrip _ x); [exists ""; by rewrite str_app_nil_r | eauto].
  - eapply str_forallb_impl, Hu. intros a Ha.
    by rewrite (uuid_char_not_stripped a Ha).
Qed.

(** When the original name begins with a letter or a digit, the stored
    name is the identifier, an underscore, and the sanitised original. *)
Lemma secure_filename_uuid_alnum u c n :
  u ≠ "" → PyStr.forallb Uuid.is_uuid_char u = true →
  PyStr.is_alnum c = true →
  secure_filename fold (u +:+ "_" +:+ String c n)
  = u +:+ "_" +:+ secure_filename fold (String c n).
Proof.
  intros Hne Hu Hc. rewrite !secure_filename_cleaned.
  rewrite <-str_app_assoc.
  destruct (cleaned_app (u +:+ "_") (String c n)) as (x & -> & Hx).
  { by destruct u. }
  { rewrite str_forallb_app, andb_true_iff. split; [|done].
    eapply str_forallb_impl, Hu; apply uuid_char_word. }
  pose proof (alnum_word c Hc) as Hw.
  pose proof (word_char_inv c Hw) as (Hascii & Hsep & Hsp & Hfn).
  assert (PyStr.map sep_to_space (to_ascii fold (String c n))
          = String c (PyStr.map sep_to_space (to_ascii fold n))) as Hm.
  { simpl. rewrite Hascii. simpl. by rewrite Hsep. }
  rewrite Hx by by rewrite Hm.
  assert (∃ y, cleaned fold (String c n) = String c y) as [y ->].
  { unfold cleaned. rewrite Hm.
    destruct (split_word_start c (PyStr.map sep_to_space (to_ascii fold n)) Hsp)
      as (w & ws & ->).
    destruct (join_cons_head "_" c w ws) as [r ->]. simpl. rewrite Hfn. eauto. }
  unfold PyStr.strip. destruct u as [|a u]; [done|].
  pose proof Hu as [Ha _]%andb_prop.
  rewrite !str_app_cons, (lstrip_word _ a) by by apply uuid_char_not_stripped.
  rewrite (lstrip_word _ c) by by apply alnum_not_stripped.
  rewrite <-!str_app_cons, rstrip_app.
  rewrite (rstrip_cons _ c) by by apply alnum_not_stripped.
  by rewrite str_app_assoc.
Qed.

End SecureFilenameFacts.

(** ** Identifiers *)

Lemma hex_digit_uuid_char d : Uuid.is_uuid_char (Uuid.hex_digit d) = true.
Proof.
  destruct d as [|p]; [done|].
  do 5 (try destruct p as [p|p|]); reflexivity.
Qed.

Lemma hex_shape k n acc :
  String.length (Uuid.hex k n acc) = (k + String.length acc)%nat
  ∧ PyStr.forallb Uuid.is_uuid_char (Uuid.hex k n acc)
    = PyStr.forallb Uuid.is_uuid_char acc.
Proof.
  revert n acc. induction k as [|k IH]; intros n acc; simpl; [done|].
  destruct (IH (n / 16)%N (String (Uuid.hex_digit (n mod 16)) acc)) as [-> ->].
  simpl. rewrite hex_digit_uuid_char. split; [lia | done].
Qed.

Lemma to_str_shape n :
  String.length (Uuid.to_str n) = 36%nat
  ∧ PyStr.forallb Uuid.is_uuid_char (Uuid.to_str n) = true.
Proof.
  unfold Uuid.to_str. split.
  - repeat (rewrite (proj1 (hex_shape _ _ _)); cbn [String.length]).
    reflexivity.
  - repeat (rewrite (proj2 (hex_shape _ _ _)); cbn [PyStr.forallb];
            change (Uuid.is_uuid_char "-") with true; cbn [andb]).
    reflexivity.
Qed.

(** ** Floats *)

Lemma SFcompare_antisym (a b : float) :
  SFcompare b a = CompOpp <$> SFcompare a b.
Proof.
  destruct a as [sa|sa| |sa ma ea], b as [sb|sb| |sb mb eb]; simpl;
    try done; try (by destruct sa); try (by destruct sb);
    try (by destruct sa, sb).
  destruct sa, sb; simpl; try done.
  all: rewrite (Z.compare_antisym eb ea); destruct (eb ?= ea); simpl; try done.
  all: by rewrite (Pos.compare_cont_antisym ma mb Eq).
Qed.

Lemma max_noop (sp c : float) :
  PyFloat.le c sp = true → PyFloat.max sp c = sp.
Proof.
  unfold PyFloat.le, PyFloat.max, PyFloat.gt, SFleb, SFltb.
  rewrite (SFcompare_antisym c sp).
  by destruct (SFcompare c sp) as [[]|].
Qed.

Lemma max_floor (sp c : float) :
  PyFloat.gt c sp = true → PyFloat.max sp c = c.
Proof. unfold PyFloat.max. by intros ->. Qed.

Lemma max_at_least (sp : float) :
  PyFloat.is_nan sp = false →
  PyFloat.le PyFloat.f1_2 (PyFloat.max sp PyFloat.f1_2) = true.
Proof.
  intros Hnan. unfold PyFloat.max, PyFloat.gt, SFltb.
  destruct (SFcompare sp PyFloat.f1_2) as [[]|] eqn:Hc; try reflexivity.
  - unfold PyFloat.le, SFleb. by rewrite (SFcompare_antisym sp), Hc.
  - unfold PyFloat.le, SFleb. by rewrite (SFcompare_antisym sp), Hc.
  - by destruct sp.
Qed.

(** ** Running the handlers *)

Section Run.

Variable E : env.

Lemma try_except_finish body msg s :
  try_except body msg s = finish msg (body s).
Proof. unfold try_except, finish. by destruct (body s) as [[[r|e] s1] t1]. Qed.

Lemma bind_lift {A B} (o : outcome A) (k : A → M B) s :
  bind (lift o) k s =
  match o with
  | Ret a => k a s
  | Raise e => (Raise e, s, [])
  end.
Proof.
  unfold bind, lift. destruct o as [a|e]; [|done].
  by destruct (k a s) as [[r s2] t2].
Qed.

Lemma bind_ret {A B} (a : A) (k : A → M B) s : bind (ret a) k s = k a s.
Proof. unfold bind, ret. by destruct (k a s) as [[r s2] t2]. Qed.

Lemma bind_assoc {A B C} (m : M A) (f : A → M B) (g : B → M C) s :
  bind (bind m f) g s = bind m (λ x, bind (f x) g) s.
Proof.
  unfold bind. destruct (m s) as [[[a|e] s1] t1]; [|done].
  destruct (f a s1) as [[[b|e] s2] t2]; [|done].
  destruct (g b s2) as [[r s3] t3]. by rewrite app_assoc.
Qed.

Lemma bind_uuid4 {B} (k : string → M B) s :
  bind (uuid4 E) k s =
  k (uuid_str E (st_uuids s))
    {| st_fs := st_fs s; st_uuids := S (st_uuids s) |}.
Proof.
  unfold bind, uuid4.
  by destruct (k _ _) as [[r s2] t2].
Qed.

Lemma bind_save {B} file path (k : unit → M B) s :
  bind (save E file path) k s =
  match save_error E path with
  | Some e => (Raise e, s, [])
  | None =>
      after [EvSave path]
        (k tt (with_fs s (<[path := content file]> (st_fs s))))
  end.
Proof.
  unfold bind, save, after. destruct (save_error E path); [done|].
  by destruct (k _ _) as [[r s2] t2].
Qed.

Lemma bind_exists {B} path (k : bool → M B) s :
  bind (os_path_exists path) k s =
  after [EvExists path] (k (bool_decide (is_Some (st_fs s !! path))) s).
Proof.
  unfold bind, os_path_exists, after. by destruct (k _ _) as [[r s2] t2].
Qed.

Lemma bind_getsize {B} path (k : nat → M B) s :
  bind (os_path_getsize E path) k s =
  match st_fs s !! path with
  | Some c => after [EvGetsize path] (k (String.length c) s)
  | None =>
      (Raise (Exn "FileNotFoundError"
                ("[Errno 2] No such file or directory: " +:+ repr E path)),
       s, [EvGetsize path])
  end.
Proof.
  unfold bind, os_path_getsize, after. destruct (st_fs s !! path); [|done].
  by destruct (k _ _) as [[r s2] t2].
Qed.

Lemma bind_transcribe {B} p (k : string → M B) s :
  bind (call_transcribe_audio E p) k s =
  resume (EvTranscribe p) s
    (mm_transcribe_audio (model_manager E) p (st_fs s)) k.
Proof.
  unfold bind, call_transcribe_audio, resume, after.
  destruct (mm_transcribe_audio _ _ _) as [[a|e] fs]; [|done].
  simpl. by destruct (k _ _) as [[r s2] t2].
Qed.

Lemma bind_query {B} p q (k : string → M B) s :
  bind (call_process_image_and_query E p q) k s =
  resume (EvQuery p q) s
    (mm_process_image_and_query (model_manager E) p q (st_fs s)) k.
Proof.
  unfold bind, call_process_image_and_query, resume, after.
  destruct (mm_process_image_and_query _ _ _ _) as [[a|e] fs]; [|done].
  simpl. by destruct (k _ _) as [[r s2] t2].
Qed.

Lemma bind_speech {B} text voice sp (k : string → M B) s :
  bind (call_text_to_speech E text voice sp) k s =
  resume (EvSpeech text voice sp) s
    (mm_text_to_speech (model_manager E) text voice sp (st_fs s)) k.
Proof.
  unfold bind, call_text_to_speech, resume, after.
  destruct (mm_text_to_speech _ _ _ _ _) as [[a|e] fs]; [|done].
  simpl. by destruct (k _ _) as [[r s2] t2].
Qed.

Lemma bind_voices {B} (k : _ → M B) s :
  bind (call_get_available_voices E) k s =
  match mm_get_available_voices (model_manager E) with
  | Ret a => after [EvVoices] (k a s)
  | Raise e => (Raise e, s, [EvVoices])
  end.
Proof.
  unfold bind, call_get_available_voices, after.
  destruct (mm_get_available_voices _) as [a|e]; [|done].
  by destruct (k _ _) as [[r s2] t2].
Qed.

Lemma bind_voices_by_language {B} (k : _ → M B) s :
  bind (call_get_voices_by_language E) k s =
  match mm_get_voices_by_language (model_manager E) with
  | Ret a => after [EvVoicesByLanguage] (k a s)
  | Raise e => (Raise e, s, [EvVoicesByLanguage])
  end.
Proof.
  unfold bind, call_get_voices_by_language, after.
  destruct (mm_get_voices_by_language _) as [a|e]; [|done].
  by destruct (k _ _) as [[r s2] t2].
Qed.

End Run.

Ltac open_handler :=
  unfold dispatch, handler_body, transcribe_audio, generate_response,
    text_to_speech, get_voices, get_voices_by_language, process_query,
    health_check, transcribe_audio_body, generate_response_body,
    text_to_speech_body, get_voices_body, get_voices_by_language_body,
    process_query_body in *;
  rewrite ?try_except_finish in *.

Ltac tidy :=
  repeat match goal with
    | H : Some _ = Some _ |- _ => injection H as H
    | H : Ret _ = Ret _ |- _ => injection H as H
    | H : Raise _ = Raise _ |- _ => injection H as H
    | H : Some _ = None |- _ => discriminate H
    | H : None = Some _ |- _ => discriminate H
    | H : Ret _ = Raise _ |- _ => discriminate H
    | H : Raise _ = Ret _ |- _ => discriminate H
    | H : true = false |- _ => discriminate H
    | H : false = true |- _ => discriminate H
    | H : ?x = _ |- _ => is_var x; subst x
    | H : _ = ?x |- _ => is_var x; subst x
    end.

Ltac exec_step :=
  match goal with
  | |- context [match ?x with _ => _ end] =>
      lazymatch x with
      | context [match _ with _ => _ end] => fail
      | _ => destruct x eqn:?; cbv beta iota zeta in *; tidy
      end
  | |- context [resume _ _ ?x _] =>
      destruct x as [[?|?] ?] eqn:?; unfold resume
  | |- context [py_get] => unfold py_get
  | |- context [bind (bind ?m ?f) ?g ?s] => rewrite (bind_assoc m f g s)
  | |- context [bind (lift ?o) ?k ?s] => rewrite (bind_lift o k s)
  | |- context [bind (ret ?a) ?k ?s] => rewrite (bind_ret a k s)
  | |- context [bind (uuid4 ?E) ?k ?s] => rewrite (bind_uuid4 E k s)
  | |- context [bind (save ?E ?f ?p) ?k ?s] => rewrite (bind_save E f p k s)
  | |- context [bind (os_path_exists ?p) ?k ?s] =>
      rewrite (bind_exists p k s)
  | |- context [bind (os_path_getsize ?E ?p) ?k ?s] =>
      rewrite (bind_getsize E p k s)
  | |- context [bind (call_transcribe_audio ?E ?p) ?k ?s] =>
      rewrite (bind_transcribe E p k s)
  | |- context [bind (call_process_image_and_query ?E ?p ?q) ?k ?s] =>
      rewrite (bind_query E p q k s)
  | |- context [bind (call_text_to_speech ?E ?t ?v ?sp) ?k ?s] =>
      rewrite (bind_speech E t v sp k s)
  | |- context [bind (call_get_available_voices ?E) ?k ?s] =>
      rewrite (bind_voices E k s)
  | |- context [bind (call_get_voices_by_language ?E) ?k ?s] =>
      rewrite (bind_voices_by_language E k s)
  end; cbv beta iota zeta; unfold with_fs; cbn [st_fs st_uuids fst snd].

Ltac focus_run :=
  match goal with
  | |- context [finish ?m ?b] =>
      pattern (finish m b);
      lazymatch goal with |- ?P ?x => change (holds P x) end
  end.

Ltac exec := focus_run; repeat exec_step; unfold holds.

Ltac finished :=
  unfold ret, after, finish, answer, final, trace, status in *; simpl.

Lemma form_speed_default fm :
  default (VFloat PyFloat.f1_0) (VStr <$> dict_get "speed" fm) = form_speed fm.
Proof. unfold form_speed. by destruct (dict_get "speed" fm). Qed.

(** The speed that reaches the synthesis call. *)
Lemma speeds_of_run E ep r s sp :
  requested_speed E ep r = Some (Ret sp) →
  let eff := effective_speed (high_performance_flag ep r) sp in
  (speeds_passed (trace (dispatch E ep r s)) = []
   ∨ speeds_passed (trace (dispatch E ep r s)) = [eff])
  ∧ (status (answer (dispatch E ep r s)) = 200%nat →
     speeds_passed (trace (dispatch E ep r s)) = [eff]).
Proof.
  unfold requested_speed, speed_field, high_performance_flag, effective_speed,
    json_high_performance, form_speed.
  intros Hreq. destruct ep; try done.
  - open_handler. exec. all: finished. all: split; try (by auto).
  - open_handler. destruct (form r) as [fm|] eqn:Hform; [|done].
    rewrite form_speed_default in Hreq.
    exec. all: finished. all: split; try (by auto).
Qed.

(** The run laid open, once it has been executed. *)
Ltac shown :=
  cbv [ret after finish answer final trace status err error_envelope
         body_field fst snd app].

(** Two accounts of one call of the model manager agree. *)
Ltac same_call :=
  repeat match goal with
    | H : (_, _) = (_, _) |- _ => injection H as ? ?
    end;
  tidy.

(** ** The speed that reaches the synthesis call *)

(** [/api/text_to_speech] makes the call whenever there is a text and
    the speed can be read. *)
Lemma tts_speed_passed E r s d sp :
  json r = Ret (VDict d) →
  truthy (default VNone (dict_get "text" d)) = true →
  py_float E (default (VFloat PyFloat.f1_0) (dict_get "speed" d)) = Ret sp →
  speeds_passed (trace (dispatch E ApiTextToSpeech r s))
  = [if truthy (default (VBool false) (dict_get "high_performance" d))
     then PyFloat.max sp PyFloat.f1_2 else sp].
Proof.
  intros Hjson Htext Hspeed. open_handler. exec; shown.
  all: repeat match goal with
         | H : context [truthy (default VNone _)] |- _ =>
             rewrite Htext in H; try discriminate H
         end.
  all: done.
Qed.

(** [/api/process] makes it once both uploads are saved and the two
    stages before it have returned. *)
Lemma process_speed_passed
  E r s fs fm image_file audio_file sp transcription fs1 response_text fs2 :
  files r = Ret fs →
  dict_get "image" fs = Some image_file → filename image_file ≠ "" →
  dict_get "audio" fs = Some audio_file → filename audio_file ≠ "" →
  form r = Ret fm →
  py_float E (default (VFloat PyFloat.f1_0) (VStr <$> dict_get "speed" fm))
  = Ret sp →
  let image_path :=
    stored_path E (uuid_str E (st_uuids s)) (filename image_file) in
  let audio_path :=
    stored_path E (uuid_str E (S (st_uuids s))) (filename audio_file) in
  save_error E image_path = None →
  save_error E audio_path = None →
  mm_transcribe_audio (model_manager E) audio_path
    (<[audio_path := content audio_file]>
       (<[image_path := content image_file]> (st_fs s)))
  = (Ret transcription, fs1) →
  mm_process_image_and_query (model_manager E) image_path transcription fs1
  = (Ret response_text, fs2) →
  speeds_passed (trace (dispatch E ApiProcess r s))
  = [if String.eqb
          (PyStr.lower (default "false" (dict_get "high_performance" fm)))
          "true"
     then PyFloat.max sp PyFloat.f1_2 else sp].
Proof.
  intros Hfiles Himg Himg_name%String.eqb_neq Haud Haud_name%String.eqb_neq
    Hform Hspeed image_path audio_path Hsave1 Hsave2 Hstage1 Hstage2.
  subst image_path audio_path. rewrite form_speed_default in Hspeed.
  open_handler. unfold form_high_performance. exec; shown; same_call.
  all: try done.
  all: congruence.
Qed.

(** ** The effective speed *)

(** C1.  The speed handed to the synthesis call, for both endpoints and
    for requests that do get that far: a text-to-speech request with a
    text and a readable speed, and a process request whose uploads are
    saved and whose first two stages return.  With the high-performance
    flag set it is [max(requested, 1.2)], whatever the requested speed:
    unchanged when it is already at least 1.2, raised to 1.2 when it is
    below, and (for a speed that is a number) never below 1.2; without
    the flag it is the requested speed unchanged.  The call is made
    once. *)
Theorem effective_speed_floor E s sp flag :
  (∀ r d,
     json r = Ret (VDict d) →
     truthy (default VNone (dict_get "text" d)) = true →
     py_float E (default (VFloat PyFloat.f1_0) (dict_get "speed" d))
     = Ret sp →
     truthy (default (VBool false) (dict_get "high_performance" d)) = flag →
     speeds_passed (trace (dispatch E ApiTextToSpeech r s))
     = [effective_speed flag sp])
  ∧ (∀ r fs fm image_file audio_file transcription fs1 response_text fs2,
       files r = Ret fs →
       dict_get "image" fs = Some image_file → filename image_file ≠ "" →
       dict_get "audio" fs = Some audio_file → filename audio_file ≠ "" →
       form r = Ret fm →
       py_float E
         (default (VFloat PyFloat.f1_0) (VStr <$> dict_get "speed" fm))
       = Ret sp →
       String.eqb
         (PyStr.lower (default "false" (dict_get "high_performance" fm)))
         "true" = flag →
       let image_path :=
         stored_path E (uuid_str E (st_uuids s)) (filename image_file) in
       let audio_path :=
         stored_path E (uuid_str E (S (st_uuids s))) (filename audio_file) in
       save_error E image_path = None →
       save_error E audio_path = None →
       mm_transcribe_audio (model_manager E) audio_path
         (<[audio_path := content audio_file]>
            (<[image_path := content image_file]> (st_fs s)))
       = (Ret transcription, fs1) →
       mm_process_image_and_query (model_manager E) image_path
         transcription fs1
       = (Ret response_text, fs2) →
       speeds_passed (trace (dispatch E ApiProcess r s))
       = [effective_speed flag sp])
  ∧ effective_speed true sp = PyFloat.max sp PyFloat.f1_2
  ∧ effective_speed false sp = sp
  ∧ (PyFloat.le PyFloat.f1_2 sp = true → effective_speed true sp = sp)
  ∧ (PyFloat.gt PyFloat.f1_2 sp = true →
     effective_speed true sp = PyFloat.f1_2)
  ∧ (PyFloat.is_nan sp = false →
     PyFloat.le PyFloat.f1_2 (effective_speed true sp) = true).
Proof.
  split.
  { intros r d Hjson Htext Hspeed <-.
    by rewrite (tts_speed_passed E r s d sp Hjson Htext Hspeed). }
  split.
  { intros r fs fm image_file audio_file transcription fs1 response_text fs2
      Hfiles Himg Himg_name Haud Haud_name Hform Hspeed <-
      image_path audio_path Hsave1 Hsave2 Hstage1 Hstage2.
    by rewrite (process_speed_passed E r s fs fm image_file audio_file sp
                  transcription fs1 response_text fs2 Hfiles Himg Himg_name
                  Haud Haud_name Hform Hspeed Hsave1 Hsave2 Hstage1 Hstage2). }
  unfold effective_speed.
  split_and!; auto using max_noop, max_floor, max_at_least.
Qed.

Lemma effective_speed_floor_witness :
  speeds_passed
    (trace (dispatch Demo.E ApiTextToSpeech Demo.tts_hello Demo.s0))
  = [PyFloat.f1_2]
  ∧ speeds_passed (trace (dispatch Demo.E ApiProcess Demo.process_ok Demo.s0))
    = [PyFloat.f1_2].
Proof.
  destruct (effective_speed_floor Demo.E Demo.s0 Demo.f0_8 true)
    as (Htts & Hprocess & _).
  split.
  - apply (Htts Demo.tts_hello
             [("text", VStr "hello"); ("high_performance", VBool true);
              ("speed", VFloat Demo.f0_8)]); reflexivity.
  - eapply (Hprocess Demo.process_ok
             [("image", Demo.upload "cat.png");
              ("audio", Demo.upload "q.wav")]
             [("voice", "af_heart"); ("speed", "0.8");
              ("high_performance", "True")]
             (Demo.upload "cat.png") (Demo.upload "q.wav")
             "what is this" _ "a cat");
      first [reflexivity | discriminate].
Defined.

(** ** The high-performance flag *)

Lemma flag_as_read_correct ep r :
  high_performance_flag ep r = flag_as_read ep r.
Proof.
  unfold high_performance_flag, flag_as_read, form_high_performance,
    json_high_performance.
  destruct ep; try done.
  - destruct (json r) as [[]|]; try done.
    by destruct (dict_get "high_performance" d).
  - destruct (form r) as [fm|]; [|done].
    destruct (dict_get "high_performance" fm) as [v|]; simpl; [|done].
    destruct (String.eqb_spec (PyStr.lower v) "true") as [Heq|Hne].
    + by rewrite bool_decide_eq_true_2.
    + by rewrite bool_decide_eq_false_2.
Qed.

(** C9.  What turns the flag on differs between the two endpoints that
    take it.  In [/api/process] the synthesis call gets the floored
    speed exactly when the form field, lowercased, is the string [true],
    so that [1] and [yes] leave the flag off as an absent field does; in
    [/api/text_to_speech] it gets the floored speed exactly when the
    JSON value is true in the sense of [if], so that any non-empty
    string, [false] among them, turns the flag on. *)
Theorem high_performance_interpretation E s sp :
  (∀ r fs fm image_file audio_file transcription fs1 response_text fs2,
     files r = Ret fs →
     dict_get "image" fs = Some image_file → filename image_file ≠ "" →
     dict_get "audio" fs = Some audio_file → filename audio_file ≠ "" →
     form r = Ret fm →
     py_float E
       (default (VFloat PyFloat.f1_0) (VStr <$> dict_get "speed" fm))
     = Ret sp →
     let image_path :=
       stored_path E (uuid_str E (st_uuids s)) (filename image_file) in
     let audio_path :=
       stored_path E (uuid_str E (S (st_uuids s))) (filename audio_file) in
     save_error E image_path = None →
     save_error E audio_path = None →
     mm_transcribe_audio (model_manager E) audio_path
       (<[audio_path := content audio_file]>
          (<[image_path := content image_file]> (st_fs s)))
     = (Ret transcription, fs1) →
     mm_process_image_and_query (model_manager E) image_path
       transcription fs1
     = (Ret response_text, fs2) →
     speeds_passed (trace (dispatch E ApiProcess r s))
     = [match dict_get "high_performance" fm with
        | Some v =>
            if String.eqb (PyStr.lower v) "true"
            then PyFloat.max sp PyFloat.f1_2 else sp
        | None => sp
        end])
  ∧ (∀ r d,
       json r = Ret (VDict d) →
       truthy (default VNone (dict_get "text" d)) = true →
       py_float E (default (VFloat PyFloat.f1_0) (dict_get "speed" d))
       = Ret sp →
       speeds_passed (trace (dispatch E ApiTextToSpeech r s))
       = [match dict_get "high_performance" d with
          | Some v => if truthy v then PyFloat.max sp PyFloat.f1_2 else sp
          | None => sp
          end])
  ∧ String.eqb (PyStr.lower "TRUE") "true" = true
  ∧ String.eqb (PyStr.lower "1") "true" = false
  ∧ String.eqb (PyStr.lower "yes") "true" = false
  ∧ truthy (VStr "false") = true
  ∧ truthy (VInt 1) = true
  ∧ truthy (VBool false) = false
  ∧ truthy VNone = false.
Proof.
  split.
  { intros r fs fm image_file audio_file transcription fs1 response_text fs2
      Hfiles Himg Himg_name Haud Haud_name Hform Hspeed
      image_path audio_path Hsave1 Hsave2 Hstage1 Hstage2.
    rewrite (process_speed_passed E r s fs fm image_file audio_file sp
               transcription fs1 response_text fs2 Hfiles Himg Himg_name
               Haud Haud_name Hform Hspeed Hsave1 Hsave2 Hstage1 Hstage2).
    by destruct (dict_get "high_performance" fm). }
  split; [|by vm_compute].
  intros r d Hjson Htext Hspeed.
  rewrite (tts_speed_passed E r s d sp Hjson Htext Hspeed).
  by destruct (dict_get "high_performance" d).
Qed.

Lemma high_performance_interpretation_witness :
  speeds_passed
    (trace (dispatch Demo.E ApiProcess Demo.process_flag_one Demo.s0))
  = [Demo.f0_8]
  ∧ speeds_passed
      (trace (dispatch Demo.E ApiTextToSpeech
                (json_request
                   (VDict [("text", VStr "hello");
                           ("high_performance", VStr "false");
                           ("speed", VFloat Demo.f0_8)]))
                Demo.s0))
    = [PyFloat.f1_2].
Proof.
  destruct (high_performance_interpretation Demo.E Demo.s0 Demo.f0_8)
    as (Hprocess & Htts & _).
  split.
  - eapply (Hprocess Demo.process_flag_one
             [("image", Demo.upload "cat.png");
              ("audio", Demo.upload "q.wav")]
             [("speed", "0.8"); ("high_performance", "1")]
             (Demo.upload "cat.png") (Demo.upload "q.wav")
             "what is this" _ "a cat");
      first [reflexivity | discriminate].
  - apply (Htts _ [("text", VStr "hello");
                   ("high_performance", VStr "false");
                   ("speed", VFloat Demo.f0_8)]); reflexivity.
Defined.

(** ** Requests that omit a required part *)







(** ** A speed that cannot be read *)

(** C10, as the code has it.  A text-to-speech request whose speed field
    is present and cannot be converted to a float is answered 500 with
    the error-and-details envelope, whatever else it carries.  A process
    request with such a speed is answered so when both files are there:
    the files are checked first.  In both cases nothing else has
    happened: no file is saved and the model manager is not called. *)
Theorem unreadable_speed_500 E ep r s v e :
  speed_field ep r = Some v →
  py_float E v = Raise e →
  (ep = ApiProcess → ∃ fs, files r = Ret fs ∧ omits_required ep r = false) →
  ∃ body msg,
    handler_body E ep r = Some (body, msg)
    ∧ dispatch E ep r s = (error_envelope msg e, s, [EvTraceback e])
    ∧ status (answer (dispatch E ep r s)) = 500%nat.
Proof.
  unfold speed_field, omits_required, missing_file.
  intros Hfield Hfloat Hfiles. destruct ep; try done.
  - do 2 eexists. split; [reflexivity|]. open_handler.
    destruct (json r) as [[]|] eqn:Hjs; try done.
    assert (py_float E (default (VFloat PyFloat.f1_0) (dict_get "speed" d))
            = Raise e) as Hsp by by rewrite Hfield.
    exec; finished; try done; try congruence.
  - do 2 eexists. split; [reflexivity|]. open_handler.
    destruct Hfiles as (fs & Hfs & Hok); [done|]. rewrite Hfs in Hok.
    apply orb_false_iff in Hok as [Himg Haud].
    destruct (form r) as [fm|] eqn:Hfm; [|done].
    destruct (dict_get "speed" fm) as [sv|] eqn:Hsv; [|done].
    simpl in Hfield. injection Hfield as <-.
    assert (py_float E (form_speed fm) = Raise e) as Hfs'.
    { unfold form_speed. by rewrite Hsv. }
    rewrite Hfs. exec; finished; try done; try congruence.
Qed.

Lemma unreadable_speed_500_witness :
  speed_field ApiProcess Demo.process_bad_speed = Some (VStr "fast")
  ∧ status (answer (dispatch Demo.E ApiProcess Demo.process_bad_speed Demo.s0))
    = 500%nat.
Proof.
  split; [reflexivity|].
  destruct (unreadable_speed_500 Demo.E ApiProcess Demo.process_bad_speed
              Demo.s0 (VStr "fast")
              (Exn "ValueError" "could not convert string to float: 'fast'")
              eq_refl eq_refl)
    as (body & msg & _ & _ & H500).
  - intros _. exists [("image", Demo.upload "cat.png");
                      ("audio", Demo.upload "q.wav")].
    split; reflexivity.
  - exact H500.
Defined.

(** C10 as stated fails for [/api/process]: without the files the
    answer is the 400 of the validation, since the speed has not been
    looked at yet. *)
Lemma unreadable_speed_without_files_400 :
  speed_field ApiProcess Demo.process_no_files_bad_speed = Some (VStr "fast")
  ∧ (∃ e, py_float Demo.E (VStr "fast") = Raise e)
  ∧ answer (dispatch Demo.E ApiProcess Demo.process_no_files_bad_speed Demo.s0)
    = err "No image file provided" 400.
Proof. split; [reflexivity|]. split; [by eexists|reflexivity]. Qed.

(** ** The failure boundary *)

Lemma calls_not_repeated E ep r s :
  NoDup (omap operation_of (trace (dispatch E ep r s)))
  ∧ status (answer (dispatch E ep r s)) ∈ [200; 400; 500]%nat.
Proof.
  destruct ep; open_handler; [..|split; compute_done].
  all: exec; finished; split; compute_done.
Qed.

(** C7.  Each handler but the health check is its body inside one
    [try]: when the body raises, the exception is printed and the answer
    is 500 with the handler's fixed message under [error] and the text of
    the exception under [details]; when the body returns, its answer is
    the handler's.  Nothing follows the exception but the traceback, so
    nothing is retried: in every run each operation of the model manager
    is called at most once, and every answer is a 200, a 400 or a 500. *)
Theorem exceptions_become_500 E ep r s :
  match handler_body E ep r with
  | Some (body, msg) =>
      match body s with
      | (Raise e, s', t) =>
          dispatch E ep r s = (error_envelope msg e, s', t ++ [EvTraceback e])
          ∧ status (error_envelope msg e) = 500%nat
          ∧ body_field "error" (error_envelope msg e) = Some (VStr msg)
          ∧ body_field "details" (error_envelope msg e)
            = Some (VStr (exn_str e))
      | (Ret resp, s', t) => dispatch E ep r s = (resp, s', t)
      end
  | None =>
      dispatch E ep r s = ((VDict [("status", VStr "ok")], 200%nat), s, [])
  end
  ∧ NoDup (omap operation_of (trace (dispatch E ep r s)))
  ∧ status (answer (dispatch E ep r s)) ∈ [200; 400; 500]%nat.
Proof.
  split; [|apply calls_not_repeated].
  destruct ep; simpl; try reflexivity;
    unfold transcribe_audio, generate_response, text_to_speech, get_voices,
      get_voices_by_language, process_query, try_except;
    match goal with
    | |- context [match ?b s with _ => _ end] =>
        destruct (b s) as [[[resp|e] s'] t]
    end; done.
Qed.

(** ** The synthesised audio file *)

(** What a text-to-speech run that answers 200 has done. *)
Lemma text_to_speech_200 E r s :
  status (answer (dispatch E ApiTextToSpeech r s)) = 200%nat →
  ∃ text voice sp p fs' c,
    mm_text_to_speech (model_manager E) text voice sp (st_fs s)
    = (Ret p, fs')
    ∧ dispatch E ApiTextToSpeech r s
      = ((VDict [("audio_response", VStr p)], 200%nat),
         {| st_fs := fs'; st_uuids := st_uuids s |},
         [EvSpeech text voice sp;
          EvExists (path_join (UPLOAD_FOLDER E) p);
          EvGetsize (path_join (UPLOAD_FOLDER E) p)])
    ∧ fs' !! path_join (UPLOAD_FOLDER E) p = Some c
    ∧ c ≠ "".
Proof.
  open_handler. exec; finished; try done.
  all: intros _; do 6 eexists; split; [eassumption|]; split; [reflexivity|].
  all: split; [eassumption|].
  all: intros ->;
    match goal with
    | H : (String.length "" =? 0)%nat = false |- _ => discriminate H
    end.
Qed.

(** The composite handler never looks at the file system. *)
Lemma process_query_probes_nothing E r s :
  probed_paths (trace (dispatch E ApiProcess r s)) = [].
Proof. open_handler. exec; finished; done. Qed.

(** C3, where the code departs from it.  [/api/text_to_speech] checks
    the synthesised file and answers 500 when it is missing, but
    [/api/process] never probes the file system: with a model manager
    whose synthesis returns a path and writes no file, it answers 200
    and hands out the path of a file that does not exist. *)
Theorem process_answers_200_without_audio_file :
  let E := Demo.env_of Demo.mm_silent in
  let run := dispatch E ApiProcess Demo.process_ok Demo.s0 in
  status (answer run) = 200%nat
  ∧ body_field "audio_response" (answer run) = Some (VStr "response.wav")
  ∧ st_fs (final run) !! path_join (UPLOAD_FOLDER E) "response.wav" = None
  ∧ st_fs (final run) !! "response.wav" = None
  ∧ (∀ E' r s, probed_paths (trace (dispatch E' ApiProcess r s)) = [])
  ∧ answer (dispatch E ApiTextToSpeech Demo.tts_hello Demo.s0)
    = err "Audio generation failed. The audio file is missing or empty." 500.
Proof.
  split_and!; [reflexivity..| |reflexivity].
  apply process_query_probes_nothing.
Qed.

(** C8.  When [/api/text_to_speech] answers 200, the model manager
    returned a path [p]; the file the gateway probed, for existence and
    then for size, is the upload folder joined with [p], and it is there
    and not empty; the [audio_response] of the answer is [p] itself, not
    joined; and what the client makes of the answer is its own upload
    folder joined with [p]. *)
Theorem audio_response_is_raw_path E r s :
  status (answer (dispatch E ApiTextToSpeech r s)) = 200%nat →
  ∃ text voice sp p fs' c,
    mm_text_to_speech (model_manager E) text voice sp (st_fs s)
    = (Ret p, fs')
    ∧ trace (dispatch E ApiTextToSpeech r s)
      = [EvSpeech text voice sp;
         EvExists (path_join (UPLOAD_FOLDER E) p);
         EvGetsize (path_join (UPLOAD_FOLDER E) p)]
    ∧ fs' !! path_join (UPLOAD_FOLDER E) p = Some c
    ∧ c ≠ ""
    ∧ answer (dispatch E ApiTextToSpeech r s)
      = (VDict [("audio_response", VStr p)], 200%nat)
    ∧ ∀ client_upload_folder,
        audio_path_of client_upload_folder
          (status (answer (dispatch E ApiTextToSpeech r s)))
          (answer (dispatch E ApiTextToSpeech r s)).1
        = if String.eqb p "" then None
          else Some (path_join (default "app/uploads" client_upload_folder) p).
Proof.
  intros H200.
  destruct (text_to_speech_200 E r s H200)
    as (text & voice & sp & p & fs' & c & Hcall & Hrun & Hfile & Hc).
  exists text, voice, sp, p, fs', c. rewrite Hrun.
  split_and!; try done.
Qed.

Lemma audio_response_is_raw_path_witness :
  answer (dispatch Demo.E ApiTextToSpeech Demo.tts_hello Demo.s0)
  = (VDict [("audio_response", VStr "response.wav")], 200%nat)
  ∧ probed_paths (trace (dispatch Demo.E ApiTextToSpeech Demo.tts_hello Demo.s0))
    = ["app/uploads/response.wav"; "app/uploads/response.wav"]
  ∧ ∃ p, audio_path_of None 200
           (answer (dispatch Demo.E ApiTextToSpeech Demo.tts_hello Demo.s0)).1
         = Some (path_join "app/uploads" p).
Proof.
  split; [reflexivity|]. split; [reflexivity|].
  destruct (audio_response_is_raw_path Demo.E Demo.tts_hello Demo.s0 eq_refl)
    as (text & voice & sp & p & fs' & c & _ & _ & _ & _ & Hans & Hclient).
  exists "response.wav". reflexivity.
Defined.

(** ** The composite request *)

Lemma keeps_transcribe mm p fs o g :
  keeps_files mm → mm_transcribe_audio mm p fs = (o, g) → dom fs ⊆ dom g.
Proof. intros (H & _ & _) Heq. specialize (H p fs). by rewrite Heq in H. Qed.

Lemma keeps_query mm p q fs o g :
  keeps_files mm → mm_process_image_and_query mm p q fs = (o, g) →
  dom fs ⊆ dom g.
Proof. intros (_ & H & _) Heq. specialize (H p q fs). by rewrite Heq in H. Qed.

Lemma keeps_speech mm t v sp fs o g :
  keeps_files mm → mm_text_to_speech mm t v sp fs = (o, g) → dom fs ⊆ dom g.
Proof.
  intros (_ & _ & H) Heq. specialize (H t v sp fs). by rewrite Heq in H.
Qed.

Ltac keeps_facts Hk :=
  repeat match goal with
    | H : mm_transcribe_audio _ _ _ = _ |- _ =>
        apply (keeps_transcribe _ _ _ _ _ Hk) in H
    | H : mm_process_image_and_query _ _ _ _ = _ |- _ =>
        apply (keeps_query _ _ _ _ _ _ Hk) in H
    | H : mm_text_to_speech _ _ _ _ _ = _ |- _ =>
        apply (keeps_speech _ _ _ _ _ _ _ Hk) in H
    end.

(** C5.  For a process request that passes validation and whose uploads
    are saved, the run is the two saves followed by the three stages in
    their order: transcribe the saved audio, answer on the saved image
    and the transcription, synthesise the answer at the effective speed.
    When all three return, the answer is 200 with the three results.
    When one raises, no later stage is called, the answer is 500 with the
    text of that exception under [details] and carries no transcription,
    response or audio field, and the handler touches no file afterwards:
    the file system is as the last stage left it, so that with a model
    manager that deletes nothing both uploads are still there. *)
Theorem process_stages_in_sequence
  E r s fs fm image_file audio_file sp :
  files r = Ret fs →
  dict_get "image" fs = Some image_file → filename image_file ≠ "" →
  dict_get "audio" fs = Some audio_file → filename audio_file ≠ "" →
  form r = Ret fm →
  py_float E (form_speed fm) = Ret sp →
  let image_path :=
    stored_path E (uuid_str E (st_uuids s)) (filename image_file) in
  let audio_path :=
    stored_path E (uuid_str E (S (st_uuids s))) (filename audio_file) in
  save_error E image_path = None →
  save_error E audio_path = None →
  let fs0 :=
    <[audio_path := content audio_file]>
      (<[image_path := content image_file]> (st_fs s)) in
  let stages :=
    pipeline (model_manager E) image_path audio_path
      (default "af_heart" (dict_get "voice" fm))
      (effective_speed (form_high_performance fm) sp) fs0 in
  let run := dispatch E ApiProcess r s in
  st_fs (final run) = final stages
  ∧ (keeps_files (model_manager E) → dom fs0 ⊆ dom (st_fs (final run)))
  ∧ match answer stages with
    | Ret (transcription, response_text, audio) =>
        answer run
        = (VDict [("transcription", VStr transcription);
                  ("response", VStr response_text);
                  ("audio_response", VStr audio)], 200%nat)
        ∧ trace run = [EvSave image_path; EvSave audio_path] ++ trace stages
    | Raise e =>
        answer run
        = error_envelope "An internal error occurred. Please try again later." e
        ∧ status (answer run) = 500%nat
        ∧ body_field "details" (answer run) = Some (VStr (exn_str e))
        ∧ body_field "transcription" (answer run) = None
        ∧ body_field "response" (answer run) = None
        ∧ body_field "audio_response" (answer run) = None
        ∧ trace run
          = [EvSave image_path; EvSave audio_path] ++ trace stages
            ++ [EvTraceback e]
    end.
Proof.
  intros Hfiles Himg Himg_name Haud Haud_name Hform Hspeed
    image_path audio_path Hsave1 Hsave2 fs0 stages run.
  subst image_path audio_path fs0 stages run.
  apply String.eqb_neq in Himg_name, Haud_name.
  unfold effective_speed. open_handler. exec.
  all: unfold pipeline in *.
  all: repeat (match goal with
              | H : _ = (_, _) |- _ => progress (rewrite H in * )
              end; cbv beta iota zeta in * ).
  all: unfold answer in *; cbn [fst snd] in *; tidy.
  all: unfold ret, after, finish, final, trace, status, error_envelope; cbn [fst snd app st_fs].
  all: split_and!; try done.
  all: intros Hk; keeps_facts Hk;
    repeat first [assumption | etrans; [eassumption|]].
Qed.

Lemma process_stages_in_sequence_witness :
  answer (dispatch (Demo.env_of Demo.mm_no_answer) ApiProcess Demo.process_ok Demo.s0)
  = error_envelope "An internal error occurred. Please try again later."
      (Exn "RuntimeError" "quota exceeded")
  ∧ model_calls (trace (dispatch (Demo.env_of Demo.mm_no_answer) ApiProcess Demo.process_ok Demo.s0))
    = [EvTranscribe "app/uploads/00000000-0000-4000-8000-000000000001_q.wav";
       EvQuery "app/uploads/00000000-0000-4000-8000-000000000000_cat.png"
         "what is this"].
Proof.
  pose proof (process_stages_in_sequence (Demo.env_of Demo.mm_no_answer)
                Demo.process_ok Demo.s0
                [("image", Demo.upload "cat.png");
                 ("audio", Demo.upload "q.wav")]
                [("voice", "af_heart"); ("speed", "0.8");
                 ("high_performance", "True")]
                (Demo.upload "cat.png") (Demo.upload "q.wav") Demo.f0_8
                eq_refl eq_refl) as H.
  specialize (H ltac:(discriminate) eq_refl ltac:(discriminate) eq_refl
                eq_refl eq_refl eq_refl).
  destruct H as (_ & _ & H). vm_compute in H.
  destruct H as (Hans & _). split; [exact Hans | reflexivity].
Defined.

(** ** Stored uploads *)

Lemma uuid_str_shape E k :
  String.length (uuid_str E k) = 36%nat
  ∧ PyStr.forallb Uuid.is_uuid_char (uuid_str E k) = true.
Proof. apply to_str_shape. Qed.

Lemma uuid_str_nonempty E k : uuid_str E k ≠ "".
Proof.
  intros Heq. pose proof (proj1 (uuid_str_shape E k)) as Hlen.
  by rewrite Heq in Hlen.
Qed.

Lemma path_join_relative E b :
  PyStr.startswith "/" b = false →
  path_join (UPLOAD_FOLDER E) b = upload_prefix E +:+ b.
Proof.
  unfold path_join, upload_prefix. intros ->.
  destruct (_ || _); [done|]. by rewrite str_app_assoc.
Qed.

(** The stored name begins with the identifier, so it is relative and
    lands under the upload folder. *)
Lemma stored_name_prefix E k name :
  ∃ rest, stored_name E (uuid_str E k) name = uuid_str E k +:+ rest.
Proof.
  unfold stored_name.
  apply secure_filename_prefix;
    [apply uuid_str_nonempty | apply uuid_str_shape].
Qed.

Lemma stored_path_under_folder E k name :
  stored_path E (uuid_str E k) name
  = upload_prefix E +:+ stored_name E (uuid_str E k) name.
Proof.
  unfold stored_path. apply path_join_relative.
  destruct (stored_name_prefix E k name) as [rest ->].
  pose proof (uuid_str_nonempty E k) as Hne.
  pose proof (proj2 (uuid_str_shape E k)) as Hall.
  destruct (uuid_str E k) as [|c u]; [done|].
  rewrite str_app_cons. cbn [PyStr.forallb] in Hall.
  apply andb_prop in Hall as [Hc _]. unfold PyStr.startswith.
  destruct (Ascii.eqb_spec "/" c) as [<-|]; [by vm_compute in Hc | done].
Qed.

Lemma stored_name_alnum E k name :
  starts_alnum name = true →
  stored_name E (uuid_str E k) name
  = uuid_str E k +:+ "_" +:+ secure_filename (ascii_fold E) name.
Proof.
  unfold stored_name, starts_alnum. destruct name as [|c n]; [done|].
  apply secure_filename_uuid_alnum;
    [apply uuid_str_nonempty | apply uuid_str_shape].
Qed.

(** Two stored paths are equal only under the same identifier. *)
Lemma stored_path_same_uuid E k k' name name' :
  stored_path E (uuid_str E k) name = stored_path E (uuid_str E k') name' →
  uuid_str E k = uuid_str E k'.
Proof.
  rewrite !stored_path_under_folder. intros Heq.
  apply (inj (String.app _)) in Heq.
  destruct (stored_name_prefix E k name) as [rest Hr].
  destruct (stored_name_prefix E k' name') as [rest' Hr'].
  rewrite Hr, Hr' in Heq.
  eapply str_app_inv_length; [|exact Heq].
  by rewrite (proj1 (uuid_str_shape E k)), (proj1 (uuid_str_shape E k')).
Qed.

Lemma NoDup_seq_inj {A} (h : nat → A) a m k k' :
  NoDup (h <$> seq a m) →
  (a ≤ k < a + m)%nat → (a ≤ k' < a + m)%nat → h k = h k' → k = k'.
Proof.
  intros Hnd Hk Hk' Heq.
  assert ((h <$> seq a m) !! (k - a)%nat = Some (h k)) as H1.
  { rewrite list_lookup_fmap, lookup_seq_lt by lia. simpl. f_equal. f_equal. lia. }
  assert ((h <$> seq a m) !! (k' - a)%nat = Some (h k)) as H2.
  { rewrite list_lookup_fmap, lookup_seq_lt by lia. simpl. rewrite Heq.
    f_equal. f_equal. lia. }
  pose proof (NoDup_lookup _ _ _ _ Hnd H1 H2). lia.
Qed.

Lemma NoDup_fmap_via {A B C} (f : A → B) (g : A → C) (l : list A) :
  (∀ x y, x ∈ l → y ∈ l → f x = f y → g x = g y) →
  NoDup (g <$> l) → NoDup (f <$> l).
Proof.
  induction l as [|x l IH]; intros Hfg Hnd; [constructor|].
  rewrite fmap_cons in *. apply NoDup_cons in Hnd as [Hx Hnd].
  apply NoDup_cons. split.
  - intros (y & Hxy & Hy)%list_elem_of_fmap. apply Hx.
    apply list_elem_of_fmap. exists y. split; [|done].
    apply Hfg; [left | by right | done].
  - apply IH; [|done]. intros y z Hy Hz. apply Hfg; by right.
Qed.

#[local] Opaque uuid_str stored_path.

Ltac solve_saves :=
  unfold saves_ok, saves_of, ret, after, finish, final, trace;
  cbn [fst snd app st_uuids];
  match goal with
  | |- context [saved_paths ?t] =>
      let l := eval simpl in (saved_paths t) in
      change (saved_paths t) with l
  end;
  lazymatch goal with
  | |- ∃ ks, [] = _ ∧ _ => exists []
  | |- ∃ ks, [stored_path _ (uuid_str _ ?k) ?n] = _ ∧ _ => exists [(k, n)]
  | |- ∃ ks, [stored_path _ (uuid_str _ ?k) ?n;
              stored_path _ (uuid_str _ ?k') ?n'] = _ ∧ _ =>
      exists [(k, n); (k', n')]
  end;
  (split; [reflexivity|]);
  (split;
     [simpl;
      repeat (apply NoDup_cons; split;
              [first [ apply not_elem_of_nil
                     | let Hin := fresh in
                       intros Hin%list_elem_of_singleton; clear -Hin; lia ]|]);
      by apply NoDup_nil|]);
  (split; [repeat (apply Forall_cons_2 || apply Forall_nil_2); simpl; clear; lia
          | simpl; clear; lia]).

(** Every handler saves only under identifiers it has just drawn. *)
Lemma run_saves_ok E ep r s : saves_ok E s (dispatch E ep r s).
Proof.
  destruct ep; open_handler; [..|solve_saves].
  all: exec; solve_saves.
Qed.

(** Every handler saves its uploads, in their order, under their own
    names. *)
Lemma run_saves_named E ep r s :
  saved_paths (trace (dispatch E ep r s))
  `prefix_of` stored_as E s (uploads_of ep r).
Proof.
  unfold uploads_of, stored_as.
  destruct ep; open_handler;
    try (destruct (files r); apply prefix_nil).
  all: exec; unfold ret, after, finish, trace;
    cbn [fst snd app saved_paths omap list_omap option_list option_rect imap
           compose];
    rewrite ?Nat.add_0_r, ?Nat.add_1_r.
  all: lazymatch goal with
       | |- [] `prefix_of` _ => apply prefix_nil
       | |- ?l `prefix_of` ?k =>
           first
             [ constr_eq l k; reflexivity
             | lazymatch l with
               | [?a] =>
                   lazymatch k with
                   | [?a'; ?b] => constr_eq a a'; exists [b]; reflexivity
                   end
               end ]
       end.
Qed.

#[local] Transparent uuid_str stored_path.

(** Runs whose saves are well formed, served one after the other. *)
Lemma saves_distinct E s (x1 x2 : response * store * list event) :
  saves_ok E s x1 → saves_ok E (final x1) x2 →
  NoDup (uuids_between E s (final x2)) →
  NoDup (saved_paths (trace x1) ++ saved_paths (trace x2))
  ∧ Forall
      (λ p, ∃ k name,
         (st_uuids s ≤ k < st_uuids (final x2))%nat
         ∧ p = upload_prefix E +:+ stored_name E (uuid_str E k) name
         ∧ (∃ rest, stored_name E (uuid_str E k) name = uuid_str E k +:+ rest)
         ∧ (starts_alnum name = true →
            stored_name E (uuid_str E k) name
            = uuid_str E k +:+ "_" +:+ secure_filename (ascii_fold E) name))
      (saved_paths (trace x1) ++ saved_paths (trace x2)).
Proof.
  intros (ks1 & Hs1 & Hnd1 & Hin1 & Hle1) (ks2 & Hs2 & Hnd2 & Hin2 & Hle2)
    Huuids.
  rewrite Hs1, Hs2. unfold saves_of. rewrite <-fmap_app.
  unfold uuids_between in Huuids.
  generalize dependent (st_uuids (final x2)).
  generalize dependent (st_uuids (final x1)).
  generalize dependent (st_uuids s). clear -Hnd1 Hnd2.
  intros n n1 Hin1 Hle1 n2 Hin2 Hle2 Huuids.
  assert (Forall (λ k, n ≤ k < n2)%nat (ks1 ++ ks2).*1) as Hin.
  { rewrite fmap_app. apply Forall_app. split.
    - eapply Forall_impl; [exact Hin1|]. simpl. lia.
    - eapply Forall_impl; [exact Hin2|]. simpl. lia. }
  split.
  - apply (NoDup_fmap_via _ fst).
    + intros x y Hx Hy Heq. apply stored_path_same_uuid in Heq.
      rewrite Forall_forall in Hin.
      assert (x.1 ∈ (ks1 ++ ks2).*1) as Hx1 by (apply list_elem_of_fmap; eauto).
      assert (y.1 ∈ (ks1 ++ ks2).*1) as Hy1 by (apply list_elem_of_fmap; eauto).
      apply Hin in Hx1, Hy1.
      eapply (NoDup_seq_inj (uuid_str E)); [exact Huuids|..|exact Heq]; lia.
    + rewrite fmap_app. apply NoDup_app. split; [done|]. split; [|done].
      intros k Hk1 Hk2. rewrite Forall_forall in Hin1, Hin2.
      apply Hin1 in Hk1. apply Hin2 in Hk2. lia.
  - apply Forall_fmap. rewrite Forall_forall in Hin. apply Forall_forall.
    intros [k name] Hkn. exists k, name. simpl.
    split; [apply Hin, list_elem_of_fmap; by exists (k, name)|].
    split; [apply stored_path_under_folder|].
    split; [apply stored_name_prefix | apply stored_name_alnum].
Qed.

(** C6, as the code has it.  The files saved by two requests served one
    after the other (or by one request) all have different paths,
    whatever the uploads are called, as long as the identifiers drawn
    meanwhile are different.  The files a request saves are its uploads,
    in their order, each under the next identifier drawn and at the
    upload folder joined with the sanitised form of identifier,
    underscore and original name of that upload taken as one string.
    That path is the upload folder followed by a name which begins with
    the identifier, and which is the identifier, an underscore and the
    sanitised original name whenever the original name begins with an
    ASCII letter or digit. *)
Theorem stored_paths_distinct E ep1 r1 ep2 r2 s :
  let run1 := dispatch E ep1 r1 s in
  let run2 := dispatch E ep2 r2 (final run1) in
  NoDup (uuids_between E s (final run2)) →
  NoDup (saved_paths (trace run1) ++ saved_paths (trace run2))
  ∧ saved_paths (trace run1) `prefix_of` stored_as E s (uploads_of ep1 r1)
  ∧ saved_paths (trace run2)
    `prefix_of` stored_as E (final run1) (uploads_of ep2 r2)
  ∧ ∀ k name,
      stored_path E (uuid_str E k) name
      = upload_prefix E +:+ stored_name E (uuid_str E k) name
      ∧ stored_name E (uuid_str E k) name
        = secure_filename (ascii_fold E) (uuid_str E k +:+ "_" +:+ name)
      ∧ (∃ rest, stored_name E (uuid_str E k) name = uuid_str E k +:+ rest)
      ∧ (starts_alnum name = true →
         stored_name E (uuid_str E k) name
         = uuid_str E k +:+ "_" +:+ secure_filename (ascii_fold E) name).
Proof.
  intros run1 run2 Huuids. split_and!.
  - apply (saves_distinct E s run1 run2); [apply run_saves_ok..|exact Huuids].
  - apply run_saves_named.
  - apply run_saves_named.
  - intros k name.
    split_and!; [apply stored_path_under_folder | done
                | apply stored_name_prefix | apply stored_name_alnum].
Qed.

Lemma stored_paths_distinct_witness :
  saved_paths
    (trace (dispatch Demo.E ApiProcess Demo.process_same_name Demo.s0))
  = ["app/uploads/00000000-0000-4000-8000-000000000000_clip.bin";
     "app/uploads/00000000-0000-4000-8000-000000000001_clip.bin"]
  ∧ uploads_of ApiProcess Demo.process_same_name
    = [Demo.upload "clip.bin"; Demo.upload "clip.bin"]
  ∧ NoDup
      (saved_paths
         (trace (dispatch Demo.E ApiProcess Demo.process_same_name Demo.s0))
       ++ saved_paths
            (trace (dispatch Demo.E ApiProcess Demo.process_same_name
                      (final (dispatch Demo.E ApiProcess
                                Demo.process_same_name Demo.s0))))).
Proof.
  split; [reflexivity|]. split; [reflexivity|].
  refine (proj1 (stored_paths_distinct Demo.E ApiProcess
                    Demo.process_same_name ApiProcess Demo.process_same_name
                    Demo.s0 _)).
  refine (bool_decide_unpack _ _). vm_compute. exact I.
Defined.

(** C6 as stated fails in its second half: the name is sanitised
    together with the identifier, so an upload called [?] is stored under
    the bare identifier, with no underscore and no name after it. *)
Lemma stored_name_without_underscore :
  saved_paths
    (trace (dispatch Demo.E ApiTranscribe Demo.transcribe_odd_name Demo.s0))
  = ["app/uploads/00000000-0000-4000-8000-000000000000"]
  ∧ stored_name Demo.E (uuid_str Demo.E 0) "?" = uuid_str Demo.E 0
  ∧ stored_name Demo.E (uuid_str Demo.E 0) "?"
    ≠ uuid_str Demo.E 0 +:+ "_" +:+ secure_filename (ascii_fold Demo.E) "?"
  ∧ ¬ (∀ E u name,
         stored_name E u name
         = u +:+ "_" +:+ secure_filename (ascii_fold E) name).
Proof.
  split; [reflexivity|]. split; [reflexivity|]. split.
  - vm_compute. discriminate.
  - intros H. specialize (H Demo.E (uuid_str Demo.E 0) "?").
    vm_compute in H. discriminate H.
Qed.

(** ** The voice catalog and its grouping *)

Section VoiceFacts.
Implicit Types (voices_data : gmap string (list (string * pyval))).

Lemma dict_get_set {A} k (v : A) d : dict_get k (dict_set k v d) = Some v.
Proof.
  induction d as [|[k' v'] d IH]; cbn [dict_set dict_get].
  - by rewrite String.eqb_refl.
  - destruct (String.eqb k k') eqn:Hk; cbn [dict_get]; rewrite ?Hk.
    + by rewrite String.eqb_refl.
    + exact IH.
Qed.

Lemma entry_id_set i d : entry_id (VDict (dict_set "id" (VStr i) d)) = Some i.
Proof. unfold entry_id. by rewrite dict_get_set. Qed.

(** The inner loop as a comprehension. *)
Lemma voices_info_loop voices_data ids acc :
  foldl (λ voices_info voice_id,
           match voices_data !! voice_id with
           | Some voice_info =>
               voices_info ++ [VDict (dict_set "id" (VStr voice_id) voice_info)]
           | None => voices_info
           end) acc ids
  = acc ++ omap (λ i, (λ info, VDict (dict_set "id" (VStr i) info))
                      <$> voices_data !! i) ids.
Proof.
  revert acc. induction ids as [|i ids IH]; intros acc;
    cbn [foldl omap list_omap].
  - by rewrite app_nil_r.
  - rewrite IH. destruct (voices_data !! i); cbn [fmap option_fmap option_map].
    + by rewrite <-app_assoc.
    + done.
Qed.

Lemma voices_info_of_omap voices_data ids :
  voices_info_of voices_data ids
  = omap (λ i, (λ info, VDict (dict_set "id" (VStr i) info))
               <$> voices_data !! i) ids.
Proof. unfold voices_info_of. by rewrite voices_info_loop. Qed.

(** Ids the catalog knows come back as they went in. *)
Lemma group_ids_known voices_data ids :
  Forall (λ i, is_Some (voices_data !! i)) ids →
  group_ids (VList (voices_info_of voices_data ids)) = ids.
Proof.
  rewrite voices_info_of_omap. cbn [group_ids].
  induction 1 as [|i ids [info Hi] _ IH]; [done|].
  cbn [omap list_omap]. rewrite Hi.
  cbn [fmap option_fmap option_map omap list_omap].
  rewrite entry_id_set. by rewrite IH.
Qed.

(** The outer loop as a map over the groups. *)
Lemma foldl_insert_lookup {A B} (f : A → B) (l : list (string * A))
    (acc : gmap string B) k :
  NoDup l.*1 →
  foldl (λ response '(language, x), <[language := f x]> response) acc l !! k
  = match (list_to_map l : gmap string A) !! k with
    | Some x => Some (f x)
    | None => acc !! k
    end.
Proof.
  revert acc. induction l as [|[k0 x0] l IH]; intros acc Hnd.
  - cbn [foldl list_to_map foldr]. by rewrite lookup_empty.
  - apply NoDup_cons in Hnd as [Hk0 Hnd]. cbn [foldl list_to_map foldr].
    rewrite IH by done. cbn [uncurry fst snd].
    destruct (decide (k = k0)) as [->|Hne].
    + rewrite (not_elem_of_list_to_map_1 l k0 Hk0).
      by rewrite !lookup_insert_eq.
    + by rewrite !lookup_insert_ne.
Qed.

Lemma build_response_fmap voices_data voices_by_language :
  build_response voices_data voices_by_language
  = voices_info_of voices_data <$> voices_by_language.
Proof.
  apply map_eq. intros k. unfold build_response.
  rewrite foldl_insert_lookup by apply NoDup_fst_map_to_list.
  rewrite list_to_map_to_list, lookup_fmap, lookup_empty.
  by destruct (voices_by_language !! k).
Qed.

Lemma elem_of_concat {A} (x : A) (l : list (list A)) :
  x ∈ concat l ↔ ∃ xs, xs ∈ l ∧ x ∈ xs.
Proof.
  induction l as [|ys l IH]; cbn [concat].
  - split; [by intros ?%elem_of_nil | by intros (? & ?%elem_of_nil & _)].
  - rewrite elem_of_app, IH. split.
    + intros [?|(xs & ? & ?)]; [exists ys | exists xs];
        (split; [|done]); [left | by right].
    + intros (xs & [->|?]%elem_of_cons & ?); [by left | right; by exists xs].
Qed.

(** Grouping is a rearrangement of the ids. *)
Lemma group_by_language_ids (items : list (string * VoiceDescriptor)) :
  concat (map_to_list (group_by_language items)).*2 ≡ₚ items.*1.
Proof.
  induction items as [|[i v] items IH]; cbn [group_by_language foldr].
  - by rewrite map_to_list_empty.
  - fold (group_by_language items). cbn [fmap list_fmap fst].
    destruct (group_by_language items !! vd_language v) as [ids|] eqn:Hg;
      cbn [from_option id].
    + rewrite <-insert_delete_eq.
      rewrite map_to_list_insert by apply lookup_delete_eq.
      rewrite <-IH.
      rewrite <-(insert_delete_id (group_by_language items) _ _ Hg) at 2.
      rewrite (map_to_list_insert (delete _ _) _ ids)
        by apply lookup_delete_eq.
      done.
    + rewrite map_to_list_insert by done. by rewrite <-IH.
Qed.

End VoiceFacts.

(** What the two catalog endpoints answer when the model manager serves
    [catalog]. *)
Lemma voices_run E catalog r s :
  answer (dispatch (with_catalog catalog E) ApiVoices r s)
  = (jsonify_voices (list_voices catalog), 200%nat).
Proof. reflexivity. Qed.

Lemma voices_by_language_run E catalog r s :
  answer (dispatch (with_catalog catalog E) ApiVoicesByLanguage r s)
  = (jsonify_by_language
       (build_response (list_voices catalog)
          (list_voices_by_language catalog)), 200%nat).
Proof. reflexivity. Qed.

Lemma catalog_ids_voices (catalog : gmap string VoiceDescriptor) :
  catalog_ids (jsonify_voices (list_voices catalog))
  = (map_to_list catalog).*1.
Proof.
  unfold jsonify_voices, list_voices, catalog_ids.
  rewrite !map_to_list_fmap, <-!list_fmap_compose.
  apply list_fmap_ext. by intros _ [??] _.
Qed.

Lemma flattened_ids_by_language (catalog : gmap string VoiceDescriptor) :
  flattened_ids
    (jsonify_by_language
       (build_response (list_voices catalog)
          (list_voices_by_language catalog)))
  = concat (map_to_list (list_voices_by_language catalog)).*2.
Proof.
  unfold jsonify_by_language, flattened_ids.
  rewrite build_response_fmap, !map_to_list_fmap, <-!list_fmap_compose.
  f_equal.
  rewrite <-(list_fmap_id (_.*2)), <-list_fmap_compose.
  apply Forall_fmap_ext, Forall_forall. intros [language ids] Hin.
  cbn [compose prod_map fst snd id].
  apply group_ids_known, Forall_forall. intros i Hi.
  assert (i ∈ (map_to_list catalog).*1) as Hcat.
  { unfold list_voices_by_language in Hin.
    rewrite <-group_by_language_ids. apply elem_of_concat.
    exists ids. split; [|done]. apply list_elem_of_fmap. by exists (language, ids). }
  apply list_elem_of_fmap in Hcat as ([i' v] & -> & Hv%elem_of_map_to_list).
  unfold list_voices. rewrite lookup_fmap. cbn [fst]. rewrite Hv. by eexists.
Qed.

(** C4.  Whatever catalog the model manager serves, the ids found in
    the per-language lists of [/api/voices_by_language], taken together,
    are the keys of the [/api/voices] document rearranged: each id of the
    catalog occurs, and occurs once. *)
Theorem grouping_keeps_voice_ids E catalog r s :
  let by_language :=
    answer (dispatch (with_catalog catalog E) ApiVoicesByLanguage r s) in
  let voices := answer (dispatch (with_catalog catalog E) ApiVoices r s) in
  status by_language = 200%nat
  ∧ status voices = 200%nat
  ∧ flattened_ids by_language.1 ≡ₚ catalog_ids voices.1
  ∧ NoDup (flattened_ids by_language.1)
  ∧ ∀ i, i ∈ flattened_ids by_language.1 ↔ is_Some (catalog !! i).
Proof.
  intros by_language voices. subst by_language voices.
  rewrite voices_run, voices_by_language_run. cbn [fst].
  rewrite catalog_ids_voices, flattened_ids_by_language.
  unfold list_voices_by_language.
  pose proof (group_by_language_ids (map_to_list catalog)) as Hperm.
  split_and!; [done..| |].
  - rewrite Hperm. apply NoDup_fst_map_to_list.
  - intros i. rewrite Hperm, list_elem_of_fmap. split.
    + intros ([i' v] & -> & Hv%elem_of_map_to_list). by eexists.
    + intros [v Hv]. exists (i, v). by rewrite elem_of_map_to_list.
Qed.

(** On the demonstration catalog. *)
Lemma grouping_demo :
  catalog_ids
    (answer (dispatch (with_catalog Demo.catalog Demo.E) ApiVoices
               (json_request VNone) Demo.s0)).1
  ≡ₚ ["af_heart"; "af_bella"; "jf_alpha"].
Proof.
  rewrite voices_run. cbn [fst]. rewrite catalog_ids_voices.
  apply NoDup_Permutation.
  - apply NoDup_fst_map_to_list.
  - apply (bool_decide_unpack _). by vm_compute.
  - intros i. rewrite list_elem_of_fmap. split.
    + intros ([i' v] & -> & Hv%elem_of_map_to_list). cbn [fst].
      unfold Demo.catalog in Hv.
      apply lookup_insert_Some in Hv as [[<- _]|[_ Hv]]; [set_solver|].
      apply lookup_insert_Some in Hv as [[<- _]|[_ Hv]]; [set_solver|].
      apply lookup_singleton_Some in Hv as [<- _]. set_solver.
    + intros Hi. assert (is_Some (Demo.catalog !! i)) as [v Hv].
      { repeat (apply elem_of_cons in Hi as [->|Hi]; [by eexists|]).
        by apply elem_of_nil in Hi. }
      exists (i, v). by rewrite elem_of_map_to_list.
Qed.

(** * Further properties of the gateway *)

(** ** What an answer tells about the run *)

(** X1.  A 400 is given for a missing input only, and before anything has
    happened: nothing is read but the request, no identifier is drawn,
    no file is written, the model manager is not called, and the body is
    the error message alone, with no [details]. *)
Theorem rejected_before_any_effect E ep r s :
  status (answer (dispatch E ep r s)) = 400%nat →
  omits_required ep r = true
  ∧ final (dispatch E ep r s) = s
  ∧ trace (dispatch E ep r s) = []
  ∧ (∃ msg, answer (dispatch E ep r s) = err msg 400)
  ∧ body_field "details" (answer (dispatch E ep r s)) = None.
Proof.
  unfold omits_required, missing_file, missing_field.
  destruct ep; open_handler; [..|done].
  all: exec; shown.
  all: intros H400; try discriminate H400.
  all: split_and!; eauto; try done.
  all: by destruct s.
Qed.

Lemma rejected_before_any_effect_witness :
  final (dispatch Demo.E ApiProcess Demo.process_no_files_bad_speed Demo.s0)
  = Demo.s0.
Proof.
  apply (rejected_before_any_effect Demo.E ApiProcess
           Demo.process_no_files_bad_speed Demo.s0).
  reflexivity.
Defined.

(** X2.  A 500 has one of two causes.  Either the body of the handler raised,
    and the answer is the handler's fixed message with the text of the
    exception under [details], after a traceback was printed; or it is
    the check of the synthesised file in [/api/text_to_speech], whose
    answer has no [details] and prints no traceback. *)
Theorem server_error_causes E ep r s :
  status (answer (dispatch E ep r s)) = 500%nat →
  (∃ msg e,
     snd <$> handler_body E ep r = Some msg
     ∧ answer (dispatch E ep r s) = error_envelope msg e
     ∧ last (trace (dispatch E ep r s)) = Some (EvTraceback e))
  ∨ (ep = ApiTextToSpeech
     ∧ answer (dispatch E ep r s)
       = err "Audio generation failed. The audio file is missing or empty."
           500
     ∧ body_field "details" (answer (dispatch E ep r s)) = None
     ∧ ∃ p, last (trace (dispatch E ep r s)) = Some (EvExists p)
            ∨ last (trace (dispatch E ep r s)) = Some (EvGetsize p)).
Proof.
  destruct ep; open_handler; cbn [fmap option_fmap option_map snd];
    [..|done].
  all: exec; shown.
  all: intros H500; try discriminate H500.
  all: try (left; do 2 eexists; split_and!; reflexivity).
  all: right; split_and!; eauto.
Qed.

Lemma server_error_causes_witness :
  body_field "details"
    (answer (dispatch (Demo.env_of Demo.mm_silent) ApiTextToSpeech
               Demo.tts_hello Demo.s0)) = None
  ∧ body_field "details"
      (answer (dispatch Demo.E ApiTextToSpeech Demo.tts_bad_speed Demo.s0))
    = Some (VStr "could not convert string to float: 'fast'").
Proof.
  split.
  - destruct (server_error_causes (Demo.env_of Demo.mm_silent)
                ApiTextToSpeech Demo.tts_hello Demo.s0 eq_refl)
      as [(msg & e & _ & Hans & _)|(_ & _ & Hnone & _)].
    + discriminate Hans.
    + exact Hnone.
  - destruct (server_error_causes Demo.E ApiTextToSpeech Demo.tts_bad_speed
                Demo.s0 eq_refl)
      as [(msg & e & _ & Hans & _)|(_ & Hans & _)].
    + reflexivity.
    + discriminate Hans.
Defined.

(** ** What a handler does to the file system *)

Ltac read_trace :=
  cbn [saved_paths probed_paths model_calls omap list_omap List.filter
         is_model_call length st_fs st_uuids].

Ltac in_list :=
  lazymatch goal with
  | |- ?x ∈ ?y :: _ =>
      first [ constr_eq x y; apply list_elem_of_here
            | apply list_elem_of_further; in_list ]
  end.

Ltac from_trace H :=
  repeat (apply elem_of_cons in H as [H|H];
          [first [discriminate H | injection H as ->; in_list]|]);
  try by apply elem_of_nil in H.

#[local] Opaque uuid_str stored_path.

(** X3.  Only [/api/transcribe] and [/api/process] draw identifiers and save
    files, at most one and two; only [/api/text_to_speech] looks at the
    file system; the transcription is only ever asked for a file the
    same request has saved; and a request that saves nothing and does
    not reach the model manager leaves the file system as it was. *)
Theorem effects_by_endpoint E ep r s :
  (ep ∉ [ApiTranscribe; ApiProcess] →
   saved_paths (trace (dispatch E ep r s)) = []
   ∧ st_uuids (final (dispatch E ep r s)) = st_uuids s)
  ∧ (ep ≠ ApiTextToSpeech → probed_paths (trace (dispatch E ep r s)) = [])
  ∧ (length (saved_paths (trace (dispatch E ep r s)))
     ≤ st_uuids (final (dispatch E ep r s)) - st_uuids s
     ≤ match ep with ApiProcess => 2 | _ => 1 end)%nat
  ∧ (∀ p, EvTranscribe p ∈ trace (dispatch E ep r s) →
          p ∈ saved_paths (trace (dispatch E ep r s)))
  ∧ (saved_paths (trace (dispatch E ep r s)) = [] →
     model_calls (trace (dispatch E ep r s)) = [] →
     st_fs (final (dispatch E ep r s)) = st_fs s).
Proof.
  destruct ep; open_handler.
  1-6: exec.
  all: shown; read_trace; split_and!.
  all: lazymatch goal with
       | |- (_ ≤ _)%nat => clear; lia
       | |- _ ∉ _ → _ =>
           first [ intros Hn; exfalso; apply Hn; by in_list
                 | intros _; split; reflexivity ]
       | |- _ ≠ _ → _ => first [intros _; reflexivity | intros Hn; by exfalso]
       | |- ∀ p, _ ∈ _ → _ => intros p Hin; from_trace Hin
       | |- _ = _ → _ = _ → _ =>
           intros Hs Hm;
           first [discriminate Hs | discriminate Hm | reflexivity]
       end.
Qed.

Ltac dom_chain :=
  repeat first
    [ assumption
    | reflexivity
    | apply dom_insert_subseteq
    | etrans; [|eassumption]
    | etrans; [|apply dom_insert_subseteq] ].

(** X4.  No handler removes a file: with a model manager that deletes
    nothing, every file that was there before a request is there after
    it, whatever the request and however it ends. *)
Theorem handlers_delete_nothing E ep r s :
  keeps_files (model_manager E) →
  dom (st_fs s) ⊆ dom (st_fs (final (dispatch E ep r s))).
Proof.
  intros Hk. destruct ep; open_handler; [..|done].
  all: exec; shown; cbn [st_fs].
  all: keeps_facts Hk; dom_chain.
Qed.

Lemma handlers_delete_nothing_witness :
  dom (st_fs Demo.s0)
  ⊆ dom (st_fs (final (dispatch Demo.E ApiProcess Demo.process_ok Demo.s0))).
Proof.
  apply (handlers_delete_nothing Demo.E ApiProcess Demo.process_ok Demo.s0).
  split_and!; intros; cbn [Demo.E Demo.env_of model_manager Demo.mm
    mm_transcribe_audio mm_process_image_and_query mm_text_to_speech snd];
    first [reflexivity | apply dom_insert_subseteq].
Defined.

#[local] Transparent uuid_str stored_path.

(** ** The single-stage endpoints *)

(** The run of [/api/transcribe] on an upload that is saved. *)
Lemma transcribe_run E r s fs audio_file o fs' :
  files r = Ret fs →
  dict_get "audio" fs = Some audio_file →
  filename audio_file ≠ "" →
  save_error E (stored_path E (uuid_str E (st_uuids s)) (filename audio_file))
  = None →
  mm_transcribe_audio (model_manager E)
    (stored_path E (uuid_str E (st_uuids s)) (filename audio_file))
    (<[stored_path E (uuid_str E (st_uuids s)) (filename audio_file)
       := content audio_file]> (st_fs s)) = (o, fs') →
  dispatch E ApiTranscribe r s
  = match o with
    | Ret transcription =>
        ((VDict [("transcription", VStr transcription);
                 ("audio_path",
                  VStr (stored_path E (uuid_str E (st_uuids s))
                          (filename audio_file)))], 200%nat),
         {| st_fs := fs'; st_uuids := S (st_uuids s) |},
         [EvSave (stored_path E (uuid_str E (st_uuids s))
                    (filename audio_file));
          EvTranscribe (stored_path E (uuid_str E (st_uuids s))
                          (filename audio_file))])
    | Raise e =>
        (error_envelope "An error occurred during transcription." e,
         {| st_fs := fs'; st_uuids := S (st_uuids s) |},
         [EvSave (stored_path E (uuid_str E (st_uuids s))
                    (filename audio_file));
          EvTranscribe (stored_path E (uuid_str E (st_uuids s))
                          (filename audio_file));
          EvTraceback e])
    end.
Proof.
  intros Hfiles Haudio Hname%String.eqb_neq Hsave Hout.
  destruct o; open_handler; exec; shown; same_call; done.
Qed.

(** The run of [/api/generate_response] on a complete form. *)
Lemma generate_response_run E r s fm image_path query o fs' :
  form r = Ret fm →
  dict_get "image_path" fm = Some image_path → image_path ≠ "" →
  dict_get "query" fm = Some query → query ≠ "" →
  mm_process_image_and_query (model_manager E) image_path query (st_fs s)
  = (o, fs') →
  dispatch E ApiGenerateResponse r s
  = match o with
    | Ret response_text =>
        ((VDict [("response", VStr response_text)], 200%nat),
         {| st_fs := fs'; st_uuids := st_uuids s |},
         [EvQuery image_path query])
    | Raise e =>
        (error_envelope "An error occurred while generating the response." e,
         {| st_fs := fs'; st_uuids := st_uuids s |},
         [EvQuery image_path query; EvTraceback e])
    end.
Proof.
  intros Hform Himage Himage_ne Hquery Hquery_ne Hout.
  destruct o; open_handler; exec; shown; same_call; done.
Qed.

(** X5.  [/api/transcribe], once the upload is there and is saved: the file
    is written under the first free identifier, the model manager is
    asked, once, for that very path, and finds the upload there.  Its
    text is answered with the stored path beside it; its exception is
    answered 500, and the stored file is left where it is. *)
Theorem transcribe_saves_then_transcribes E r s fs audio_file o fs' :
  files r = Ret fs →
  dict_get "audio" fs = Some audio_file →
  filename audio_file ≠ "" →
  let audio_path :=
    stored_path E (uuid_str E (st_uuids s)) (filename audio_file) in
  save_error E audio_path = None →
  let fs0 := <[audio_path := content audio_file]> (st_fs s) in
  mm_transcribe_audio (model_manager E) audio_path fs0 = (o, fs') →
  let run := dispatch E ApiTranscribe r s in
  final run = {| st_fs := fs'; st_uuids := S (st_uuids s) |}
  ∧ fs0 !! audio_path = Some (content audio_file)
  ∧ match o with
    | Ret transcription =>
        answer run
        = (VDict [("transcription", VStr transcription);
                  ("audio_path", VStr audio_path)], 200%nat)
        ∧ trace run = [EvSave audio_path; EvTranscribe audio_path]
    | Raise e =>
        answer run
        = error_envelope "An error occurred during transcription." e
        ∧ trace run
          = [EvSave audio_path; EvTranscribe audio_path; EvTraceback e]
    end.
Proof.
  intros Hfiles Haudio Hname audio_path Hsave fs0 Hout run.
  subst audio_path fs0 run.
  rewrite (transcribe_run E r s fs audio_file o fs') by done.
  split_and!; [by destruct o|apply lookup_insert_eq|by destruct o].
Qed.

Lemma transcribe_saves_then_transcribes_witness :
  dispatch Demo.E ApiTranscribe Demo.transcribe_odd_name Demo.s0
  = ((VDict [("transcription", VStr "what is this");
             ("audio_path",
              VStr "app/uploads/00000000-0000-4000-8000-000000000000")],
      200%nat),
     {| st_fs := {[ "app/uploads/00000000-0000-4000-8000-000000000000"
                    := "data" ]};
        st_uuids := 1 |},
     [EvSave "app/uploads/00000000-0000-4000-8000-000000000000";
      EvTranscribe "app/uploads/00000000-0000-4000-8000-000000000000"]).
Proof.
  pose proof (transcribe_saves_then_transcribes Demo.E
                Demo.transcribe_odd_name Demo.s0
                [("audio", Demo.upload "?")] (Demo.upload "?")
                (Ret "what is this")
                {[ "app/uploads/00000000-0000-4000-8000-000000000000"
                   := "data" ]}
                eq_refl eq_refl ltac:(discriminate) eq_refl eq_refl)
    as (Hfinal & _ & Hanswer & Htrace).
  destruct (dispatch Demo.E ApiTranscribe Demo.transcribe_odd_name Demo.s0)
    as [[ans st] tr].
  cbv [final answer trace fst snd] in Hfinal, Hanswer, Htrace.
  rewrite Hfinal, Hanswer, Htrace. reflexivity.
Defined.

(** X6.  When saving the audio of a process request fails, after the image
    was saved: the answer is 500 with the text of the failure, the model
    manager is not called, both identifiers are spent, and the image
    stays behind in the upload folder. *)
Theorem failed_audio_save_leaves_image
  E r s fs fm image_file audio_file sp e :
  files r = Ret fs →
  dict_get "image" fs = Some image_file → filename image_file ≠ "" →
  dict_get "audio" fs = Some audio_file → filename audio_file ≠ "" →
  form r = Ret fm →
  py_float E (form_speed fm) = Ret sp →
  let image_path :=
    stored_path E (uuid_str E (st_uuids s)) (filename image_file) in
  let audio_path :=
    stored_path E (uuid_str E (S (st_uuids s))) (filename audio_file) in
  save_error E image_path = None →
  save_error E audio_path = Some e →
  dispatch E ApiProcess r s
  = (error_envelope "An internal error occurred. Please try again later." e,
     {| st_fs := <[image_path := content image_file]> (st_fs s);
        st_uuids := S (S (st_uuids s)) |},
     [EvSave image_path; EvTraceback e]).
Proof.
  intros Hfiles Himg Himg_name Haud Haud_name Hform Hspeed
    image_path audio_path Hsave1 Hsave2.
  subst image_path audio_path.
  apply String.eqb_neq in Himg_name, Haud_name.
  open_handler. exec; shown; same_call; done.
Qed.

Lemma failed_audio_save_leaves_image_witness :
  st_fs (final (dispatch Faulty.E ApiProcess Demo.process_ok Demo.s0))
  = {[ "app/uploads/00000000-0000-4000-8000-000000000000_cat.png"
       := "data" ]}.
Proof.
  rewrite (failed_audio_save_leaves_image Faulty.E Demo.process_ok Demo.s0
             [("image", Demo.upload "cat.png");
              ("audio", Demo.upload "q.wav")]
             [("voice", "af_heart"); ("speed", "0.8");
              ("high_performance", "True")]
             (Demo.upload "cat.png") (Demo.upload "q.wav") Demo.f0_8
             Faulty.disk_full
             eq_refl eq_refl ltac:(discriminate) eq_refl ltac:(discriminate)
             eq_refl eq_refl eq_refl eq_refl).
  reflexivity.
Defined.

(** X7.  [/api/generate_response] hands the two form fields to the model
    manager as they came: the image path is neither sanitised nor joined
    to the upload folder, and no file is looked at.  The text returned is
    the answer; an exception is answered 500. *)
Theorem generate_response_forwards E r s fm image_path query o fs' :
  form r = Ret fm →
  dict_get "image_path" fm = Some image_path → image_path ≠ "" →
  dict_get "query" fm = Some query → query ≠ "" →
  mm_process_image_and_query (model_manager E) image_path query (st_fs s)
  = (o, fs') →
  dispatch E ApiGenerateResponse r s
  = match o with
    | Ret response_text =>
        ((VDict [("response", VStr response_text)], 200%nat),
         {| st_fs := fs'; st_uuids := st_uuids s |},
         [EvQuery image_path query])
    | Raise e =>
        (error_envelope "An error occurred while generating the response." e,
         {| st_fs := fs'; st_uuids := st_uuids s |},
         [EvQuery image_path query; EvTraceback e])
    end.
Proof. apply generate_response_run. Qed.

Lemma generate_response_forwards_witness :
  trace (dispatch Demo.E ApiGenerateResponse
           (Demo.form_request []
              [("image_path", "../../etc/passwd"); ("query", "what is this")])
           Demo.s0)
  = [EvQuery "../../etc/passwd" "what is this"].
Proof.
  rewrite (generate_response_forwards Demo.E
             (Demo.form_request []
                [("image_path", "../../etc/passwd");
                 ("query", "what is this")])
             Demo.s0
             [("image_path", "../../etc/passwd"); ("query", "what is this")]
             "../../etc/passwd" "what is this" (Ret "a cat") ∅
             eq_refl eq_refl ltac:(discriminate) eq_refl ltac:(discriminate)
             eq_refl).
  reflexivity.
Defined.

(** The run of [/api/text_to_speech] on a request with a text and a
    speed that can be read. *)
Lemma text_to_speech_run E r s d sp o fs' :
  json r = Ret (VDict d) →
  truthy (default VNone (dict_get "text" d)) = true →
  py_float E (default (VFloat PyFloat.f1_0) (dict_get "speed" d)) = Ret sp →
  mm_text_to_speech (model_manager E)
    (default VNone (dict_get "text" d))
    (default (VStr "af_heart") (dict_get "voice" d))
    (effective_speed (json_high_performance d) sp) (st_fs s) = (o, fs') →
  let call :=
    EvSpeech (default VNone (dict_get "text" d))
      (default (VStr "af_heart") (dict_get "voice" d))
      (effective_speed (json_high_performance d) sp) in
  dispatch E ApiTextToSpeech r s
  = match o with
    | Raise e =>
        (error_envelope
           "An error occurred during text-to-speech conversion." e,
         {| st_fs := fs'; st_uuids := st_uuids s |},
         [call; EvTraceback e])
    | Ret p =>
        match fs' !! path_join (UPLOAD_FOLDER E) p with
        | None =>
            (err "Audio generation failed. The audio file is missing or empty."
               500,
             {| st_fs := fs'; st_uuids := st_uuids s |},
             [call; EvExists (path_join (UPLOAD_FOLDER E) p)])
        | Some c =>
            (if String.eqb c "" then
               err "Audio generation failed. The audio file is missing or empty."
                 500
             else (VDict [("audio_response", VStr p)], 200%nat),
             {| st_fs := fs'; st_uuids := st_uuids s |},
             [call; EvExists (path_join (UPLOAD_FOLDER E) p);
              EvGetsize (path_join (UPLOAD_FOLDER E) p)])
        end
    end.
Proof.
  intros Hjson Htext Hspeed Hout call. subst call.
  unfold effective_speed, json_high_performance in *.
  destruct o as [p|e].
  1: destruct (fs' !! path_join (UPLOAD_FOLDER E) p) as [c|] eqn:Hfile.
  1: destruct (String.eqb c "") eqn:Hc.
  all: open_handler; exec; shown; same_call.
  all: repeat match goal with
         | H : context [truthy (default VNone _)] |- _ =>
             rewrite Htext in H; try discriminate H
         | H : context [_ !! _] |- _ =>
             tryif constr_eq H Hfile then fail
             else (rewrite Hfile in H; try discriminate H)
         end.
  all: try done.
  all: tidy;
    match goal with
    | H : (String.length ?c =? 0)%nat = _ |- _ => by destruct c
    end.
Qed.

(** X8.  [/api/text_to_speech], once the model manager has returned a
    path at which, joined with the upload folder, there is a file: the
    gateway asks whether that joined path exists and then how large it
    is.  An empty file is answered 500 with a message of its own and no
    [details]; otherwise the answer is 200 with the path as the model
    manager gave it, not joined. *)
Theorem synthesised_file_is_checked E r s d sp p fs' c :
  json r = Ret (VDict d) →
  let text := default VNone (dict_get "text" d) in
  let voice := default (VStr "af_heart") (dict_get "voice" d) in
  let speed := effective_speed (json_high_performance d) sp in
  truthy text = true →
  py_float E (default (VFloat PyFloat.f1_0) (dict_get "speed" d)) = Ret sp →
  mm_text_to_speech (model_manager E) text voice speed (st_fs s)
  = (Ret p, fs') →
  let full := path_join (UPLOAD_FOLDER E) p in
  fs' !! full = Some c →
  let run := dispatch E ApiTextToSpeech r s in
  final run = {| st_fs := fs'; st_uuids := st_uuids s |}
  ∧ trace run = [EvSpeech text voice speed; EvExists full; EvGetsize full]
  ∧ answer run
    = if String.eqb c "" then
        err "Audio generation failed. The audio file is missing or empty." 500
      else (VDict [("audio_response", VStr p)], 200%nat).
Proof.
  intros Hjson text voice speed Htext Hspeed Hout full Hfile run.
  subst text voice speed full run.
  rewrite (text_to_speech_run E r s d sp (Ret p) fs' Hjson Htext Hspeed Hout).
  by rewrite Hfile.
Qed.

Lemma synthesised_file_is_checked_witness :
  dispatch Demo.E ApiTextToSpeech Demo.tts_hello Demo.s0
  = ((VDict [("audio_response", VStr "response.wav")], 200%nat),
     {| st_fs := {[ "app/uploads/response.wav" := "RIFF" ]}; st_uuids := 0 |},
     [EvSpeech (VStr "hello") (VStr "af_heart") PyFloat.f1_2;
      EvExists "app/uploads/response.wav";
      EvGetsize "app/uploads/response.wav"]).
Proof.
  pose proof (synthesised_file_is_checked Demo.E Demo.tts_hello Demo.s0
                [("text", VStr "hello"); ("high_performance", VBool true);
                 ("speed", VFloat Demo.f0_8)]
                Demo.f0_8 "response.wav"
                {[ "app/uploads/response.wav" := "RIFF" ]} "RIFF"
                eq_refl eq_refl eq_refl eq_refl eq_refl)
    as (Hfinal & Htrace & Hanswer).
  destruct (dispatch Demo.E ApiTextToSpeech Demo.tts_hello Demo.s0)
    as [[ans st] tr].
  cbv [final answer trace fst snd] in Hfinal, Hanswer, Htrace.
  rewrite Hfinal, Hanswer, Htrace. reflexivity.
Defined.

(** ** The voices document, for any model manager *)

Lemma dict_get_set_ne {A} k k' (v : A) d :
  k ≠ k' → dict_get k (dict_set k' v d) = dict_get k d.
Proof.
  intros Hne%String.eqb_neq.
  induction d as [|[k0 v0] d IH]; cbn [dict_set dict_get].
  - by rewrite Hne.
  - destruct (String.eqb k' k0) eqn:Hk0; cbn [dict_get].
    + apply String.eqb_eq in Hk0 as <-. by rewrite Hne.
    + by rewrite IH.
Qed.

Lemma omap_entry_ids (catalog : gmap string (list (string * pyval)))
    (ids : list string) :
  omap entry_id
    (omap (λ i, (λ info, VDict (dict_set "id" (VStr i) info))
                <$> catalog !! i) ids)
  = filter (λ i, is_Some (catalog !! i)) ids.
Proof.
  induction ids as [|i ids IH]; [done|].
  cbn [omap list_omap]. rewrite filter_cons.
  destruct (catalog !! i) as [info|] eqn:Hi;
    cbn [fmap option_fmap option_map omap list_omap].
  - rewrite entry_id_set, IH. rewrite decide_True; [done|by eexists].
  - rewrite IH. rewrite decide_False; [done|by intros []].
Qed.

(** X9.  [/api/voices_by_language] asks for the grouping, then for the
    catalog, and stops at the first that raises.  Its document has the
    languages of the grouping, all of them; under each, in the order of
    the grouping, one entry for every id the catalog knows, and none for
    an id it does not know; an entry is the descriptor of the catalog
    with the id put under [id]. *)
Theorem voices_by_language_document E r s :
  let run := dispatch E ApiVoicesByLanguage r s in
  match mm_get_voices_by_language (model_manager E) with
  | Raise e =>
      run
      = (error_envelope
           "An error occurred while retrieving voices by language." e,
         s, [EvVoicesByLanguage; EvTraceback e])
  | Ret groups =>
      match mm_get_available_voices (model_manager E) with
      | Raise e =>
          run
          = (error_envelope
               "An error occurred while retrieving voices by language." e,
             s, [EvVoicesByLanguage; EvVoices; EvTraceback e])
      | Ret catalog =>
          ∃ doc : gmap string (list pyval),
            run
            = ((VDict (map_to_list (VList <$> doc)), 200%nat), s,
               [EvVoicesByLanguage; EvVoices])
            ∧ dom doc = dom groups
            ∧ ∀ language ids,
                groups !! language = Some ids →
                ∃ entries,
                  doc !! language = Some entries
                  ∧ omap entry_id entries
                    = filter (λ i, is_Some (catalog !! i)) ids
                  ∧ ∀ entry,
                      entry ∈ entries →
                      ∃ i info,
                        i ∈ ids ∧ catalog !! i = Some info
                        ∧ body_field "id" (entry, 200%nat) = Some (VStr i)
                        ∧ ∀ k, k ≠ "id" →
                               body_field k (entry, 200%nat)
                               = dict_get k info
      end
  end.
Proof.
  intros run. subst run. open_handler.
  destruct (mm_get_voices_by_language (model_manager E)) as [groups|e] eqn:Hg.
  - destruct (mm_get_available_voices (model_manager E)) as [catalog|e]
      eqn:Hc.
    + exists (build_response catalog groups). split.
      { exec; shown; by same_call. }
      rewrite build_response_fmap. split; [apply dom_fmap_L|].
      intros language ids Hids. eexists. split.
      { rewrite lookup_fmap, Hids. reflexivity. }
      rewrite voices_info_of_omap. split; [apply omap_entry_ids|].
      intros entry (i & Hi & Hentry)%list_elem_of_omap.
      destruct (catalog !! i) as [info|] eqn:Hinfo; [|done].
      injection Hentry as <-. exists i, info.
      split_and!; [done|done|apply dict_get_set|].
      intros k Hk. by apply dict_get_set_ne.
    + exec; shown; by same_call.
  - exec; shown; by same_call.
Qed.

(** ** Where uploads are stored *)

Section StoredNames.

Implicit Types (s : string) (p q : ascii → bool).

Lemma forallb_filter p s : PyStr.forallb p (PyStr.filter p s) = true.
Proof.
  induction s as [|c s IH]; [done|]. cbn [PyStr.filter].
  destruct (p c) eqn:Hc; [|done]. cbn [PyStr.forallb]. by rewrite Hc.
Qed.

Lemma forallb_lstrip p q s :
  PyStr.forallb p s = true → PyStr.forallb p (PyStr.lstrip q s) = true.
Proof.
  induction s as [|c s IH]; [done|]. cbn [PyStr.lstrip].
  destruct (q c); [|done]. cbn [PyStr.forallb].
  intros [_ Hs]%andb_prop. auto.
Qed.

Lemma forallb_rstrip p q s :
  PyStr.forallb p s = true → PyStr.forallb p (PyStr.rstrip q s) = true.
Proof.
  induction s as [|c s IH]; [done|]. cbn [PyStr.rstrip PyStr.forallb].
  intros [Hc Hs]%andb_prop. specialize (IH Hs).
  destruct (PyStr.rstrip q s).
  - destruct (q c); [done|]. cbn [PyStr.forallb]. by rewrite Hc.
  - cbn [PyStr.forallb] in *. by rewrite Hc.
Qed.

(** What remains of a name is made of letters, digits, [_], [.] and
    [-]. *)
Lemma secure_filename_chars fold s :
  PyStr.forallb filename_char (secure_filename fold s) = true.
Proof.
  unfold secure_filename, PyStr.strip.
  apply forallb_rstrip, forallb_lstrip, forallb_filter.
Qed.

End StoredNames.

(** X10.  Every file a handler saves lies directly in the upload folder,
    whatever the name of the upload: its path is the folder, a
    separator, and a name of at least 36 characters, all of them
    letters, digits, [_], [.] or [-], so none a path separator, which
    begins with the identifier, so not with a dot. *)
Theorem uploads_stay_in_folder E ep r s p :
  p ∈ saved_paths (trace (dispatch E ep r s)) →
  ∃ name,
    p = upload_prefix E +:+ name
    ∧ PyStr.forallb filename_char name = true
    ∧ PyStr.forallb (λ c, negb (Ascii.eqb c "/")) name = true
    ∧ PyStr.startswith "." name = false
    ∧ (36 ≤ String.length name)%nat.
Proof.
  destruct (run_saves_ok E ep r s) as (ks & -> & _).
  unfold saves_of. intros ([k name] & -> & _)%list_elem_of_fmap.
  cbn [fst snd]. exists (stored_name E (uuid_str E k) name).
  split; [apply stored_path_under_folder|].
  assert (PyStr.forallb filename_char (stored_name E (uuid_str E k) name)
          = true) as Hchars by apply secure_filename_chars.
  split; [done|]. split.
  { eapply str_forallb_impl, Hchars.
    intros c. destruct c as [[] [] [] [] [] [] [] []]; vm_compute; congruence. }
  destruct (stored_name_prefix E k name) as [rest ->].
  destruct (uuid_str_shape E k) as [Hlen Hall].
  rewrite str_app_length, Hlen. split; [|lia].
  destruct (uuid_str E k) as [|c u]; [done|].
  rewrite str_app_cons. cbn [PyStr.startswith PyStr.forallb] in *.
  apply andb_prop in Hall as [Hc _].
  destruct c as [[] [] [] [] [] [] [] []]; vm_compute in Hc |- *; congruence.
Qed.

Lemma uploads_stay_in_folder_witness :
  saved_paths
    (trace (dispatch Demo.E ApiTranscribe Faulty.transcribe_traversal Demo.s0))
  = ["app/uploads/00000000-0000-4000-8000-000000000000_.._.._etc_passwd"]
  ∧ ∃ name,
      "app/uploads/00000000-0000-4000-8000-000000000000_.._.._etc_passwd"
      = upload_prefix Demo.E +:+ name
      ∧ PyStr.forallb (λ c, negb (Ascii.eqb c "/")) name = true.
Proof.
  split; [reflexivity|].
  destruct (uploads_stay_in_folder Demo.E ApiTranscribe
              Faulty.transcribe_traversal Demo.s0
              "app/uploads/00000000-0000-4000-8000-000000000000_.._.._etc_passwd")
    as (name & Hp & _ & Hchars & _).
  - vm_compute. apply list_elem_of_here.
  - by exists name.
Defined.

(** * The client against the gateway *)

Lemma stored_path_audio_wav E k :
  stored_path E (uuid_str E k) "audio.wav"
  = upload_prefix E +:+ uuid_str E k +:+ "_audio.wav".
Proof.
  rewrite stored_path_under_folder, stored_name_alnum by reflexivity.
  reflexivity.
Qed.

(** X11.  A recorded question, from the client to the model manager and back.
    Whatever the recording is called on the client, the gateway stores
    it as [<identifier>_audio.wav] in its upload folder, and that is the
    file the model manager transcribes.  The client shows the
    transcription and keeps the stored path; when the model manager
    raises, it shows the status and the body of the 500 instead. *)
Theorem recorded_question_is_transcribed
  (dumps : pyval → string) (elsewhere : outcome Response)
  (open_rb : string → outcome string) E s audio data g o fs' :
  open_rb audio = Ret data →
  let audio_path := stored_path E (uuid_str E (st_uuids s)) "audio.wav" in
  save_error E audio_path = None →
  mm_transcribe_audio (model_manager E) audio_path
    (<[audio_path := data]> (st_fs s)) = (o, fs') →
  audio_path = upload_prefix E +:+ uuid_str E (st_uuids s) +:+ "_audio.wav"
  ∧ transcribe_audio_query open_rb
      (λ url fs, wire dumps elsewhere E s POST url (files_request fs))
      (Some audio) g
    = match o with
      | Ret transcription =>
          (Ret (VStr transcription),
           {| current_image_path := current_image_path g;
              current_audio_path := VStr audio_path |})
      | Raise e =>
          (Ret (VStr ("Error: 500 - "
                      +:+ dumps
                            (error_envelope
                               "An error occurred during transcription." e).1)),
           g)
      end.
Proof.
  intros Hopen audio_path Hsave Hout. subst audio_path.
  split; [apply stored_path_audio_wav|].
  unfold transcribe_audio_query, wire. rewrite Hopen.
  change (endpoint_of_url POST TRANSCRIBE_API_URL) with (Some ApiTranscribe).
  cbv beta iota zeta.
  rewrite (transcribe_run E _ s
             [("audio", {| filename := "audio.wav"; content := data |})]
             {| filename := "audio.wav"; content := data |} o fs')
    by done.
  destruct o; reflexivity.
Qed.

Lemma recorded_question_is_transcribed_witness :
  transcribe_audio_query (λ _, Ret "RIFF")
    (λ url fs,
       wire (λ _, "{}") (Raise (Exn "ConnectionError" "refused"))
         Demo.E Demo.s0 POST url (files_request fs))
    (Some "/tmp/gradio/recording-17.wav")
    {| current_image_path := VNone; current_audio_path := VNone |}
  = (Ret (VStr "what is this"),
     {| current_image_path := VNone;
        current_audio_path :=
          VStr "app/uploads/00000000-0000-4000-8000-000000000000_audio.wav" |}).
Proof.
  destruct (recorded_question_is_transcribed (λ _, "{}")
              (Raise (Exn "ConnectionError" "refused")) (λ _, Ret "RIFF")
              Demo.E Demo.s0 "/tmp/gradio/recording-17.wav" "RIFF"
              {| current_image_path := VNone; current_audio_path := VNone |}
              (Ret "what is this")
              {[ "app/uploads/00000000-0000-4000-8000-000000000000_audio.wav"
                 := "RIFF" ]}
              eq_refl eq_refl eq_refl) as [_ ->].
  reflexivity.
Defined.

(** X12.  The question about an image, from the client to the model manager
    and back.  The client sends the path the image has on its own
    machine, not the image, and the model manager is asked about that
    very path.  Any text is sent as the question but the empty one and
    the prompt [Please record your question.]; the messages a failed
    transcription leaves in the box are sent like any other. *)
Theorem question_is_asked_about_local_path
  (dumps : pyval → string) (elsewhere : outcome Response)
  E s image transcription g o fs' :
  image ≠ "" →
  transcription ≠ "" →
  transcription ≠ "Please record your question." →
  mm_process_image_and_query (model_manager E) image transcription (st_fs s)
  = (o, fs') →
  generate_model_response
    (λ url fm, wire dumps elsewhere E s POST url (data_request fm))
    (Some image) transcription g
  = (match o with
     | Ret response_text => VStr response_text
     | Raise e =>
         VStr ("Error: 500 - "
               +:+ dumps
                     (error_envelope
                        "An error occurred while generating the response." e).1)
     end,
     {| current_image_path := VStr image;
        current_audio_path := current_audio_path g |}).
Proof.
  intros Himage Hne%String.eqb_neq Hprompt%String.eqb_neq Hout.
  unfold generate_model_response, wire. rewrite Hne, Hprompt.
  change (endpoint_of_url POST RESPONSE_API_URL)
    with (Some ApiGenerateResponse).
  cbv beta iota zeta. cbn [orb].
  rewrite (generate_response_run E _ s
             [("image_path", image); ("query", transcription)]
             image transcription o fs');
    [|done|done|done|done|by apply String.eqb_neq|done].
  destruct o; reflexivity.
Qed.

Lemma question_is_asked_about_local_path_witness :
  (generate_model_response
     (λ url fm,
        wire (λ _, "{}") (Raise (Exn "ConnectionError" "refused"))
          Demo.E Demo.s0 POST url (data_request fm))
     (Some "/tmp/gradio/cat.png") "Error: 500 - {}"
     {| current_image_path := VNone; current_audio_path := VNone |}).1
  = VStr "a cat".
Proof.
  rewrite (question_is_asked_about_local_path (λ _, "{}")
             (Raise (Exn "ConnectionError" "refused")) Demo.E Demo.s0
             "/tmp/gradio/cat.png" "Error: 500 - {}"
             {| current_image_path := VNone; current_audio_path := VNone |}
             (Ret "a cat") ∅
             ltac:(discriminate) ltac:(discriminate) ltac:(discriminate)
             eq_refl).
  reflexivity.
Defined.



(** X14.  No message of [generate_model_response] is read aloud.  Whenever
    the step ends otherwise than with the text of a 200, what it puts in
    the response box is a message that begins with [Please] or with
    [Error], and [generate_audio_response] returns nothing for such a
    text, without asking the gateway. *)
Theorem failures_are_not_spoken
  (post_data : string → list (string * string) → outcome Response)
  image transcription g
  (post : pyval → outcome (nat * pyval)) voices_options client_upload_folder
  language voice_selection speed :
  match image with
  | None => True
  | Some image =>
      transcription = ""
      ∨ transcription = "Please record your question."
      ∨ answered (post_data RESPONSE_API_URL
                    [("image_path", image); ("query", transcription)])
        = false
  end →
  ∃ message,
    (generate_model_response post_data image transcription g).1 = VStr message
    ∧ generate_audio_response post voices_options client_upload_folder
        message language voice_selection speed = None.
Proof.
  assert (∀ e, generate_audio_response post voices_options
                 client_upload_folder (error_communicating e) language
                 voice_selection speed = None) as Hcomm by reflexivity.
  assert (∀ response, generate_audio_response post voices_options
                        client_upload_folder (error_status response)
                        language voice_selection speed = None)
    as Hstatus by reflexivity.
  unfold generate_model_response, answered.
  destruct image as [image|]; [|by eexists].
  intros Hfail.
  destruct (String.eqb transcription ""
            || String.eqb transcription "Please record your question.")
    eqn:Hguard; [by eexists|].
  apply orb_false_iff in Hguard as [Hne Hprompt].
  destruct Hfail as [->| [->|Hfail]]; [done|done|].
  cbv zeta.
  destruct (post_data _ _) as [response|e]; [|by eexists].
  destruct (Nat.eqb (status_code response) 200); [|by eexists].
  destruct (decoded response) as [result|e]; [|by eexists].
  destruct result; try done; by eexists.
Qed.

Lemma failures_are_not_spoken_witness :
  ∃ message,
    (generate_model_response
       (λ _ _, Ret {| status_code := 500; text := "{}";
                      decoded := Ret (VDict []) |})
       (Some "/tmp/gradio/cat.png") "what is this"
       {| current_image_path := VNone; current_audio_path := VNone |}).1
    = VStr message
    ∧ generate_audio_response (post_text_to_speech Demo.E Demo.s0) [] None
        message "English (African)" "Heart (Female)" Demo.f1_5 = None.
Proof.
  apply (failures_are_not_spoken
           (λ _ _, Ret {| status_code := 500; text := "{}";
                          decoded := Ret (VDict []) |})
           (Some "/tmp/gradio/cat.png") "what is this").
  right. right. reflexivity.
Defined.

(** ** The voices the client offers *)

Section VoiceChoices.

Variable py_str : pyval → string.

Implicit Types (catalog : gmap string (list (string * pyval)))
  (ids : list string).

Lemma dict_set_fmap {A B} (f : A → B) k v (d : list (string * A)) :
  (λ e, (e.1, f e.2)) <$> dict_set k v d
  = dict_set k (f v) ((λ e, (e.1, f e.2)) <$> d).
Proof.
  induction d as [|[k' v'] d IH]; [done|].
  cbn [dict_set fmap list_fmap fst snd].
  destruct (String.eqb k k'); [done|].
  cbn [fmap list_fmap fst snd]. f_equal. apply IH.
Qed.

Lemma dict_get_fmap {A B} (f : A → B) k (d : list (string * A)) :
  dict_get k ((λ e, (e.1, f e.2)) <$> d) = f <$> dict_get k d.
Proof.
  induction d as [|[k' v'] d IH]; [done|].
  cbn [dict_get fmap list_fmap fst snd]. by destruct (String.eqb k k').
Qed.

Lemma dict_get_keys {A} k (d : list (string * A)) :
  k ∈ d.*1 ↔ is_Some (dict_get k d).
Proof.
  induction d as [|[k' v'] d IH]; cbn [dict_get fmap list_fmap fst].
  - split; [by intros ?%elem_of_nil | by intros []].
  - rewrite elem_of_cons, IH. destruct (String.eqb k k') eqn:Hk.
    + apply String.eqb_eq in Hk. split; [by eexists | by left].
    + apply String.eqb_neq in Hk. split; [by intros [?|?] | by right].
Qed.

Lemma dict_get_set_Some {A} k k' (v w : A) d :
  dict_get k (dict_set k' v d) = Some w ↔
  (k = k' ∧ w = v) ∨ (k ≠ k' ∧ dict_get k d = Some w).
Proof.
  destruct (decide (k = k')) as [->|Hne].
  - rewrite dict_get_set. split; [intros [= ->]; by left|].
    by intros [[_ ->]|[? _]].
  - rewrite dict_get_set_ne by done. split; [by right|].
    by intros [[? _]|[_ ?]].
Qed.

(** An entry of the gateway's document, as the client reads it. *)
Lemma entry_display i info :
  is_Some (dict_get "name" info) → is_Some (dict_get "gender" info) →
  display_name py_str (VDict (dict_set "id" (VStr i) info))
  = Some (display_of py_str info).
Proof.
  intros [name Hname] [gender Hgender].
  unfold display_name, display_of, py_getitem.
  rewrite !dict_get_set_ne by done. by rewrite Hname, Hgender.
Qed.

Lemma entry_display_none i info :
  dict_get "name" info = None ∨ dict_get "gender" info = None →
  display_name py_str (VDict (dict_set "id" (VStr i) info)) = None.
Proof.
  unfold display_name, py_getitem.
  rewrite !dict_get_set_ne by done.
  intros [->| ->]; [done|]. by destruct (dict_get "name" info).
Qed.

(** The comprehension over the entries of one language. *)
Lemma voice_choices_loop catalog ids acc :
  (∀ i info, i ∈ ids → catalog !! i = Some info →
             is_Some (dict_get "name" info)
             ∧ is_Some (dict_get "gender" info)) →
  foldl (λ choices v,
           choices ← choices;
           key ← display_name py_str v;
           value ← py_getitem v "id";
           Some (dict_set key value choices))
    (Some (id_values acc))
    (omap (λ i, (λ info, VDict (dict_set "id" (VStr i) info))
                <$> catalog !! i) ids)
  = Some (id_values
            (foldl (λ choices i,
                      match catalog !! i with
                      | Some info => dict_set (display_of py_str info) i choices
                      | None => choices
                      end) acc ids)).
Proof.
  revert acc. induction ids as [|i ids IH]; intros acc Hok; [done|].
  cbn [omap list_omap foldl].
  destruct (catalog !! i) as [info|] eqn:Hi;
    cbn [fmap option_fmap option_map].
  - cbn [foldl mbind option_bind].
    destruct (Hok i info) as [Hname Hgender]; [by left|done|].
    rewrite (entry_display i info Hname Hgender).
    cbn [mbind option_bind py_getitem]. rewrite dict_get_set.
    cbn [mbind option_bind].
    unfold id_values at 1. rewrite <-(dict_set_fmap VStr).
    apply IH. intros j info' Hj. apply Hok. by right.
  - apply IH. intros j info' Hj. apply Hok. by right.
Qed.

Lemma voice_choices_entries catalog ids :
  (∀ i info, i ∈ ids → catalog !! i = Some info →
             is_Some (dict_get "name" info)
             ∧ is_Some (dict_get "gender" info)) →
  voice_choices py_str (VList (voices_info_of catalog ids))
  = Some (id_values (choices_of py_str catalog ids)).
Proof.
  intros Hok. unfold voice_choices, choices_of.
  cbn [py_iter mbind option_bind]. rewrite voices_info_of_omap.
  by apply (voice_choices_loop catalog ids []).
Qed.

(** The loop over the languages of the document. *)
Lemma voices_options_loop catalog (l : list (string * list string)) acc :
  (∀ language ids i info,
     (language, ids) ∈ l → i ∈ ids → catalog !! i = Some info →
     is_Some (dict_get "name" info) ∧ is_Some (dict_get "gender" info)) →
  foldl (λ voices_options '(lang, voices),
           voices_options ← voices_options;
           choices ← voice_choices py_str voices;
           Some (dict_set lang choices voices_options))
    (Some (as_values acc))
    ((λ group, (group.1, VList (voices_info_of catalog group.2))) <$> l)
  = Some (as_values
            (foldl (λ voices_options group,
                      dict_set group.1 (choices_of py_str catalog group.2)
                        voices_options) acc l)).
Proof.
  revert acc. induction l as [|[language ids] l IH]; intros acc Hok; [done|].
  cbn [fmap list_fmap foldl fst snd mbind option_bind].
  rewrite voice_choices_entries
    by (intros i info; apply (Hok language ids); by left).
  cbn [mbind option_bind].
  unfold as_values at 1. rewrite <-(dict_set_fmap id_values).
  apply IH. intros language' ids' i info Hin.
  apply (Hok language' ids'). by right.
Qed.

(** What the choices of a language are. *)
Lemma choices_of_snoc catalog ids i :
  choices_of py_str catalog (ids ++ [i])
  = match catalog !! i with
    | Some info =>
        dict_set (display_of py_str info) i (choices_of py_str catalog ids)
    | None => choices_of py_str catalog ids
    end.
Proof. unfold choices_of. by rewrite foldl_app. Qed.

Lemma choices_of_sound catalog ids display i :
  dict_get display (choices_of py_str catalog ids) = Some i →
  ∃ info, i ∈ ids ∧ catalog !! i = Some info
          ∧ display = display_of py_str info.
Proof.
  induction ids as [|j ids IH] using rev_ind; [done|].
  rewrite choices_of_snoc.
  destruct (catalog !! j) as [info|] eqn:Hj.
  - intros [[-> ->]|[_ Hget]]%dict_get_set_Some.
    + exists info. split_and!; [|done..]. apply elem_of_app. right. by left.
    + destruct (IH Hget) as (info' & Hin & ? & ?). exists info'.
      split_and!; [|done..]. apply elem_of_app. by left.
  - intros Hget. destruct (IH Hget) as (info' & Hin & ? & ?). exists info'.
    split_and!; [|done..]. apply elem_of_app. by left.
Qed.

Lemma choices_of_complete catalog ids i info :
  i ∈ ids → catalog !! i = Some info →
  is_Some (dict_get (display_of py_str info) (choices_of py_str catalog ids)).
Proof.
  induction ids as [|j ids IH] using rev_ind; [by intros ?%elem_of_nil|].
  rewrite choices_of_snoc.
  intros [Hin|Hj%list_elem_of_singleton]%elem_of_app Hi.
  - specialize (IH Hin Hi). destruct (catalog !! j) as [info'|]; [|done].
    destruct (decide (display_of py_str info = display_of py_str info'))
      as [->|Hne].
    + rewrite dict_get_set. by eexists.
    + by rewrite dict_get_set_ne.
  - subst j. rewrite Hi, dict_get_set. by eexists.
Qed.

(** What the options of the client are. *)
Lemma options_of_lookup catalog (groups : gmap string (list string))
    language ids :
  groups !! language = Some ids →
  dict_get language (options_of py_str catalog groups)
  = Some (choices_of py_str catalog ids).
Proof.
  intros Hin%elem_of_map_to_list. unfold options_of.
  pose proof (NoDup_fst_map_to_list groups) as Hnd.
  induction (map_to_list groups) as [|[k v] l IH] using rev_ind;
    [by apply elem_of_nil in Hin|].
  rewrite foldl_app. cbn [foldl fst snd].
  rewrite fmap_app in Hnd. apply NoDup_app in Hnd as (Hnd & Hfresh & _).
  apply elem_of_app in Hin as [Hin|Hin%list_elem_of_singleton].
  - rewrite dict_get_set_ne; [by apply IH|].
    intros <-. apply (Hfresh language); [|by left].
    apply list_elem_of_fmap. by exists (language, ids).
  - injection Hin as -> ->. apply dict_get_set.
Qed.

End VoiceChoices.

Lemma voices_by_language_answer E r s groups catalog :
  mm_get_voices_by_language (model_manager E) = Ret groups →
  mm_get_available_voices (model_manager E) = Ret catalog →
  dispatch E ApiVoicesByLanguage r s
  = ((jsonify_by_language (build_response catalog groups), 200%nat), s,
     [EvVoicesByLanguage; EvVoices]).
Proof. intros Hg Hc. open_handler. exec; shown; by same_call. Qed.

Lemma voices_by_language_failure E r s :
  (∃ e, mm_get_voices_by_language (model_manager E) = Raise e)
  ∨ (∃ e, mm_get_available_voices (model_manager E) = Raise e) →
  status (answer (dispatch E ApiVoicesByLanguage r s)) = 500%nat.
Proof.
  intros [[e He]|[e He]]; open_handler; exec; shown; by same_call.
Qed.

(** The document of the gateway, as a list of languages and entries. *)
Lemma voices_document_items catalog (groups : gmap string (list string)) :
  map_to_list (VList <$> build_response catalog groups)
  = (λ group, (group.1, VList (voices_info_of catalog group.2)))
      <$> map_to_list groups.
Proof.
  rewrite build_response_fmap, !map_to_list_fmap, <-list_fmap_compose.
  apply list_fmap_ext. by intros _ [language ids] _.
Qed.

(** X15.  The voices on offer, from the catalog to the two boxes of the
    client.  When every descriptor the gateway hands out has a name and
    a gender, the client offers the languages of the grouping, in some
    order; for each language, the choices of the voice box are the
    display names of the voices the catalog knows in the group, the
    first of them selected; and the id sent with a choice is the id of a
    voice of that group with that display name. *)
Theorem offered_voices_come_from_catalog
  (py_str : pyval → string) (dumps : pyval → string)
  (elsewhere : outcome Response) E s groups catalog :
  mm_get_voices_by_language (model_manager E) = Ret groups →
  mm_get_available_voices (model_manager E) = Ret catalog →
  (∀ language ids i info,
     groups !! language = Some ids → i ∈ ids → catalog !! i = Some info →
     is_Some (dict_get "name" info) ∧ is_Some (dict_get "gender" info)) →
  ∃ languages voices_options,
    load_voices py_str
      (λ url, wire dumps elsewhere E s GET url (data_request []))
    = (languages, as_values voices_options)
    ∧ languages ≡ₚ (map_to_list groups).*1
    ∧ ∀ language ids,
        groups !! language = Some ids →
        let choices := (update_voice_options voices_options language).1 in
        (update_voice_options voices_options language).2 = head choices
        ∧ (∀ display,
             display ∈ choices →
             ∃ info,
               voice_id_of voices_options language display ∈ ids
               ∧ catalog !! voice_id_of voices_options language display
                 = Some info
               ∧ display = display_of py_str info)
        ∧ (∀ i info,
             i ∈ ids → catalog !! i = Some info →
             display_of py_str info ∈ choices).
Proof.
  intros Hgroups Hcatalog Hok.
  exists (map_to_list groups).*1, (options_of py_str catalog groups).
  split_and!; [|done|].
  - unfold load_voices, wire.
    change (endpoint_of_url GET VOICES_API_URL)
      with (Some ApiVoicesByLanguage).
    cbv beta iota zeta.
    rewrite (voices_by_language_answer E _ s groups catalog) by done.
    cbv [answer status fst snd status_code decoded jsonify_by_language
           Nat.eqb].
    rewrite voices_document_items. unfold voices_options_of.
    rewrite (voices_options_loop py_str catalog (map_to_list groups) []).
    + f_equal. rewrite <-list_fmap_compose. apply list_fmap_ext.
      by intros _ [language ids] _.
    + intros language ids i info Hin%elem_of_map_to_list.
      by apply (Hok language ids).
  - intros language ids Hids choices. subst choices.
    unfold update_voice_options, voice_id_of.
    rewrite (options_of_lookup py_str catalog groups language ids Hids).
    cbn [fst snd from_option id]. split; [done|]. split.
    + intros display [i Hi]%dict_get_keys. rewrite Hi. cbn [from_option id].
      destruct (choices_of_sound py_str catalog ids display i Hi)
        as (info & ? & ? & ?).
      by exists info.
    + intros i info Hi Hinfo. apply dict_get_keys.
      by apply (choices_of_complete py_str catalog ids i).
Qed.

Lemma offered_voices_come_from_catalog_witness :
  ∃ languages voices_options,
    load_voices (λ _, "")
      (λ url,
         wire (λ _, "{}") (Raise (Exn "ConnectionError" "refused"))
           (with_catalog Demo.catalog Demo.E) Demo.s0 GET url
           (data_request []))
    = (languages, as_values voices_options)
    ∧ voice_id_of voices_options "Japanese" "Alpha (Female)" = "jf_alpha".
Proof.
  destruct (offered_voices_come_from_catalog (λ _, "") (λ _, "{}")
              (Raise (Exn "ConnectionError" "refused"))
              (with_catalog Demo.catalog Demo.E) Demo.s0
              (list_voices_by_language Demo.catalog)
              (list_voices Demo.catalog) eq_refl eq_refl)
    as (languages & voices_options & Hload & _ & Hoffer).
  - intros language ids i info _ _. unfold list_voices.
    rewrite lookup_fmap. destruct (Demo.catalog !! i) as [v|]; [|done].
    intros [= <-]. split; by eexists.
  - exists languages, voices_options. split; [exact Hload|].
    destruct (Hoffer "Japanese" ["jf_alpha"]) as (_ & Hsound & Hcomplete);
      [by vm_compute|].
    destruct (Hsound "Alpha (Female)") as (_ & Hid%list_elem_of_singleton & _).
    + apply (Hcomplete "jf_alpha"
               (descriptor_dict {| vd_name := "Alpha"; vd_gender := "Female";
                                   vd_language := "Japanese" |}));
        [by left | by vm_compute].
    + exact Hid.
Defined.

(** Once a step has failed, the loop has. *)
Lemma foldl_fails {A B} (step : option A → B → option A) (l : list B) x init :
  (∀ y, step None y = None) →
  x ∈ l → (∀ acc, step acc x = None) →
  foldl step init l = None.
Proof.
  intros Hnone Hin Hx.
  assert (∀ k, foldl step None k = None) as Hstuck.
  { induction k as [|y k IH]; [done|]. cbn [foldl]. by rewrite Hnone. }
  revert init.
  induction l as [|y l IH]; intros init; [by apply elem_of_nil in Hin|].
  cbn [foldl]. apply elem_of_cons in Hin as [<-|Hin]; [|by apply IH].
  by rewrite Hx.
Qed.

(** X16.  When the gateway does not answer 200, because the model manager
    raised, or a descriptor it hands out lacks its name or its gender,
    the client says nothing and starts with its one built-in voice, in
    place of all the voices of the catalog. *)
Theorem incomplete_catalog_means_default
  (py_str : pyval → string) (dumps : pyval → string)
  (elsewhere : outcome Response) E s :
  (∃ e, mm_get_voices_by_language (model_manager E) = Raise e)
  ∨ (∃ e, mm_get_available_voices (model_manager E) = Raise e)
  ∨ (∃ groups catalog language ids i info,
       mm_get_voices_by_language (model_manager E) = Ret groups
       ∧ mm_get_available_voices (model_manager E) = Ret catalog
       ∧ groups !! language = Some ids ∧ i ∈ ids
       ∧ catalog !! i = Some info
       ∧ (dict_get "name" info = None ∨ dict_get "gender" info = None)) →
  load_voices py_str
    (λ url, wire dumps elsewhere E s GET url (data_request []))
  = (["English (African)"],
     [("English (African)", [("Heart (Female)", VStr "af_heart")])]).
Proof.
  intros Hfail. unfold load_voices, wire.
  change (endpoint_of_url GET VOICES_API_URL) with (Some ApiVoicesByLanguage).
  cbv beta iota zeta. cbn [status_code decoded].
  destruct Hfail as [Hraise|[Hraise|Hmissing]].
  1,2: by rewrite voices_by_language_failure by auto.
  destruct Hmissing
    as (groups & catalog & language & ids & i & info
        & Hgroups & Hcatalog & Hids & Hi & Hinfo & Hmissing).
  rewrite (voices_by_language_answer E _ s groups catalog) by done.
  cbv [answer status fst snd jsonify_by_language Nat.eqb].
  rewrite voices_document_items. unfold voices_options_of.
  rewrite (foldl_fails _ _ (language, VList (voices_info_of catalog ids)));
    [done|by intros []| |].
  - apply list_elem_of_fmap. exists (language, ids).
    split; [done|]. by apply elem_of_map_to_list.
  - intros [acc|]; [|done]. cbn [mbind option_bind].
    unfold voice_choices. cbn [py_iter mbind option_bind].
    rewrite (foldl_fails _ _ (VDict (dict_set "id" (VStr i) info)));
      [done|done| |].
    + rewrite voices_info_of_omap. apply list_elem_of_omap.
      exists i. by rewrite Hinfo.
    + intros [choices|]; [|done]. cbn [mbind option_bind].
      by rewrite entry_display_none.
Qed.

Lemma incomplete_catalog_means_default_witness :
  (load_voices (λ _, "")
     (λ url,
        wire (λ _, "{}") (Raise (Exn "ConnectionError" "refused"))
          Faulty.E_voices Demo.s0 GET url (data_request []))).1
  = ["English (African)"].
Proof.
  rewrite (incomplete_catalog_means_default (λ _, "") (λ _, "{}")
             (Raise (Exn "ConnectionError" "refused"))
             Faulty.E_voices Demo.s0); [done|].
  right. right.
  exists {[ "Japanese" := ["jf_alpha"] ]},
    {[ "jf_alpha" := [("name", VStr "Alpha")] ]},
    "Japanese", ["jf_alpha"], "jf_alpha", [("name", VStr "Alpha")].
  split_and!; [reflexivity|reflexivity|by vm_compute|by left|by vm_compute|].
  by right.
Defined.

(** ** Requests the handlers cannot read *)

(** The part of the request a handler reads first. *)
Lemma first_read_raises E ep r s e :
  match ep with
  | ApiTranscribe | ApiProcess => files r = Raise e
  | ApiGenerateResponse => form r = Raise e
  | ApiTextToSpeech => json r = Raise e
  | _ => False
  end →
  ∃ msg,
    snd <$> handler_body E ep r = Some msg
    ∧ dispatch E ep r s = (error_envelope msg e, s, [EvTraceback e]).
Proof.
  destruct ep; try done; intros Hread; eexists;
    (split; [reflexivity|]); open_handler; exec; shown; by same_call.
Qed.

(** X17.  When reading the request itself raises, as it does for a body
    larger than [MAX_CONTENT_LENGTH] or one that is no JSON, the
    exception is caught like any other: the answer is the 500 of the
    handler with the text of the exception, not the status the exception
    stands for, and nothing else has happened. *)
Theorem unreadable_request_is_500 E ep r s e :
  match ep with
  | ApiTranscribe | ApiProcess => files r = Raise e
  | ApiGenerateResponse => form r = Raise e
  | ApiTextToSpeech => json r = Raise e
  | _ => False
  end →
  status (answer (dispatch E ep r s)) = 500%nat
  ∧ body_field "details" (answer (dispatch E ep r s)) = Some (VStr (exn_str e))
  ∧ final (dispatch E ep r s) = s
  ∧ trace (dispatch E ep r s) = [EvTraceback e].
Proof.
  intros Hread.
  destruct (first_read_raises E ep r s e Hread) as (msg & _ & ->). done.
Qed.

Lemma unreadable_request_is_500_witness :
  answer
    (dispatch Demo.E ApiProcess
       {| files :=
            Raise (Exn "RequestEntityTooLarge"
                     "413 Request Entity Too Large: The data value transmitted exceeds the capacity limit.");
          form := Ret []; json := Ret VNone |}
       Demo.s0)
  = error_envelope "An internal error occurred. Please try again later."
      (Exn "RequestEntityTooLarge"
         "413 Request Entity Too Large: The data value transmitted exceeds the capacity limit.").
Proof.
  destruct (unreadable_request_is_500 Demo.E ApiProcess
              {| files :=
                   Raise (Exn "RequestEntityTooLarge"
                            "413 Request Entity Too Large: The data value transmitted exceeds the capacity limit.");
                 form := Ret []; json := Ret VNone |}
              Demo.s0
              (Exn "RequestEntityTooLarge"
                 "413 Request Entity Too Large: The data value transmitted exceeds the capacity limit.")
              eq_refl) as (_ & _ & _ & _).
  reflexivity.
Defined.

(** X18.  A JSON body that is not an object, [null] and a list among them, is
    no missing input for [/api/text_to_speech]: reading the first field
    raises, and the answer is 500, not 400. *)
Theorem non_object_body_is_500 E r s v :
  json r = Ret v →
  (∀ d, v ≠ VDict d) →
  dispatch E ApiTextToSpeech r s
  = (error_envelope "An error occurred during text-to-speech conversion."
       (Exn "AttributeError"
          ("'" +:+ type_name v +:+ "' object has no attribute 'get'")),
     s,
     [EvTraceback
        (Exn "AttributeError"
           ("'" +:+ type_name v +:+ "' object has no attribute 'get'"))]).
Proof.
  intros Hjson Hv. open_handler.
  destruct v; try (by destruct (Hv d)); exec; shown; by same_call.
Qed.

Lemma non_object_body_is_500_witness :
  body_field "details"
    (answer (dispatch Demo.E ApiTextToSpeech (json_request VNone) Demo.s0))
  = Some (VStr "'NoneType' object has no attribute 'get'").
Proof.
  rewrite (non_object_body_is_500 Demo.E (json_request VNone) Demo.s0 VNone
             eq_refl ltac:(discriminate)).
  reflexivity.
Defined.

(** ** A speed that is no number at all *)

(** X19.  The floor of the high-performance mode does not hold for NaN:
    [max(speed, 1.2)] keeps its first argument unless the second is
    greater, and nothing is greater than NaN.  A request whose speed
    reads as NaN is answered like any other, and the model manager is
    asked for the speed NaN, with the flag or without. *)
Theorem nan_speed_defeats_floor E ep r s :
  requested_speed E ep r = Some (Ret S754_nan) →
  status (answer (dispatch E ep r s)) = 200%nat →
  speeds_passed (trace (dispatch E ep r s)) = [S754_nan]
  ∧ PyFloat.le PyFloat.f1_2 S754_nan = false.
Proof.
  intros Hreq H200. split; [|done].
  destruct (speeds_of_run E ep r s S754_nan Hreq) as [_ Hpassed].
  rewrite (Hpassed H200). by destruct (high_performance_flag ep r).
Qed.

Lemma nan_speed_defeats_floor_witness :
  high_performance_flag ApiProcess Faulty.process_nan_speed = true
  ∧ speeds_passed
      (trace (dispatch Demo.E ApiProcess Faulty.process_nan_speed Demo.s0))
    = [S754_nan].
Proof.
  split; [reflexivity|].
  apply (nan_speed_defeats_floor Demo.E ApiProcess Faulty.process_nan_speed
           Demo.s0 eq_refl eq_refl).
Defined.

(** ** What the transcription step of the client can do *)

(** X20.  [transcribe_audio_query] raises only when the recording cannot be
    opened, which happens before its [try]; everything that goes wrong
    afterwards becomes a message for the transcription box.  It never
    touches [current_image_path], and it sets [current_audio_path] only
    after a 200 whose body could be read. *)
Theorem transcription_step_outcomes
  (open_rb : string → outcome string)
  (post_files : string → list (string * FileStorage) → outcome Response)
  audio g :
  let out := transcribe_audio_query open_rb post_files audio g in
  (∀ e, out.1 = Raise e ↔ ∃ path, audio = Some path ∧ open_rb path = Raise e)
  ∧ current_image_path out.2 = current_image_path g
  ∧ (current_audio_path out.2 ≠ current_audio_path g →
     ∃ path data,
       audio = Some path ∧ open_rb path = Ret data
       ∧ answered
           (post_files TRANSCRIBE_API_URL
              [("audio", {| filename := "audio.wav"; content := data |})])
         = true).
Proof.
  intros out. subst out. unfold transcribe_audio_query, answered.
  destruct audio as [path|]; cbn [fst snd].
  2: { split_and!; [|done..]. intros e. split; [done|by intros (? & [=] & _)]. }
  destruct (open_rb path) as [data|e0] eqn:Hopen; cbn [fst snd].
  2: { split_and!; [|done..]. intros e. split.
       - intros [= ->]. by exists path.
       - intros (? & [= <-] & He). congruence. }
  cbv zeta.
  assert (∀ (e : exn) (v : pyval),
            Ret v = Raise e ↔
            ∃ path0, Some path = Some path0 ∧ open_rb path0 = Raise e)
    as Hnever.
  { intros e v. split; [done|]. intros (? & [= <-] & He). congruence. }
  destruct (post_files _ _) as [response|e0] eqn:Hpost; cbn [fst snd];
    [|by split_and!].
  destruct (Nat.eqb (status_code response) 200) eqn:Hstatus; cbn [fst snd];
    [|by split_and!].
  destruct (decoded response) as [result|e0] eqn:Hdecoded; cbn [fst snd];
    [|by split_and!].
  destruct result; cbn [py_get fst snd]; try by split_and!.
  split_and!; [done..|]. intros _. exists path, data.
  by rewrite Hpost, Hstatus, Hdecoded.
Qed.
